(** * Excel generation API: the mapping engine, the table builder, the
      workbook assembler and the bulk endpoint

    A shallow embedding of [src/api/utils/excelUtils.ts] and of the bulk
    handler of [src/api/controllers/excelController.ts], with the properties
    the specification states about them.

    Conventions of the embedding.
    - A JavaScript value that comes out of [JSON.parse] is a [JsValue].
      Two more constructors are what reading a member can yield besides
      data: [VUndefined] when the member is not there, [VFunction] when the
      key names a method the value inherits, such as [toString].  An
      object of the document is a plain object: it inherits the members of
      [Object.prototype], which the language fixes.  What arrays, strings,
      numbers, booleans and functions inherit grows with the version of
      the runtime and is the parameter [inherited_member].
    - A JavaScript [number] is a double.  The arithmetic of the source on
      column numbers, row numbers, indices and lengths is modelled with
      the rounding of double arithmetic ([Module JsNumber]): it is exact
      up to 2^53 and rounds above.  The decimal rendering of a number
      ([number_to_string]) is the one of an integer below 2^53.  A number
      inside the JSON document is an integer; the code only ever tests
      such a number for being zero.
    - A string is a [string] of one-byte characters.
    - A thrown exception is a value of [exn]; a computation that may throw
      has type [Result A].  [await] is sequencing: the source has no
      concurrency of its own.
    - The spreadsheet library (ExcelJS) is not part of the repository.
      [Module Excel] models the calls the source makes, with the checks
      that make them throw: the decoding of a cell address and the bound
      of 16384 columns, the rules for the name of a new sheet, and the
      validation of a table and the cells [addTable] writes.  A worksheet
      of the model is a grid of cells that each own their value and their
      style; merged cells and the style objects that the cells of a loaded
      template may share are not represented.  So the statements about a
      sheet after a write speak of the values of its cells, and the
      statements about fills, fonts and number formats speak of what a
      callback assigns to the cell it is given.  Parsing a buffer and
      serialising a workbook are taken as parameters [xlsx_load] and
      [xlsx_writeBuffer].
    - The handlers take the body of a request as it was parsed.  The
      configuration objects are records with the members the interfaces of
      the source declare; an element of the array of a bulk request is such
      an object or [null]. *)

From Stdlib Require Import ZArith String Ascii List Lia Bool Sorted.
From Stdlib Require Import DecimalString DecimalPos DecimalZ.
From stdpp Require Import base option list gmap strings.
From Equations Require Import Equations.
Import ListNotations.

Open Scope Z_scope.
Open Scope string_scope.

Set Warnings "-register-all".

(* ===================================================================== *)
(** * Exceptions and results *)
(* ===================================================================== *)

(** What a [catch (error)] clause can receive: an [Error] object with its
    message ([error instanceof Error] holds), or some other thrown value. *)
Inductive exn : Type :=
| JsError (message : string)
| NonError.

Definition Result (A : Type) : Type := (exn + A)%type.

Definition ret {A} (a : A) : Result A := inr a.
Definition throw {A} (e : exn) : Result A := inl e.

Definition bind {A B} (m : Result A) (k : A -> Result B) : Result B :=
  match m with
  | inl e => inl e
  | inr a => k a
  end.

Notation "'let*' x ':=' m 'in' k" := (bind m (fun x => k))
  (at level 10, x name, m at level 100, k at level 200).

(** [try { body } catch (error) { handler }] *)
Definition try_catch {A} (body : Result A) (handler : exn -> Result A) : Result A :=
  match body with
  | inl e => handler e
  | inr a => inr a
  end.

(** [error instanceof Error ? error.message : fallback] *)
Definition message_or (fallback : string) (e : exn) : string :=
  match e with
  | JsError m => m
  | NonError => fallback
  end.

(** [list.forEach((x, index) => ...)] over a state that the callback
    updates; the callback may throw, which ends the loop. *)
Fixpoint forEach {A S} (f : S -> A -> Z -> Result S) (l : list A) (index : Z) (s : S)
  : Result S :=
  match l with
  | [] => ret s
  | x :: rest => let* s' := f s x index in forEach f rest (index + 1) s'
  end.

(** The same loop for a callback that cannot throw. *)
Fixpoint forEach_pure {A S} (f : S -> A -> Z -> S) (l : list A) (index : Z) (s : S) : S :=
  match l with
  | [] => s
  | x :: rest => forEach_pure f rest (index + 1) (f s x index)
  end.

(** [list.push(x)] *)
Definition push {A} (l : list A) (x : A) : list A := (l ++ [x])%list.

(** [list.map(x => ...)] with a callback that may throw. *)
Fixpoint mapM {A B} (f : A -> Result B) (l : list A) : Result (list B) :=
  match l with
  | [] => ret []
  | x :: rest => let* y := f x in let* ys := mapM f rest in ret (y :: ys)
  end.

(* ===================================================================== *)
(** * Characters and strings *)
(* ===================================================================== *)

(** [s.charCodeAt(i)] and [String.fromCharCode(n)] *)
Definition charCode (c : ascii) : Z := Z.of_nat (nat_of_ascii c).
Definition fromCharCode (n : Z) : ascii := ascii_of_nat (Z.to_nat n).

Definition is_upper (c : ascii) : bool :=
  Z.leb (charCode "A") (charCode c) && Z.leb (charCode c) (charCode "Z").

Definition is_digit (c : ascii) : bool :=
  Z.leb (charCode "0") (charCode c) && Z.leb (charCode c) (charCode "9").

Fixpoint string_forall (p : ascii -> bool) (s : string) : bool :=
  match s with
  | EmptyString => true
  | String c rest => p c && string_forall p rest
  end.

(** The longest prefix of [s] whose characters satisfy [p], and the rest. *)
Fixpoint span (p : ascii -> bool) (s : string) : string * string :=
  match s with
  | EmptyString => (EmptyString, EmptyString)
  | String c rest =>
      if p c then let '(a, b) := span p rest in (String c a, b)
      else (EmptyString, s)
  end.

(** [s.toLowerCase()] on one-byte characters *)
Definition lower_char (c : ascii) : ascii :=
  if is_upper c then fromCharCode (charCode c + 32) else c.

Fixpoint toLowerCase (s : string) : string :=
  match s with
  | EmptyString => EmptyString
  | String c rest => String (lower_char c) (toLowerCase rest)
  end.

(** The double quote, written by its character code. *)
Definition double_quote : string := String (ascii_of_nat 34) EmptyString.

(** The integer that a string of decimal digits writes. *)
Fixpoint digits_value_loop (digits : string) (result : Z) : Z :=
  match digits with
  | EmptyString => result
  | String c rest => digits_value_loop rest (result * 10 + (charCode c - charCode "0"))
  end.

Definition digits_value (digits : string) : Z := digits_value_loop digits 0.

(** The decimal rendering of an integer, as a template literal or a string
    concatenation produces it for a number below 2^53. *)
Definition number_to_string (n : Z) : string :=
  NilZero.string_of_int (Z.to_int n).

(** [path.split('.')]: the pieces between the dots, at least one piece. *)
Fixpoint split_dot (s : string) : list string :=
  match s with
  | EmptyString => [EmptyString]
  | String c rest =>
      if Ascii.eqb c "." then EmptyString :: split_dot rest
      else match split_dot rest with
           | piece :: pieces => String c piece :: pieces
           | [] => [String c EmptyString]
           end
  end.

(** [pieces.join('.')], used to write paths in statements. *)
Fixpoint join_dot (pieces : list string) : string :=
  match pieces with
  | [] => EmptyString
  | [p] => p
  | p :: rest => p ++ "." ++ join_dot rest
  end.

Definition dot_free (s : string) : bool :=
  string_forall (fun c => negb (Ascii.eqb c ".")) s.

(** The match of [/^([A-Z]+)([0-9]+)$/]: the column letters and the row
    digits of a cell reference. *)
Definition match_cell_ref (ref : string) : option (string * string) :=
  let '(letters, rest) := span is_upper ref in
  match letters, rest with
  | EmptyString, _ => None
  | _, EmptyString => None
  | _, _ => if string_forall is_digit rest then Some (letters, rest) else None
  end.

(* ===================================================================== *)
(** * JSON values *)
(* ===================================================================== *)

Inductive JsValue : Type :=
| VUndefined
| VNull
| VBool (b : bool)
| VNum (n : Z)
| VStr (s : string)
| VArr (items : list JsValue)
| VObj (props : list (string * JsValue))
| VFunction (name : string).

(** JavaScript truthiness: what [if (v)], [v && ...] and [v || ...] test. *)
Definition truthy (v : JsValue) : bool :=
  match v with
  | VUndefined | VNull => false
  | VBool b => b
  | VNum n => negb (n =? 0)%Z
  | VStr s => negb (String.eqb s "")
  | VArr _ | VObj _ | VFunction _ => true
  end.

(** [a || b] *)
Definition js_or (a b : JsValue) : JsValue := if truthy a then a else b.

Definition is_undefined (v : JsValue) : bool :=
  match v with VUndefined => true | _ => false end.

(** The own property [key] of an object; every key occurs once. *)
Fixpoint lookup_prop (key : string) (props : list (string * JsValue)) : option JsValue :=
  match props with
  | [] => None
  | (k, v) :: rest => if String.eqb k key then Some v else lookup_prop key rest
  end.

(** A canonical array index: the decimal numeral of a natural number. *)
Definition array_index (key : string) : option Z :=
  match NilZero.uint_of_string key with
  | Some u =>
      let i := Z.of_uint u in
      if String.eqb (number_to_string i) key then Some i else None
  | None => None
  end.

Definition lookup_Z {A} (l : list A) (i : Z) : option A :=
  if (i <? 0)%Z then None else l !! Z.to_nat i.

Fixpoint string_get (s : string) (i : nat) : option ascii :=
  match s, i with
  | EmptyString, _ => None
  | String c _, O => Some c
  | String _ rest, S i' => string_get rest i'
  end.

(** The own members of a value: the properties of an object, the elements
    and the [length] of an array, the characters and the [length] of a
    string. *)
Definition own_member (v : JsValue) (key : string) : option JsValue :=
  match v with
  | VObj props => lookup_prop key props
  | VArr items =>
      if String.eqb key "length" then Some (VNum (Z.of_nat (length items)))
      else match array_index key with
           | Some i => lookup_Z items i
           | None => None
           end
  | VStr s =>
      if String.eqb key "length" then Some (VNum (Z.of_nat (String.length s)))
      else match array_index key with
           | Some i =>
               if (i <? 0)%Z then None
               else match string_get s (Z.to_nat i) with
                    | Some c => Some (VStr (String c EmptyString))
                    | None => None
                    end
           | None => None
           end
  | _ => None
  end.

(** The methods of [Object.prototype], which every plain object inherits. *)
Definition object_prototype_methods : list string :=
  [ "hasOwnProperty"; "isPrototypeOf"; "propertyIsEnumerable";
    "toLocaleString"; "toString"; "valueOf";
    "__defineGetter__"; "__defineSetter__";
    "__lookupGetter__"; "__lookupSetter__" ].

(** [Object.prototype] itself, as far as member reads can tell: its
    prototype is [null], and its methods are read like those of any plain
    object. *)
Definition object_prototype : JsValue := VObj [("__proto__", VNull)].

(** The member [key] that a plain object inherits, [undefined] when there
    is none. *)
Definition object_prototype_member (key : string) : JsValue :=
  if String.eqb key "__proto__" then object_prototype
  else if String.eqb key "constructor" then VFunction "Object"
  else if existsb (String.eqb key) object_prototype_methods
       then VFunction ("Object.prototype." ++ key)
       else VUndefined.

(* ===================================================================== *)
(** * Numbers *)
(* ===================================================================== *)

(** A JavaScript number is a double.  On the integers the source computes
    with, every arithmetic operation returns the double nearest to the
    exact result, ties going to the even mantissa: integers up to 2^53 are
    doubles, so below that bound the operations are exact; above it the
    doubles are 2, 4, 8, ... apart.  (The overflow to [Infinity] at 2^1024
    is not represented.) *)
Module JsNumber.

(** [n / d] rounded to the nearest integer, ties to the even one, for
    [0 < d]. *)
Definition round_div (n d : Z) : Z :=
  let q := n / d in
  let r := n mod d in
  if (2 * r <? d)%Z then q
  else if (d <? 2 * r)%Z then q + 1
  else if Z.even q then q else q + 1.

(** The double nearest to the integer [z], for [0 <= z]: [z] itself when
    it has at most 53 bits, else [z] rounded to 53 significant bits. *)
Definition fl_nonneg (z : Z) : Z :=
  let e := Z.log2 z - 52 in
  if (e <=? 0)%Z then z else round_div z (2 ^ e) * 2 ^ e.

Definition fl (z : Z) : Z := Z.sgn z * fl_nonneg (Z.abs z).

(** [a + b], [a - b] and [a * b] *)
Definition add (a b : Z) : Z := fl (a + b).
Definition sub (a b : Z) : Z := fl (a - b).
Definition mul (a b : Z) : Z := fl (a * b).

(** [Math.floor(a / b)] for [0 <= a] and [0 < b]: the quotient is rounded
    to the nearest double, a mantissa of 53 bits at the binary exponent
    [e] of the quotient, and then floored. *)
Definition floor_div (a b : Z) : Z :=
  let q := a / b in
  if (q =? 0)%Z then 0
  else
    let e := Z.log2 q - 52 in
    if (0 <=? e)%Z then round_div a (b * 2 ^ e) * 2 ^ e
    else round_div (a * 2 ^ (- e)) b / 2 ^ (- e).

End JsNumber.

(** [parseInt(digits)], which the source applies to the digits matched by
    the pattern of cell references only: the double nearest to the integer
    the digits write. *)
Definition parseInt (digits : string) : Z := JsNumber.fl (digits_value digits).

(* ===================================================================== *)
(** * Column letters *)
(* ===================================================================== *)

(** The arithmetic of the two conversions is double arithmetic: a name of
    12 or more letters takes it above 2^53.  The character codes and the
    digit [charCodeAt(i) - 'A'.charCodeAt(0) + 1] are small and exact. *)
Fixpoint columnLetterToNumber_loop (letter : string) (result : Z) : Z :=
  match letter with
  | EmptyString => result
  | String c rest =>
      columnLetterToNumber_loop rest
        (JsNumber.add (JsNumber.mul result 26) (charCode c - charCode "A" + 1))
  end.

Definition columnLetterToNumber (letter : string) : Z :=
  columnLetterToNumber_loop letter 0.

(** The number of binary digits of a positive number: what the loop of
    [numberToColumnLetter] decreases. *)
Definition bit_length (n : Z) : nat :=
  if (n <=? 0)%Z then O else S (Z.to_nat (Z.log2 n)).

(** The [while (num > 0)] loop: [num--], then the letter of [num % 26] is
    put in front and [num] becomes [Math.floor(num / 26)].  The loop ends
    because each pass at least halves [num], rounding included. *)
Equations? numberToColumnLetter_loop (num : Z) (result : string) : string
  by wf (bit_length num) lt :=
  numberToColumnLetter_loop num result with Z_gt_dec num 0 => {
    | left _ =>
        numberToColumnLetter_loop (JsNumber.floor_div (JsNumber.sub num 1) 26)
          (String (fromCharCode (charCode "A" + JsNumber.sub num 1 mod 26)) result);
    | right _ => result }.
Proof.
  assert (Hround : forall n d, 0 < d ->
             n / d <= JsNumber.round_div n d <= n / d + 1).
  { intros n d Hd. unfold JsNumber.round_div.
    repeat match goal with |- context [if ?b then _ else _] => destruct b end; lia. }
  (* the decrement, rounded, is at most twice the exact one *)
  assert (Hsub : 0 <= JsNumber.sub num 1 <= 2 * (num - 1)).
  { unfold JsNumber.sub, JsNumber.fl.
    assert (Hz : 0 <= num - 1) by lia. revert Hz.
    generalize (num - 1). intros z Hz.
    assert (Hnn : 0 <= JsNumber.fl_nonneg z <= 2 * z).
    { unfold JsNumber.fl_nonneg.
      destruct (Z.leb_spec (Z.log2 z - 52) 0) as [H|H]; [lia|].
      assert (0 < z) by (destruct (Z.eq_dec z 0); [subst; simpl in *; lia | lia]).
      pose proof (Z.log2_spec z ltac:(lia)) as [Hlo Hhi].
      assert (HP : 0 < 2 ^ (Z.log2 z - 52)) by (apply Z.pow_pos_nonneg; lia).
      assert (2 ^ (Z.log2 z - 52) <= 2 ^ Z.log2 z) by (apply Z.pow_le_mono_r; lia).
      pose proof (Hround z (2 ^ (Z.log2 z - 52)) HP) as [Hr1 Hr2].
      pose proof (Z.div_pos z (2 ^ (Z.log2 z - 52)) Hz HP).
      pose proof (Z.mul_div_le z (2 ^ (Z.log2 z - 52)) HP).
      split; nia. }
    destruct z as [|p|p]; [simpl; lia | | lia].
    change (Z.sgn (Z.pos p)) with 1. change (Z.abs (Z.pos p)) with (Z.pos p). lia. }
  (* the quotient, rounded and floored, is at most twice the exact one *)
  assert (Hdiv : forall a, 0 <= a ->
             0 <= JsNumber.floor_div a 26 <= 2 * (a / 26)).
  { intros a Ha. unfold JsNumber.floor_div.
    pose proof (Z.div_pos a 26 Ha ltac:(lia)) as Hq.
    destruct (Z.eqb_spec (a / 26) 0) as [E|E]; [lia|].
    pose proof (Z.log2_spec (a / 26) ltac:(lia)) as [Hlo Hhi].
    destruct (Z.leb_spec 0 (Z.log2 (a / 26) - 52)) as [H|H].
    - assert (HP : 0 < 2 ^ (Z.log2 (a / 26) - 52)) by (apply Z.pow_pos_nonneg; lia).
      assert (2 ^ (Z.log2 (a / 26) - 52) <= 2 ^ Z.log2 (a / 26))
        by (apply Z.pow_le_mono_r; lia).
      pose proof (Hround a (26 * 2 ^ (Z.log2 (a / 26) - 52)) ltac:(lia)) as [Hr1 Hr2].
      assert (0 <= a / (26 * 2 ^ (Z.log2 (a / 26) - 52))) by (apply Z.div_pos; lia).
      assert (a / (26 * 2 ^ (Z.log2 (a / 26) - 52)) * 2 ^ (Z.log2 (a / 26) - 52) <= a / 26).
      { rewrite <- Z.div_div by lia.
        pose proof (Z.mul_div_le (a / 26) (2 ^ (Z.log2 (a / 26) - 52)) HP). lia. }
      split; nia.
    - assert (HS : 0 < 2 ^ (- (Z.log2 (a / 26) - 52))) by (apply Z.pow_pos_nonneg; lia).
      assert (2 <= 2 ^ (- (Z.log2 (a / 26) - 52))).
      { change 2 with (2 ^ 1) at 1. apply Z.pow_le_mono_r; lia. }
      pose proof (Hround (a * 2 ^ (- (Z.log2 (a / 26) - 52))) 26 ltac:(lia)) as [Hr1 Hr2].
      assert (a * 2 ^ (- (Z.log2 (a / 26) - 52)) / 26
              <= (a / 26 + 1) * 2 ^ (- (Z.log2 (a / 26) - 52))).
      { apply Z.lt_succ_r. apply Z.div_lt_upper_bound; [lia|].
        pose proof (Z.div_mod a 26 ltac:(lia)).
        pose proof (Z.mod_pos_bound a 26 ltac:(lia)). nia. }
      assert (0 <= a * 2 ^ (- (Z.log2 (a / 26) - 52)) / 26) by (apply Z.div_pos; nia).
      split; [apply Z.div_pos; lia|].
      assert (JsNumber.round_div (a * 2 ^ (- (Z.log2 (a / 26) - 52))) 26
              / 2 ^ (- (Z.log2 (a / 26) - 52)) <= a / 26 + 1); [|lia].
      apply Z.lt_succ_r. apply Z.div_lt_upper_bound; [lia|]. nia. }
  destruct Hsub as [Hs0 Hs1].
  pose proof (Hdiv (JsNumber.sub num 1) Hs0) as [Hd0 Hd1].
  assert (JsNumber.sub num 1 / 26 <= (2 * (num - 1)) / 26)
    by (apply Z.div_le_mono; lia).
  pose proof (Z.div_mod (2 * (num - 1)) 26 ltac:(lia)).
  pose proof (Z.mod_pos_bound (2 * (num - 1)) 26 ltac:(lia)).
  (* so the next number has fewer bits *)
  unfold bit_length.
  destruct (Z.leb_spec num 0); [lia|].
  destruct (Z.leb_spec (JsNumber.floor_div (JsNumber.sub num 1) 26) 0); [lia|].
  assert (Z.log2 (2 * JsNumber.floor_div (JsNumber.sub num 1) 26) <= Z.log2 num)
    by (apply Z.log2_le_mono; lia).
  rewrite Z.log2_double in * by lia.
  pose proof (Z.log2_nonneg (JsNumber.floor_div (JsNumber.sub num 1) 26)).
  lia.
Qed.

Definition numberToColumnLetter (num : Z) : string :=
  numberToColumnLetter_loop num "".

(** A column name as the pattern of cell references has it: one or more
    letters A-Z. *)
Definition is_column_name (s : string) : bool :=
  match s with
  | EmptyString => false
  | _ => string_forall is_upper s
  end.

(** The number of a column name in exact integers: its value in base 26
    with the digits A = 1, ..., Z = 26. *)
Fixpoint column_value_loop (letter : string) (result : Z) : Z :=
  match letter with
  | EmptyString => result
  | String c rest =>
      column_value_loop rest (result * 26 + (charCode c - charCode "A" + 1))
  end.

Definition column_value (letter : string) : Z := column_value_loop letter 0.

(* ===================================================================== *)
(** * The spreadsheet objects *)
(* ===================================================================== *)

(** The part of the spreadsheet library the source touches.  A worksheet is
    a grid of cells addressed by (row, column); a cell that was never
    written reads as [blank].  The calls that can throw return a
    [Result]. *)
Module Excel.

Record Fill : Type := mkFill
  { fill_type : string; pattern : string; fgColor : string }.

Record Font : Type := mkFont
  { color : option string;
    size : option Z;
    bold : option bool;
    italic : option bool;
    underline : option bool }.

Definition no_font : Font :=
  {| color := None; size := None; bold := None; italic := None; underline := None |}.

(** [{ ...a, ...b }]: the fields of [b] that are set override those of [a] *)
Definition spread (a b : Font) : Font :=
  {| color := if color b is Some _ then color b else color a;
     size := if size b is Some _ then size b else size a;
     bold := if bold b is Some _ then bold b else bold a;
     italic := if italic b is Some _ then italic b else italic a;
     underline := if underline b is Some _ then underline b else underline a |}.

(** What [cell.value] holds: a plain value, or a formula with its cached
    result. *)
Inductive CellValue : Type :=
| Plain (v : JsValue)
| Formula (formula : string) (result : JsValue).

Record Cell : Type := mkCell
  { value : CellValue;
    fill : option Fill;
    font : Font;
    numFmt : option string }.

Definition blank : Cell :=
  {| value := Plain VNull; fill := None; font := no_font; numFmt := None |}.

Definition set_value (v : CellValue) (c : Cell) : Cell :=
  {| value := v; fill := fill c; font := font c; numFmt := numFmt c |}.
Definition set_fill (f : Fill) (c : Cell) : Cell :=
  {| value := value c; fill := Some f; font := font c; numFmt := numFmt c |}.
Definition set_font (f : Font) (c : Cell) : Cell :=
  {| value := value c; fill := fill c; font := f; numFmt := numFmt c |}.
Definition set_numFmt (f : string) (c : Cell) : Cell :=
  {| value := value c; fill := fill c; font := font c; numFmt := Some f |}.

(** The argument of [worksheet.addTable]. *)
Record Table : Type := mkTable
  { name : string;
    ref : string;
    headerRow : bool;
    theme : string;
    showRowStripes : bool;
    columns : list string;
    rows : list (list JsValue) }.

(** A worksheet keeps its tables under their names. *)
Record Worksheet : Type := mkWorksheet
  { sheet_name : string;
    cells : gmap (Z * Z) Cell;
    tables : gmap string Table;
    widths : gmap Z Z;
    frozen_rows : option Z;
    protection : option string }.

Definition new_sheet (n : string) : Worksheet :=
  {| sheet_name := n; cells := ∅; tables := ∅; widths := ∅;
     frozen_rows := None; protection := None |}.

(** The cell at (row, column), as a read of its members sees it. *)
Definition getCell (ws : Worksheet) (rc : Z * Z) : Cell :=
  default blank (cells ws !! rc).

(** An assignment to members of the cell at (row, column). *)
Definition update_cell (rc : Z * Z) (f : Cell -> Cell) (ws : Worksheet) : Worksheet :=
  {| sheet_name := sheet_name ws;
     cells := <[rc := f (getCell ws rc)]> (cells ws);
     tables := tables ws; widths := widths ws;
     frozen_rows := frozen_rows ws; protection := protection ws |}.

(** *** Addresses *)

(** [colCache.n2l(n)]: the letters of column [n]; the library keeps a
    table of them, which holds the names [numberToColumnLetter] computes. *)
Definition n2l (n : Z) : Result string :=
  if (n <? 1)%Z || (16384 <? n)%Z
  then throw (JsError (number_to_string n
                       ++ " is out of bounds. Excel supports columns from 1 to 16384"))
  else ret (numberToColumnLetter n).

(** The state of the loop of [colCache.decodeAddress]. *)
Record Decoding : Type := mkDecoding
  { hasCol : bool; col : string; colNumber : Z;
    hasRow : bool; row : string; rowNumber : Z }.

(** One pass over the characters: capital letters in front of the first
    digit make the column, digits make the row, and once both are there
    any other character but [$] ends the loop. *)
Fixpoint decode_loop (value : string) (d : Decoding) : Decoding :=
  match value with
  | EmptyString => d
  | String char rest =>
      if negb (hasRow d) && is_upper char
      then decode_loop rest
             {| hasCol := true;
                col := col d ++ String char EmptyString;
                colNumber :=
                  JsNumber.sub (JsNumber.add (JsNumber.mul (colNumber d) 26) (charCode char))
                               64;
                hasRow := hasRow d; row := row d; rowNumber := rowNumber d |}
      else if is_digit char
      then decode_loop rest
             {| hasCol := hasCol d; col := col d; colNumber := colNumber d;
                hasRow := true;
                row := row d ++ String char EmptyString;
                rowNumber :=
                  JsNumber.sub (JsNumber.add (JsNumber.mul (rowNumber d) 10) (charCode char))
                               48 |}
      else if hasRow d && hasCol d && negb (Ascii.eqb char "$")
      then d
      else decode_loop rest d
  end.

(** A decoded address: its text, and the numbers of its column and of its
    row, [None] when the text had no letters or no digits. *)
Record Address : Type := mkAddress
  { address_text : string;
    address_col : option Z;
    address_row : option Z }.

(** [colCache.decodeAddress(value)] *)
Definition decodeAddress (value : string) : Result Address :=
  let d :=
    decode_loop value
      {| hasCol := false; col := ""; colNumber := 0;
         hasRow := false; row := ""; rowNumber := 0 |} in
  if hasCol d && (16384 <? colNumber d)%Z
  then throw (JsError ("Out of bounds. Invalid column letter: " ++ col d))
  else ret {| address_text := col d ++ row d;
              address_col := if hasCol d then Some (colNumber d) else None;
              address_row := if hasRow d then Some (rowNumber d) else None |}.

(** [colCache.getAddress(r, c)]: the address is put together as a text and
    decoded; with a falsy [c] the library decodes [r] itself, and a number
    has no characters to decode. *)
Definition getAddress (r c : Z) : Result Address :=
  if (c =? 0)%Z
  then ret {| address_text := ""; address_col := None; address_row := None |}
  else let* letters := n2l c in decodeAddress (letters ++ number_to_string r).

(** The cell of an address, which the library creates when the row does
    not have it yet: a cell needs a column, and the text of its address
    has to be letters followed by digits. *)
Definition cell_of (a : Address) : Result (Z * Z) :=
  match address_col a, address_row a with
  | None, _ => throw (JsError "A Cell needs a Row")
  | Some _, None => throw (JsError ("Invalid Address: " ++ address_text a))
  | Some c, Some r => ret (r, c)
  end.

(** [worksheet.getCell(address)]: the coordinates of the cell. *)
Definition cell_of_address (address : string) : Result (Z * Z) :=
  let* a := decodeAddress address in cell_of a.

(** [worksheet.getCell(r, c)]: the coordinates of the cell. *)
Definition cell_at (r c : Z) : Result (Z * Z) :=
  let* a := getAddress r c in cell_of a.

(** [worksheet.getRow(r).getCell(c)]: a cell the row has is returned as it
    is, another one is created under the address of its column letters. *)
Definition row_cell (ws : Worksheet) (r c : Z) : Result (Z * Z) :=
  match cells ws !! (r, c) with
  | Some _ => ret (r, c)
  | None => let* _ := n2l c in ret (r, c)
  end.

(** *** Tables *)

(** [assert(test, message)] of the table validation *)
Definition ensure (test : bool) (message : string) : Result unit :=
  if test then ret tt else throw (JsError message).

(** The validation of a table: it needs a reference whose top-left cell
    has a row and a column, its last column has to be a column of the
    sheet, and every column needs a name. *)
Definition validate_table (t : Table) : Result (Z * Z) :=
  let* _ := ensure (negb (String.eqb (ref t) "")) "Table must have ref" in
  let* tl := decodeAddress (ref t) in
  let* _ :=
    ensure (match address_row tl with Some r => (0 <? r)%Z | None => false end)
           "Table must be on valid row" in
  let* _ :=
    ensure (match address_col tl with Some c => (0 <? c)%Z | None => false end)
           "Table must be on valid col" in
  let r := default 0 (address_row tl) in
  let c := default 0 (address_col tl) in
  let width := Z.of_nat (length (columns t)) in
  (* autoFilterRef and tableRef: the letters of the first and of the last
     column *)
  let* _ := n2l c in
  let* _ := n2l (JsNumber.sub (JsNumber.add c width) 1) in
  let* _ :=
    forEach
      (fun (_ : unit) (column : string) (i : Z) =>
         ensure (negb (String.eqb column ""))
                ("Column " ++ number_to_string i ++ " must have a name"))
      (columns t) 0 tt in
  ret (r, c).

(** [cell.value = v] on the cell [c] of the row [r] *)
Definition store_value (r c : Z) (v : JsValue) (ws : Worksheet) : Result Worksheet :=
  let* rc := row_cell ws r c in
  ret (update_cell rc (set_value (Plain v)) ws).

(** The callback of [data.forEach] in the store of a table: the value goes
    into its cell, then the style of the column of that index is read. *)
Definition store_data_cell (t : Table) (r c : Z) (ws : Worksheet) (v : JsValue) (j : Z)
  : Result Worksheet :=
  let* ws := store_value r (JsNumber.add c j) v ws in
  if (j <? Z.of_nat (length (columns t)))%Z then ret ws
  else throw (JsError "Cannot read properties of undefined (reading 'style')").

(** The store of a table: the names of the columns go into the row of the
    top-left cell when the table has a header row, the rows of values into
    the rows below. *)
Definition store_table (t : Table) (r c : Z) (ws : Worksheet) : Result Worksheet :=
  let* ws :=
    if headerRow t
    then forEach (fun ws column j => store_value r (JsNumber.add c j) (VStr column) ws)
                 (columns t) 0 ws
    else ret ws in
  let first := if headerRow t then 1 else 0 in
  forEach
    (fun ws data i =>
       forEach (store_data_cell t (JsNumber.add r (first + i)) c) data 0 ws)
    (rows t) 0 ws.

(** [worksheet.addTable(model)]: the table is validated, stored in the
    cells and kept under its name. *)
Definition addTable (t : Table) (ws : Worksheet) : Result Worksheet :=
  let* tl := validate_table t in
  let* ws := store_table t (fst tl) (snd tl) ws in
  ret {| sheet_name := sheet_name ws; cells := cells ws;
         tables := <[name t := t]> (tables ws); widths := widths ws;
         frozen_rows := frozen_rows ws; protection := protection ws |}.

(** *** Columns, views and protection *)

(** [worksheet.getColumn(col).width = w] *)
Definition set_width (col w : Z) (ws : Worksheet) : Worksheet :=
  {| sheet_name := sheet_name ws; cells := cells ws;
     tables := tables ws; widths := <[col := w]> (widths ws);
     frozen_rows := frozen_rows ws; protection := protection ws |}.

(** [worksheet.views = [{ state: 'frozen', ySplit: n }]] *)
Definition freeze (n : Z) (ws : Worksheet) : Worksheet :=
  {| sheet_name := sheet_name ws; cells := cells ws;
     tables := tables ws; widths := widths ws;
     frozen_rows := Some n; protection := protection ws |}.

(** [worksheet.protect(password, ...)] *)
Definition protect (password : string) (ws : Worksheet) : Worksheet :=
  {| sheet_name := sheet_name ws; cells := cells ws;
     tables := tables ws; widths := widths ws;
     frozen_rows := frozen_rows ws; protection := Some password |}.

(** *** Workbooks *)

(** A workbook: its sheets in the order [eachSheet] visits them. *)
Definition Workbook : Type := list Worksheet.

(** [workbook.getWorksheet(name)] *)
Fixpoint getWorksheet (wb : Workbook) (n : string) : option Worksheet :=
  match wb with
  | [] => None
  | ws :: rest => if String.eqb (sheet_name ws) n then Some ws else getWorksheet rest n
  end.

(** The characters a sheet name cannot hold: [* ? : \ / [ ]] *)
Definition illegal_name_char (c : ascii) : bool :=
  existsb (Ascii.eqb c) ["*"; "?"; ":"; "\"; "/"; "["; "]"]%char.

Definition apostrophe : ascii := "'"%char.

(** The last character of a string *)
Fixpoint last_char (s : string) : option ascii :=
  match s with
  | EmptyString => None
  | String c EmptyString => Some c
  | String _ rest => last_char rest
  end.

(** The checks of the name of a new sheet that do not look at the other
    sheets. *)
Definition name_error (n : string) : option exn :=
  if String.eqb n "" then Some (JsError "The name can't be empty.")
  else if String.eqb n "History"
  then Some (JsError ("The name " ++ double_quote ++ "History" ++ double_quote
                      ++ " is protected. Please use a different name."))
  else if negb (string_forall (fun c => negb (illegal_name_char c)) n)
  then Some (JsError ("Worksheet name " ++ n
                      ++ " cannot include any of the following characters: * ? : \ / [ ]"))
  else if match n with String c _ => Ascii.eqb c apostrophe | EmptyString => false end
          || match last_char n with Some c => Ascii.eqb c apostrophe | None => false end
  then Some (JsError ("The first or last character of worksheet name cannot be "
                      ++ "a single quotation mark: " ++ n))
  else None.

(** [workbook.addWorksheet(name)]: the workbook with the new sheet, and the
    new sheet.  A name of more than 31 characters is cut (with a warning on
    the console), and the name has to differ from those of the other
    sheets, whatever the case of the letters. *)
Definition addWorksheet (wb : Workbook) (n : string) : Result (Workbook * Worksheet) :=
  match name_error n with
  | Some e => throw e
  | None =>
      let n := if (31 <? String.length n)%nat then substring 0 31 n else n in
      if existsb (fun ws => String.eqb (toLowerCase (sheet_name ws)) (toLowerCase n)) wb
      then throw (JsError ("Worksheet name already exists: " ++ n))
      else let ws := new_sheet n in ret ((wb ++ [ws])%list, ws)
  end.

(** The sheet objects are shared with the workbook: what the source does
    to a sheet it looked up is done to the sheet of that name in place. *)
Fixpoint putWorksheet (wb : Workbook) (ws : Worksheet) : Workbook :=
  match wb with
  | [] => []
  | ws0 :: rest =>
      if String.eqb (sheet_name ws0) (sheet_name ws) then ws :: rest
      else ws0 :: putWorksheet rest ws
  end.

End Excel.

(* ===================================================================== *)
(** * Interface definitions *)
(* ===================================================================== *)

(** An optional member [m?: T] is an [option T]; [None] is [undefined]. *)

Module MappingConfig.
Record Style : Type := mkStyle
  { bgColor : option string;
    fontColor : option string;
    fontSize : option Z;
    bold : option bool;
    italic : option bool;
    underline : option bool }.

Record t : Type := mk
  { sheet : string;
    cell : string;
    fieldName : string;
    style : option Style;
    formula : option string;
    format : option string }.
End MappingConfig.

Module TableConfig.
Record Style : Type := mkStyle
  { headerBgColor : option string;
    headerFontColor : option string;
    rowBgColor : option string;
    alternateRowBgColor : option string }.

Record t : Type := mk
  { sheet : string;
    tableName : string;
    startCell : string;
    columns : list string;
    style : option Style }.
End TableConfig.

Module ExcelOptions.
Record t : Type := mk
  { includeHeaders : option bool;
    autoFitColumns : option bool;
    freezeFirstRow : option bool;
    protectSheet : option bool;
    password : option string }.

(** [{}] *)
Definition empty : t :=
  {| includeHeaders := None; autoFitColumns := None; freezeFirstRow := None;
     protectSheet := None; password := None |}.
End ExcelOptions.

(** Truthiness of optional members, by their type. *)
Definition truthy_string (o : option string) : bool :=
  match o with
  | Some s => negb (String.eqb s "")
  | None => false
  end.

Definition truthy_number (o : option Z) : bool :=
  match o with
  | Some n => negb (n =? 0)%Z
  | None => false
  end.

Definition truthy_bool (o : option bool) : bool :=
  match o with
  | Some b => b
  | None => false
  end.

(** [a || b] on optional strings *)
Definition or_string (a b : option string) : option string :=
  if truthy_string a then a else b.

(** [{ type: 'pattern', pattern: 'solid', fgColor: { argb: `FF${hex}` } }] *)
Definition solid_fill (hex : string) : Excel.Fill :=
  {| Excel.fill_type := "pattern"; Excel.pattern := "solid";
     Excel.fgColor := "FF" ++ hex |}.

(* ===================================================================== *)
(** * Cell styling and formatting *)
(* ===================================================================== *)

(** [Object.keys(fontOptions).length > 0] *)
Definition has_keys (f : Excel.Font) : bool :=
  match Excel.color f, Excel.size f, Excel.bold f, Excel.italic f, Excel.underline f with
  | None, None, None, None, None => false
  | _, _, _, _, _ => true
  end.

Definition applyCellStyle (cell : Excel.Cell) (style : option MappingConfig.Style)
  : Excel.Cell :=
  match style with
  | None => cell
  | Some style =>
      let cell :=
        if truthy_string (MappingConfig.bgColor style)
        then Excel.set_fill (solid_fill (default "" (MappingConfig.bgColor style))) cell
        else cell in
      let fontOptions : Excel.Font :=
        {| Excel.color :=
             if truthy_string (MappingConfig.fontColor style)
             then Some ("FF" ++ default "" (MappingConfig.fontColor style)) else None;
           Excel.size :=
             if truthy_number (MappingConfig.fontSize style)
             then MappingConfig.fontSize style else None;
           Excel.bold :=
             if truthy_bool (MappingConfig.bold style) then Some true else None;
           Excel.italic :=
             if truthy_bool (MappingConfig.italic style) then Some true else None;
           Excel.underline :=
             if truthy_bool (MappingConfig.underline style) then Some true else None |} in
      if has_keys fontOptions
      then Excel.set_font (Excel.spread (Excel.font cell) fontOptions) cell
      else cell
  end.

Definition applyCellFormat (cell : Excel.Cell) (format : option string) : Excel.Cell :=
  if negb (truthy_string format) then cell
  else
    let format := default "" format in
    let lower := toLowerCase format in
    if String.eqb lower "currency" then Excel.set_numFmt "$#,##0.00" cell
    else if String.eqb lower "percentage" then Excel.set_numFmt "0.00%" cell
    else if String.eqb lower "date" then Excel.set_numFmt "mm/dd/yyyy" cell
    else if String.eqb lower "datetime" then Excel.set_numFmt "mm/dd/yyyy hh:mm:ss" cell
    else if String.eqb lower "number" then Excel.set_numFmt "#,##0.00" cell
    else if String.eqb lower "integer" then Excel.set_numFmt "#,##0" cell
    else Excel.set_numFmt format cell.

(* ===================================================================== *)
(** * Member access and field resolution *)
(* ===================================================================== *)

Section Runtime.

(** The member [key] that an array, a string, a number, a boolean or a
    function inherits from the prototypes the runtime gives it. *)
Variable inherited_member : JsValue -> string -> option JsValue.

(** [v[key]] for a [v] that is neither [null] nor [undefined]: an own
    member first, an inherited one otherwise. *)
Definition get_member (v : JsValue) (key : string) : JsValue :=
  match own_member v key with
  | Some x => x
  | None =>
      match v with
      | VObj _ => object_prototype_member key
      | VNull | VUndefined => VUndefined
      | _ => default VUndefined (inherited_member v key)
      end
  end.

(** [v[key]] as the runtime evaluates it: reading a member of [null] or
    [undefined] throws a [TypeError]. *)
Definition member (v : JsValue) (key : string) : Result JsValue :=
  match v with
  | VNull =>
      throw (JsError ("Cannot read properties of null (reading '" ++ key ++ "')"))
  | VUndefined =>
      throw (JsError ("Cannot read properties of undefined (reading '" ++ key ++ "')"))
  | _ => ret (get_member v key)
  end.

(** The callback of the [reduce] in [getNestedValue]:
    [current && current[key] !== undefined ? current[key] : null].
    The member is only read when [current] is truthy, hence never on
    [null] or [undefined]. *)
Definition getNestedValue_step (current : JsValue) (key : string) : JsValue :=
  if truthy current && negb (is_undefined (get_member current key))
  then get_member current key
  else VNull.

Definition getNestedValue (obj : JsValue) (path : string) : JsValue :=
  fold_left getNestedValue_step (split_dot path) obj.

(** The value reached after stepping through some pieces of a path. *)
Definition walk (obj : JsValue) (pieces : list string) : JsValue :=
  fold_left getNestedValue_step pieces obj.

(* ===================================================================== *)
(** * The table builder *)
(* ===================================================================== *)

(** [tableConfig.style?.member] *)
Definition table_style {A} (cfg : TableConfig.t) (m : TableConfig.Style -> option A)
  : option A :=
  match TableConfig.style cfg with
  | Some st => m st
  | None => None
  end.

(** What the header callback of [createTable] does to the cell it got. *)
Definition header_cell (cfg : TableConfig.t) (header : string) (cell : Excel.Cell)
  : Excel.Cell :=
  let cell := Excel.set_value (Excel.Plain (VStr header)) cell in
  (* Apply header styling *)
  let cell :=
    if truthy_string (table_style cfg TableConfig.headerBgColor)
    then Excel.set_fill
           (solid_fill (default "" (table_style cfg TableConfig.headerBgColor))) cell
    else cell in
  if truthy_string (table_style cfg TableConfig.headerFontColor)
  then Excel.set_font
         {| Excel.color :=
              Some ("FF" ++ default "" (table_style cfg TableConfig.headerFontColor));
            Excel.size := None; Excel.bold := Some true;
            Excel.italic := None; Excel.underline := None |} cell
  else Excel.set_font
         {| Excel.color := None; Excel.size := None; Excel.bold := Some true;
            Excel.italic := None; Excel.underline := None |} cell.

(** The callback of [tableConfig.columns.forEach] that adds the headers. *)
Definition write_header (cfg : TableConfig.t) (startRow startCol : Z)
    (ws : Excel.Worksheet) (header : string) (index : Z) : Result Excel.Worksheet :=
  let* cell := Excel.cell_at startRow (JsNumber.add startCol index) in
  ret (Excel.update_cell cell (header_cell cfg header) ws).

(** "Apply alternating row colors": the block both row branches of
    [createTable] end with. *)
Definition apply_row_color (cfg : TableConfig.t) (rowIndex : Z) (cell : Excel.Cell)
  : Excel.Cell :=
  if truthy_string (table_style cfg TableConfig.rowBgColor)
     || truthy_string (table_style cfg TableConfig.alternateRowBgColor)
  then
    let bgColor :=
      if (rowIndex mod 2 =? 0)%Z
      then table_style cfg TableConfig.rowBgColor
      else or_string (table_style cfg TableConfig.alternateRowBgColor)
                     (table_style cfg TableConfig.rowBgColor) in
    if truthy_string bgColor
    then Excel.set_fill (solid_fill (default "" bgColor)) cell
    else cell
  else cell.

(** The callback of [row.forEach] for a row that is an array. *)
Definition write_array_cell (cfg : TableConfig.t) (currentRow startCol rowIndex : Z)
    (ws : Excel.Worksheet) (cellValue : JsValue) (colIndex : Z) : Result Excel.Worksheet :=
  if (colIndex <? Z.of_nat (length (TableConfig.columns cfg)))%Z
  then
    let* cell := Excel.cell_at currentRow (JsNumber.add startCol colIndex) in
    ret (Excel.update_cell cell
           (fun cell => apply_row_color cfg rowIndex
                          (Excel.set_value (Excel.Plain cellValue) cell))
           ws)
  else ret ws.

(** The callback of [tableConfig.columns.forEach] for a row that is an
    object; the cell is looked up first, then [row[column]] is read, which
    throws when [row] is [null]. *)
Definition write_object_cell (cfg : TableConfig.t) (currentRow startCol rowIndex : Z)
    (row : JsValue) (ws : Excel.Worksheet) (column : string) (colIndex : Z)
  : Result Excel.Worksheet :=
  let* cell := Excel.cell_at currentRow (JsNumber.add startCol colIndex) in
  let* v := member row column in
  ret (Excel.update_cell cell
         (fun cell => apply_row_color cfg rowIndex
                        (Excel.set_value (Excel.Plain (js_or v (VStr ""))) cell))
         ws).

(** [typeof row === 'object'] for a row that is not an array *)
Definition typeof_object (row : JsValue) : bool :=
  match row with
  | VNull | VObj _ | VArr _ => true
  | _ => false
  end.

(** The callback of [tableData.forEach]. *)
Definition write_row (cfg : TableConfig.t) (startRow startCol : Z)
    (ws : Excel.Worksheet) (row : JsValue) (rowIndex : Z) : Result Excel.Worksheet :=
  let currentRow := JsNumber.add (JsNumber.add startRow rowIndex) 1 in
  match row with
  | VArr items =>
      forEach (write_array_cell cfg currentRow startCol rowIndex) items 0 ws
  | _ =>
      if typeof_object row
      then forEach (write_object_cell cfg currentRow startCol rowIndex row)
                   (TableConfig.columns cfg) 0 ws
      else ret ws
  end.

(** A row of the [rows] handed to [addTable]:
    [Array.isArray(row) ? row : tableConfig.columns.map(col => row[col] || '')] *)
Definition table_row (cfg : TableConfig.t) (row : JsValue) : Result (list JsValue) :=
  match row with
  | VArr items => ret items
  | _ => mapM (fun col => let* v := member row col in ret (js_or v (VStr "")))
              (TableConfig.columns cfg)
  end.

(** [tableData.forEach] exists on arrays only. *)
Definition as_array (tableData : JsValue) : Result (list JsValue) :=
  match tableData with
  | VArr rows => ret rows
  | _ => throw (JsError "tableData.forEach is not a function")
  end.

Definition createTable (worksheet : Excel.Worksheet) (tableConfig : TableConfig.t)
    (tableData : JsValue) : Result Excel.Worksheet :=
  if negb (truthy tableData)
     || match get_member tableData "length" with VNum 0 => true | _ => false end
  then ret worksheet
  else
    match match_cell_ref (TableConfig.startCell tableConfig) with
    | None =>
        throw (JsError ("Invalid start cell: " ++ TableConfig.startCell tableConfig))
    | Some (letters, digits) =>
        let startCol := columnLetterToNumber letters in
        let startRow := parseInt digits in
        (* Add headers *)
        let* worksheet :=
          forEach (write_header tableConfig startRow startCol)
                  (TableConfig.columns tableConfig) 0 worksheet in
        (* Add data rows *)
        let* rows := as_array tableData in
        let* worksheet :=
          forEach (write_row tableConfig startRow startCol) rows 0 worksheet in
        (* Create Excel table *)
        let endCol :=
          numberToColumnLetter
            (JsNumber.sub
               (JsNumber.add startCol (Z.of_nat (length (TableConfig.columns tableConfig))))
               1) in
        let endRow := JsNumber.add startRow (Z.of_nat (length rows)) in
        let tableRef :=
          TableConfig.startCell tableConfig ++ ":" ++ endCol ++ number_to_string endRow in
        let* table_rows := mapM (table_row tableConfig) rows in
        Excel.addTable
          {| Excel.name := TableConfig.tableName tableConfig;
             Excel.ref := tableRef;
             Excel.headerRow := true;
             Excel.theme := "TableStyleMedium9";
             Excel.showRowStripes := true;
             Excel.columns := TableConfig.columns tableConfig;
             Excel.rows := table_rows |}
          worksheet
    end.

(** *** The table builder on the grid

    The same callbacks for a table that lies on the grid and whose rows
    are not [null]: no call throws, and the row and column numbers are
    exact.  The properties below compare them with the callbacks above. *)

Definition nullish (v : JsValue) : bool :=
  match v with
  | VNull | VUndefined => true
  | _ => false
  end.

Definition written_header (cfg : TableConfig.t) (startRow startCol : Z)
    (ws : Excel.Worksheet) (header : string) (index : Z) : Excel.Worksheet :=
  Excel.update_cell (startRow, startCol + index) (header_cell cfg header) ws.

Definition written_array_cell (cfg : TableConfig.t) (currentRow startCol rowIndex : Z)
    (ws : Excel.Worksheet) (cellValue : JsValue) (colIndex : Z) : Excel.Worksheet :=
  if (colIndex <? Z.of_nat (length (TableConfig.columns cfg)))%Z
  then Excel.update_cell (currentRow, startCol + colIndex)
         (fun cell => apply_row_color cfg rowIndex
                        (Excel.set_value (Excel.Plain cellValue) cell))
         ws
  else ws.

(** The object-row callback when the row is not [null]: no member read
    throws. *)
Definition write_object_cell_pure (cfg : TableConfig.t) (currentRow startCol rowIndex : Z)
    (row : JsValue) (ws : Excel.Worksheet) (column : string) (colIndex : Z)
  : Excel.Worksheet :=
  Excel.update_cell (currentRow, startCol + colIndex)
    (fun cell => apply_row_color cfg rowIndex
                   (Excel.set_value (Excel.Plain (js_or (get_member row column) (VStr ""))) cell))
    ws.

(** The row callback when the row is not [null]. *)
Definition written_row (cfg : TableConfig.t) (startRow startCol : Z)
    (ws : Excel.Worksheet) (row : JsValue) (rowIndex : Z) : Excel.Worksheet :=
  let currentRow := startRow + rowIndex + 1 in
  match row with
  | VArr items => forEach_pure (written_array_cell cfg currentRow startCol rowIndex) items 0 ws
  | VObj _ =>
      forEach_pure (write_object_cell_pure cfg currentRow startCol rowIndex row)
                   (TableConfig.columns cfg) 0 ws
  | _ => ws
  end.

(** What a data row makes of the cell [j] columns right of the start
    column, in its own worksheet row. *)
Definition row_cell_after (cfg : TableConfig.t) (rowIndex : Z) (row : JsValue) (j : Z)
    (cell : Excel.Cell) : Excel.Cell :=
  match row with
  | VArr items =>
      match lookup_Z items j with
      | Some v =>
          if (j <? Z.of_nat (length (TableConfig.columns cfg)))%Z
          then apply_row_color cfg rowIndex (Excel.set_value (Excel.Plain v) cell)
          else cell
      | None => cell
      end
  | VObj _ =>
      match lookup_Z (TableConfig.columns cfg) j with
      | Some column =>
          apply_row_color cfg rowIndex
            (Excel.set_value (Excel.Plain (js_or (get_member row column) (VStr ""))) cell)
      | None => cell
      end
  | _ => cell
  end.

(** The rows handed to [addTable] when no row is [null]. *)
Definition table_row_pure (cfg : TableConfig.t) (row : JsValue) : list JsValue :=
  match row with
  | VArr items => items
  | _ => map (fun col => js_or (get_member row col) (VStr "")) (TableConfig.columns cfg)
  end.

(** What the store of a table makes of its cells: the header row holds the
    names of the columns, the row below it the first row of values, and so
    on. *)
Definition stored_header (r c : Z) (ws : Excel.Worksheet) (column : string) (j : Z)
  : Excel.Worksheet :=
  Excel.update_cell (r, c + j) (Excel.set_value (Excel.Plain (VStr column))) ws.

Definition stored_data_cell (r c : Z) (ws : Excel.Worksheet) (v : JsValue) (j : Z)
  : Excel.Worksheet :=
  Excel.update_cell (r, c + j) (Excel.set_value (Excel.Plain v)) ws.

Definition stored_table (t : Excel.Table) (r c : Z) (ws : Excel.Worksheet)
  : Excel.Worksheet :=
  forEach_pure (fun ws data i => forEach_pure (stored_data_cell (r + (1 + i)) c) data 0 ws)
    (Excel.rows t) 0
    (forEach_pure (stored_header r c) (Excel.columns t) 0 ws).

(** A table that is kept under its name. *)
Definition register (t : Excel.Table) (ws : Excel.Worksheet) : Excel.Worksheet :=
  {| Excel.sheet_name := Excel.sheet_name ws; Excel.cells := Excel.cells ws;
     Excel.tables := <[Excel.name t := t]> (Excel.tables ws);
     Excel.widths := Excel.widths ws;
     Excel.frozen_rows := Excel.frozen_rows ws;
     Excel.protection := Excel.protection ws |}.

(** [for (colNumber = 1; colNumber <= 10; colNumber++) column.width = 15] *)
Definition autoFitColumns (worksheet : Excel.Worksheet) : Excel.Worksheet :=
  fold_left (fun ws colNumber => Excel.set_width colNumber 15 ws) (seqZ 1 10) worksheet.

(* ===================================================================== *)
(** * The workbook assembler *)
(* ===================================================================== *)

Definition Buffer : Type := list Byte.byte.

(** [let worksheet = workbook.getWorksheet(name);
     if (!worksheet) worksheet = workbook.addWorksheet(name)]:
    the workbook afterwards and the sheet the source then works on. *)
Definition ensure_sheet (wb : Excel.Workbook) (name : string)
  : Result (Excel.Workbook * Excel.Worksheet) :=
  match Excel.getWorksheet wb name with
  | Some ws => ret (wb, ws)
  | None => Excel.addWorksheet wb name
  end.

(** What the mapping loop assigns to [cell.value]. *)
Definition mapped_value (formula : option string) (value : JsValue) : Excel.CellValue :=
  if truthy_string formula
  then Excel.Formula (default "" formula) (js_or value (VNum 0))
  else Excel.Plain (match value with VNull => VStr "" | _ => value end).

(** The cell value as the specification words it: with a formula, the
    resolved value is the cached result, 0 standing in for [null] only;
    without one, the resolved value, the empty string standing in for
    [null]. *)
Definition spec_mapped_value (formula : option string) (value : JsValue)
  : Excel.CellValue :=
  match formula with
  | Some f => Excel.Formula f (match value with VNull => VNum 0 | _ => value end)
  | None => Excel.Plain (match value with VNull => VStr "" | _ => value end)
  end.

(** The body of [for (const mapping of mappingConfig)]. *)
Definition process_mapping (jsonData : JsValue) (workbook : Excel.Workbook)
    (mapping : MappingConfig.t) : Result Excel.Workbook :=
  let* sheet := ensure_sheet workbook (MappingConfig.sheet mapping) in
  let '(workbook, worksheet) := sheet in
  let* address := Excel.cell_of_address (MappingConfig.cell mapping) in
  let value := getNestedValue jsonData (MappingConfig.fieldName mapping) in
  let worksheet :=
    Excel.update_cell address
      (fun cell =>
         let cell := Excel.set_value (mapped_value (MappingConfig.formula mapping) value) cell in
         let cell := applyCellStyle cell (MappingConfig.style mapping) in
         applyCellFormat cell (MappingConfig.format mapping))
      worksheet in
  ret (Excel.putWorksheet workbook worksheet).

(** [getNestedValue(jsonData, 'tableData') || jsonData.tableData] *)
Definition table_data_of (jsonData : JsValue) : Result JsValue :=
  let v := getNestedValue jsonData "tableData" in
  if truthy v then ret v else member jsonData "tableData".

(** The body of [for (const tableConfig of tableConfigs)]. *)
Definition process_table (jsonData : JsValue) (workbook : Excel.Workbook)
    (tableConfig : TableConfig.t) : Result Excel.Workbook :=
  let* sheet := ensure_sheet workbook (TableConfig.sheet tableConfig) in
  let '(workbook, worksheet) := sheet in
  let* tableData := table_data_of jsonData in
  if truthy tableData
  then let* worksheet := createTable worksheet tableConfig tableData in
       ret (Excel.putWorksheet workbook worksheet)
  else ret workbook.

(** [for (const x of xs) { ... }] over the workbook *)
Fixpoint for_of {A} (f : Excel.Workbook -> A -> Result Excel.Workbook) (xs : list A)
    (wb : Excel.Workbook) : Result Excel.Workbook :=
  match xs with
  | [] => ret wb
  | x :: rest => let* wb' := f wb x in for_of f rest wb'
  end.

(** The callback of [workbook.eachSheet] that applies the options. *)
Definition apply_options (options : ExcelOptions.t) (worksheet : Excel.Worksheet)
  : Excel.Worksheet :=
  let worksheet :=
    match ExcelOptions.autoFitColumns options with
    | Some false => worksheet
    | _ => autoFitColumns worksheet
    end in
  let worksheet :=
    if truthy_bool (ExcelOptions.freezeFirstRow options)
    then Excel.freeze 1 worksheet else worksheet in
  if truthy_bool (ExcelOptions.protectSheet options)
  then Excel.protect
         (default "" (or_string (ExcelOptions.password options) (Some ""))) worksheet
  else worksheet.

Section Assembler.

(** [workbook.xlsx.load(buffer)] and [workbook.xlsx.writeBuffer()] of the
    spreadsheet library: either may throw. *)
Variable xlsx_load : Buffer -> Result Excel.Workbook.
Variable xlsx_writeBuffer : Excel.Workbook -> Result Buffer.

(** "Load template or create new workbook" *)
Definition initial_workbook (templateBuffer : option Buffer) : Result Excel.Workbook :=
  match templateBuffer with
  | Some buffer => xlsx_load buffer
  | None => let* sheet := Excel.addWorksheet [] "Sheet1" in ret (fst sheet)
  end.

(** The [try] block of [generateWorkbook]. *)
Definition generateWorkbook_try (jsonData : JsValue)
    (mappingConfig : list MappingConfig.t) (tableConfigs : list TableConfig.t)
    (templateBuffer : option Buffer) (options : ExcelOptions.t) : Result Buffer :=
  let* workbook := initial_workbook templateBuffer in
  let* workbook := for_of (process_mapping jsonData) mappingConfig workbook in
  let* workbook := for_of (process_table jsonData) tableConfigs workbook in
  let workbook := map (apply_options options) workbook in
  xlsx_writeBuffer workbook.

(** The [catch] block of [generateWorkbook]. *)
Definition generation_failure (error : exn) : exn :=
  JsError ("Failed to generate Excel workbook: " ++ message_or "Unknown error" error).

Definition generateWorkbook (jsonData : JsValue)
    (mappingConfig : list MappingConfig.t) (tableConfigs : list TableConfig.t)
    (templateBuffer : option Buffer) (options : ExcelOptions.t) : Result Buffer :=
  try_catch
    (generateWorkbook_try jsonData mappingConfig tableConfigs templateBuffer options)
    (fun error => throw (generation_failure error)).

(** An exception raised while the [try] block of [generateWorkbook]
    runs: in the template load, in the mapping loop, in the table loop or
    in the serialisation. *)
Inductive raised_in_generation (jsonData : JsValue)
    (mappingConfig : list MappingConfig.t) (tableConfigs : list TableConfig.t)
    (templateBuffer : option Buffer) (options : ExcelOptions.t) (e : exn) : Prop :=
| raised_in_load :
    initial_workbook templateBuffer = inl e ->
    raised_in_generation jsonData mappingConfig tableConfigs templateBuffer options e
| raised_in_mapping wb0 :
    initial_workbook templateBuffer = inr wb0 ->
    for_of (process_mapping jsonData) mappingConfig wb0 = inl e ->
    raised_in_generation jsonData mappingConfig tableConfigs templateBuffer options e
| raised_in_tables wb0 wb1 :
    initial_workbook templateBuffer = inr wb0 ->
    for_of (process_mapping jsonData) mappingConfig wb0 = inr wb1 ->
    for_of (process_table jsonData) tableConfigs wb1 = inl e ->
    raised_in_generation jsonData mappingConfig tableConfigs templateBuffer options e
| raised_in_serialize wb0 wb1 wb2 :
    initial_workbook templateBuffer = inr wb0 ->
    for_of (process_mapping jsonData) mappingConfig wb0 = inr wb1 ->
    for_of (process_table jsonData) tableConfigs wb1 = inr wb2 ->
    xlsx_writeBuffer (map (apply_options options) wb2) = inl e ->
    raised_in_generation jsonData mappingConfig tableConfigs templateBuffer options e.

(** Every stage completed and the serialisation produced [buffer]. *)
Definition generation_completes (jsonData : JsValue)
    (mappingConfig : list MappingConfig.t) (tableConfigs : list TableConfig.t)
    (templateBuffer : option Buffer) (options : ExcelOptions.t) (buffer : Buffer) : Prop :=
  exists wb0 wb1 wb2,
    initial_workbook templateBuffer = inr wb0
    /\ for_of (process_mapping jsonData) mappingConfig wb0 = inr wb1
    /\ for_of (process_table jsonData) tableConfigs wb1 = inr wb2
    /\ xlsx_writeBuffer (map (apply_options options) wb2) = inr buffer.

(* ------------------------------------------------------------------- *)
(** ** The template inspector *)

Record TemplateValidation : Type := mkValidation
  { isValid : bool;
    sheets : list string;
    error : option string }.

Definition validateTemplate (templateBuffer : Buffer) : Result TemplateValidation :=
  try_catch
    (let* workbook := xlsx_load templateBuffer in
     ret {| isValid := true;
            sheets := map Excel.sheet_name workbook;
            error := None |})
    (fun error =>
       ret {| isValid := false;
              sheets := [];
              error := Some (message_or "Invalid template file" error) |}).

(* ------------------------------------------------------------------- *)
(** ** Bulk generation *)

(** An element of [req.body.requests] that is an object.  The handler
    takes the elements as they come: in the loop below an element is
    [Some] request, or [None] for a [null] in the array. *)
Record GenerationRequest : Type := mkRequest
  { jsonData : JsValue;
    mappingConfig : list MappingConfig.t;
    tables : option (list TableConfig.t);
    options : option ExcelOptions.t;
    fileName : option string }.

(** An entry of [results]; [data] is the buffer whose base64 text the
    source stores. *)
Record BulkResult : Type := mkBulkResult
  { result_index : Z;
    success : bool;
    result_fileName : string;
    fileSize : string;
    data : Buffer }.

(** An entry of [errors]. *)
Record BulkError : Type := mkBulkError
  { error_index : Z;
    error_message : string }.

(** [`${Math.round(length / 1024)} KB`] *)
Definition file_size (buffer : Buffer) : string :=
  number_to_string ((Z.of_nat (length buffer) + 512) / 1024) ++ " KB".

(** The call of [generateWorkbook] in the loop of [bulkGenerate]; its
    first argument, [request.jsonData], throws when the request is
    [null]. *)
Definition generate_request (request : option GenerationRequest) : Result Buffer :=
  match request with
  | None => throw (JsError "Cannot read properties of null (reading 'jsonData')")
  | Some request =>
      generateWorkbook (jsonData request) (mappingConfig request)
        (default [] (tables request)) None
        (default ExcelOptions.empty (options request))
  end.

(** [request.fileName] *)
Definition request_fileName (request : option GenerationRequest) : option string :=
  match request with
  | Some request => fileName request
  | None => None
  end.

(** The entry pushed onto [results]. *)
Definition result_entry (i : Z) (request : option GenerationRequest)
    (workbookBuffer : Buffer) : BulkResult :=
  {| result_index := i;
     success := true;
     result_fileName :=
       default "" (or_string (request_fileName request)
                     (Some ("generated_" ++ number_to_string (i + 1) ++ ".xlsx")));
     fileSize := file_size workbookBuffer;
     data := workbookBuffer |}.

(** The entry pushed onto [errors]. *)
Definition error_entry (i : Z) (error : exn) : BulkError :=
  {| error_index := i;
     error_message := message_or "Unknown error" error |}.

(** The body of the [for] loop of [bulkGenerate]: a [try] around one
    generation, a [catch] that records the failure. *)
Definition bulk_step (acc : list BulkResult * list BulkError)
    (request : option GenerationRequest) (i : Z)
  : Result (list BulkResult * list BulkError) :=
  let '(results, errors) := acc in
  try_catch
    (let* workbookBuffer := generate_request request in
     ret (push results (result_entry i request workbookBuffer), errors))
    (fun error => ret (results, push errors (error_entry i error))).

Record BulkSummary : Type := mkSummary
  { total : Z; successful : Z; failed : Z }.

(** What [bulkGenerate] sends. *)
Inductive BulkResponse : Type :=
| BadRequest (status : Z) (message : string)
| Completed (results : list BulkResult) (errors : list BulkError) (summary : BulkSummary)
| ServerError (status : Z) (message : string).

(** [requests] is [None] when the body has no array there. *)
Definition bulkGenerate (requests : option (list (option GenerationRequest)))
  : Result BulkResponse :=
  try_catch
    (match requests with
     | None | Some [] =>
         ret (BadRequest 400 "Please provide an array of generation requests")
     | Some requests =>
         let* acc := forEach bulk_step requests 0 ([], []) in
         let '(results, errors) := acc in
         ret (Completed results errors
                {| total := Z.of_nat (length requests);
                   successful := Z.of_nat (length results);
                   failed := Z.of_nat (length errors) |})
     end)
    (fun error => ret (ServerError 500 (message_or "Unknown error occurred" error))).

(** The two lists the loop builds, read off the requests: the request at
    index [i] contributes one entry, to [results] when its generation
    returns a buffer and to [errors] when it throws. *)
Fixpoint bulk_outcomes (requests : list (option GenerationRequest)) (i : Z)
  : list BulkResult * list BulkError :=
  match requests with
  | [] => ([], [])
  | request :: rest =>
      let '(results, errors) := bulk_outcomes rest (i + 1) in
      match generate_request request with
      | inr buffer => (result_entry i request buffer :: results, errors)
      | inl e => (results, error_entry i e :: errors)
      end
  end.

End Assembler.

(* ===================================================================== *)
(** * Names used in the statements *)
(* ===================================================================== *)

(** The format names that [applyCellFormat] replaces by a fixed code. *)
Definition format_keywords : list string :=
  ["currency"; "percentage"; "date"; "datetime"; "number"; "integer"].

(** [!tableData || tableData.length === 0]: the test [createTable] starts
    with. *)
Definition table_data_empty (tableData : JsValue) : bool :=
  negb (truthy tableData)
  || match get_member tableData "length" with VNum 0 => true | _ => false end.

(** The messages of the [TypeError] that reading the member [key] of
    [null] and of [undefined] throws. *)
Definition null_read_error (key : string) : exn :=
  JsError ("Cannot read properties of null (reading '" ++ key ++ "')").

Definition undefined_read_error (key : string) : exn :=
  JsError ("Cannot read properties of undefined (reading '" ++ key ++ "')").

(** A row that [addTable] can store: a value list is no longer than the
    columns; the row made of an object or of a scalar has one value per
    column. *)
Definition row_fits (tableConfig : TableConfig.t) (row : JsValue) : bool :=
  match row with
  | VArr items => (length items <=? length (TableConfig.columns tableConfig))%nat
  | _ => true
  end.

(** A table of [height] data rows and [width] columns whose header starts
    at ([startRow], [startCol]) lies on the grid of a sheet: 1,048,576 rows
    and 16,384 columns. *)
Definition on_grid (startRow startCol : Z) (width height : nat) : Prop :=
  1 <= startRow /\ startRow + Z.of_nat height <= 1048576
  /\ 1 <= startCol <= 16384
  /\ 1 <= startCol + Z.of_nat width - 1 <= 16384.

(** The table that [createTable] registers for a start cell at
    ([startRow], [startCol]) on the grid. *)
Definition registered_table (tableConfig : TableConfig.t) (startRow startCol : Z)
    (rows : list JsValue) : Excel.Table :=
  {| Excel.name := TableConfig.tableName tableConfig;
     Excel.ref :=
       TableConfig.startCell tableConfig ++ ":" ++
       numberToColumnLetter
         (startCol + Z.of_nat (length (TableConfig.columns tableConfig)) - 1) ++
       number_to_string (startRow + Z.of_nat (length rows));
     Excel.headerRow := true;
     Excel.theme := "TableStyleMedium9";
     Excel.showRowStripes := true;
     Excel.columns := TableConfig.columns tableConfig;
     Excel.rows := map (table_row_pure tableConfig) rows |}.

(** The worksheet after the header loop and the row loop of
    [createTable]. *)
Definition written_table (tableConfig : TableConfig.t) (startRow startCol : Z)
    (rows : list JsValue) (worksheet : Excel.Worksheet) : Excel.Worksheet :=
  forEach_pure (written_row tableConfig startRow startCol) rows 0
    (forEach_pure (written_header tableConfig startRow startCol)
       (TableConfig.columns tableConfig) 0 worksheet).

(** The worksheet that [createTable] returns for a table on the grid:
    the two loops, the store of the table and its registration. *)
Definition built_table (tableConfig : TableConfig.t) (startRow startCol : Z)
    (rows : list JsValue) (worksheet : Excel.Worksheet) : Excel.Worksheet :=
  let table := registered_table tableConfig startRow startCol rows in
  register table
    (stored_table table startRow startCol
       (written_table tableConfig startRow startCol rows worksheet)).

(** What a worksheet holds besides its cells and its tables. *)
Definition sheet_settings (worksheet : Excel.Worksheet)
  : string * gmap Z Z * option Z * option string :=
  (Excel.sheet_name worksheet, Excel.widths worksheet,
   Excel.frozen_rows worksheet, Excel.protection worksheet).

(** [v === null] *)
Definition is_null (v : JsValue) : bool :=
  match v with VNull => true | _ => false end.

(** The font that the header loop of [createTable] assigns. *)
Definition header_font (tableConfig : TableConfig.t) : Excel.Font :=
  {| Excel.color :=
       if truthy_string (table_style tableConfig TableConfig.headerFontColor)
       then Some ("FF" ++ default "" (table_style tableConfig TableConfig.headerFontColor))
       else None;
     Excel.size := None; Excel.bold := Some true;
     Excel.italic := None; Excel.underline := None |}.

(** What may follow the reference of a cell inside a longer text: nothing,
    or a character that ends the loop, such as the colon of a range. *)
Definition ends_reference (rest : string) : bool :=
  match rest with
  | EmptyString => true
  | String c _ => negb (is_digit c) && negb (Ascii.eqb c "$")
  end.

(** What the store of a row of values makes of the cell [j] columns right
    of the first column of the table. *)
Definition stored_cell_after (data : list JsValue) (j : Z) (cell : Excel.Cell)
  : Excel.Cell :=
  match lookup_Z data j with
  | Some v => Excel.set_value (Excel.Plain v) cell
  | None => cell
  end.

(** The error of [table.columns[j].style] for a [j] beyond the columns. *)
Definition style_read_error : exn :=
  JsError "Cannot read properties of undefined (reading 'style')".

(** The error of [colCache.n2l(0)]. *)
Definition column_zero_error : exn :=
  JsError "0 is out of bounds. Excel supports columns from 1 to 16384".

(** What is left of the body of the table loop when there is no data: the
    look-up of the sheet, which adds it when it is not there. *)
Definition sheet_only (workbook : Excel.Workbook) (tableConfig : TableConfig.t)
  : Result Excel.Workbook :=
  let* sheet := ensure_sheet workbook (TableConfig.sheet tableConfig) in
  ret (fst sheet).

(** The message a failed request leaves in [errors]: that of the failed
    generation for a request that is an object, that of the [TypeError]
    of reading [jsonData] for one that is [null]. *)
Definition failure_recorded (request : option GenerationRequest) (message : string)
  : Prop :=
  match request with
  | Some _ => exists original, message = "Failed to generate Excel workbook: " ++ original
  | None => message = "Cannot read properties of null (reading 'jsonData')"
  end.

(* ===================================================================== *)
(** * The template inspector, continued *)
(* ===================================================================== *)

(** One entry of the [sheets] that [getTemplateInfo] returns. *)
Record SheetInfo : Type := mkSheetInfo
  { info_name : string;
    info_rowCount : Z;
    info_columnCount : Z;
    info_hasData : bool }.

Record TemplateInfo : Type := mkTemplateInfo
  { info_sheets : list SheetInfo;
    info_totalSheets : Z }.

(** [cell.value !== null && cell.value !== undefined && cell.value !== ''] *)
Definition holds_data (value : Excel.CellValue) : bool :=
  match value with
  | Excel.Plain VNull | Excel.Plain VUndefined => false
  | Excel.Plain (VStr s) => negb (String.eqb s "")
  | _ => true
  end.

(** The cells that [worksheet.eachRow] and [row.eachCell] hand to the
    callback, row after row: the cells of the sheet that were written.
    The library may leave out those that hold nothing; the callback does
    nothing on them either. *)
Definition visited_cells (worksheet : Excel.Worksheet) : list Excel.Cell :=
  map snd (map_to_list (Excel.cells worksheet)).

Section Inspector.

Variable xlsx_load : Buffer -> Result Excel.Workbook.

(** [worksheet.rowCount] and [worksheet.columnCount] of the spreadsheet
    library. *)
Variable worksheet_rowCount : Excel.Worksheet -> Z.
Variable worksheet_columnCount : Excel.Worksheet -> Z.

(** The callback of [workbook.eachSheet] in [getTemplateInfo]. *)
Definition sheet_info (worksheet : Excel.Worksheet) : SheetInfo :=
  let rowCount := worksheet_rowCount worksheet in
  let columnCount := worksheet_columnCount worksheet in
  (* Check if sheet has any data *)
  let hasData :=
    fold_left
      (fun hasData cell => if holds_data (Excel.value cell) then true else hasData)
      (visited_cells worksheet) false in
  {| info_name := Excel.sheet_name worksheet;
     info_rowCount := rowCount;
     info_columnCount := columnCount;
     info_hasData := hasData |}.

(** Unlike [validateTemplate], [getTemplateInfo] has no [try]: what the
    load throws, it throws. *)
Definition getTemplateInfo (templateBuffer : Buffer) : Result TemplateInfo :=
  let* workbook := xlsx_load templateBuffer in
  let sheets := map sheet_info workbook in
  ret {| info_sheets := sheets; info_totalSheets := Z.of_nat (length sheets) |}.

End Inspector.

(* ===================================================================== *)
(** * The request handlers *)
(* ===================================================================== *)

(** The file that the upload middleware leaves in [req.file]. *)
Record UploadedFile : Type := mkUploadedFile
  { file_buffer : Buffer;
    originalname : string;
    upload_size : Z }.

(** The body of a request for one workbook and its uploaded template:
    the members of a generation request, [mode] and [emailAddress]. *)
Record ExcelRequest : Type := mkExcelRequest
  { generation : GenerationRequest;
    mode : option string;
    emailAddress : option string;
    file : option UploadedFile }.

(** What a handler sends: the status, 200 unless it sets another, the
    headers it sets, and the body, JSON or bytes. *)
Inductive ResponseBody : Type :=
| JsonBody (json : JsValue)
| BufferBody (bytes : Buffer).

Record Response : Type := mkResponse
  { status : Z;
    headers : list (string * JsValue);
    body : ResponseBody }.

(** [res.json(json)] and [res.status(code).json(json)] *)
Definition res_json (json : JsValue) : Response :=
  {| status := 200; headers := []; body := JsonBody json |}.

Definition res_status_json (code : Z) (json : JsValue) : Response :=
  {| status := code; headers := []; body := JsonBody json |}.

(** A call of the mail service: the recipient, the attachment and its
    file name. *)
Record Mail : Type := mkMail
  { recipient : string;
    attachment : Buffer;
    attachment_name : string }.

(** A handler that may call the mail service: it runs from the calls made
    so far to a result or an exception and the calls made then. *)
Definition Handler (A : Type) : Type := list Mail -> Result A * list Mail.

Definition handler_ret {A} (a : A) : Handler A := fun sent => (inr a, sent).

Definition handler_bind {A B} (m : Handler A) (k : A -> Handler B) : Handler B :=
  fun sent =>
    match m sent with
    | (inr a, sent') => k a sent'
    | (inl e, sent') => (inl e, sent')
    end.

Notation "'do*' x ':=' m 'in' k" := (handler_bind m (fun x => k))
  (at level 10, x name, m at level 100, k at level 200).

(** A call that sends no mail. *)
Definition lift {A} (m : Result A) : Handler A := fun sent => (m, sent).

(** [try { body } catch (error) { handler }] *)
Definition handler_try {A} (body : Handler A) (handler : exn -> Handler A) : Handler A :=
  fun sent =>
    match body sent with
    | (inl e, sent') => handler e sent'
    | (inr a, sent') => (inr a, sent')
    end.

(** [`${Math.round(size / 1024)} KB`] *)
Definition size_in_kb (bytes : Z) : string :=
  number_to_string ((bytes + 512) / 1024) ++ " KB".

(** The JSON form of what [getTemplateInfo] returned. *)
Definition sheet_info_json (info : SheetInfo) : JsValue :=
  VObj [("name", VStr (info_name info));
        ("rowCount", VNum (info_rowCount info));
        ("columnCount", VNum (info_columnCount info));
        ("hasData", VBool (info_hasData info))].

Definition template_info_json (info : TemplateInfo) : JsValue :=
  VObj [("sheets", VArr (map sheet_info_json (info_sheets info)));
        ("totalSheets", VNum (info_totalSheets info))].

(** An optional string as a member of a JSON body. *)
Definition optional_string (o : option string) : JsValue :=
  match o with
  | Some s => VStr s
  | None => VUndefined
  end.

Section Handlers.

Variable xlsx_load : Buffer -> Result Excel.Workbook.
Variable xlsx_writeBuffer : Excel.Workbook -> Result Buffer.
Variable worksheet_rowCount : Excel.Worksheet -> Z.
Variable worksheet_columnCount : Excel.Worksheet -> Z.

(** [sendEmailWithAttachment] of the mail service, which may throw;
    [buffer.toString('base64')]; and [new Date().toISOString()] at the
    time the response is built. *)
Variable sendEmailWithAttachment : string -> Buffer -> string -> Result unit.
Variable base64 : Buffer -> string.
Variable now : string.

(** [await sendEmailWithAttachment(recipient, buffer, fileName)] *)
Definition send_mail (to : string) (buffer : Buffer) (name : string) : Handler unit :=
  fun sent =>
    (sendEmailWithAttachment to buffer name,
     push sent {| recipient := to; attachment := buffer; attachment_name := name |}).

(** "Generate Excel file (main endpoint)" *)
Definition generateExcel (req : ExcelRequest) : Handler Response :=
  handler_try
    (let request := generation req in
     let tables := default [] (tables request) in
     let mode := default "download" (mode req) in
     let emailAddress := emailAddress req in
     let fileName := default "generated.xlsx" (fileName request) in
     let options := default ExcelOptions.empty (options request) in
     let templateFile := option_map file_buffer (file req) in
     (* Generate the Excel workbook *)
     do* workbookBuffer :=
       lift (generateWorkbook xlsx_load xlsx_writeBuffer (jsonData request)
               (mappingConfig request) tables templateFile options) in
     if String.eqb mode "download" then
       (* Set headers for file download *)
       handler_ret
         {| status := 200;
            headers :=
              [("Content-Type",
                VStr "application/vnd.openxmlformats-officedocument.spreadsheetml.sheet");
               ("Content-Disposition",
                VStr ("attachment; filename=" ++ double_quote ++ fileName ++ double_quote));
               ("Content-Length", VNum (Z.of_nat (length workbookBuffer)))];
            body := BufferBody workbookBuffer |}
     else if String.eqb mode "email" then
       if negb (truthy_string emailAddress) then
         handler_ret
           (res_status_json 400
              (VObj [("error", VStr "Email address required for email mode");
                     ("message",
                      VStr "Please provide a valid email address in the emailAddress field")]))
       else
         (* Send email with attachment *)
         do* _ := send_mail (default "" emailAddress) workbookBuffer fileName in
         handler_ret
           (res_json
              (VObj [("success", VBool true);
                     ("message", VStr "Excel file generated and sent successfully");
                     ("details",
                      VObj [("recipient", optional_string emailAddress);
                            ("fileName", VStr fileName);
                            ("fileSize", VStr (file_size workbookBuffer));
                            ("timestamp", VStr now)])]))
     else
       (* Default: return file info *)
       handler_ret
         (res_json
            (VObj [("success", VBool true);
                   ("message", VStr "Excel file generated successfully");
                   ("data",
                    VObj [("fileName", VStr fileName);
                          ("fileSize", VStr (file_size workbookBuffer));
                          ("base64", VStr (base64 workbookBuffer))])])))
    (fun error =>
       handler_ret
         (res_status_json 500
            (VObj [("error", VStr "Failed to generate Excel file");
                   ("message", VStr (message_or "Unknown error occurred" error));
                   ("timestamp", VStr now)]))).

(** [req.body.mode = m] *)
Definition set_mode (m : string) (req : ExcelRequest) : ExcelRequest :=
  {| generation := generation req; mode := Some m;
     emailAddress := emailAddress req; file := file req |}.

(** "Generate and download Excel (dedicated download endpoint)" *)
Definition downloadExcel (req : ExcelRequest) : Handler Response :=
  (* Set mode to download and call main generate function *)
  let req := set_mode "download" req in
  generateExcel req.

(** "Generate and email Excel (dedicated email endpoint)" *)
Definition emailExcel (req : ExcelRequest) : Handler Response :=
  (* Set mode to email and call main generate function *)
  let req := set_mode "email" req in
  if negb (truthy_string (emailAddress req)) then
    handler_ret
      (res_status_json 400
         (VObj [("error", VStr "Email address required");
                ("message", VStr "Please provide a valid email address")]))
  else generateExcel req.

(** "Upload and validate template" *)
Definition uploadTemplate (file : option UploadedFile) : Result Response :=
  try_catch
    (match file with
     | None =>
         ret (res_status_json 400
                (VObj [("error", VStr "No template file provided");
                       ("message",
                        VStr "Please upload an Excel template file (.xlsx or .xls)")]))
     | Some file =>
         let templateBuffer := file_buffer file in
         let* validation := validateTemplate xlsx_load templateBuffer in
         if negb (isValid validation) then
           ret (res_status_json 400
                  (VObj [("error", VStr "Invalid template file");
                         ("message", optional_string (error validation));
                         ("details",
                          VStr "Please ensure the file is a valid Excel workbook")]))
         else
           let* templateInfo :=
             getTemplateInfo xlsx_load worksheet_rowCount worksheet_columnCount
               templateBuffer in
           ret (res_json
                  (VObj [("success", VBool true);
                         ("message",
                          VStr "Template uploaded and validated successfully");
                         ("template",
                          VObj [("fileName", VStr (originalname file));
                                ("fileSize", VStr (size_in_kb (upload_size file)));
                                ("sheets", VArr (map VStr (sheets validation)));
                                ("details", template_info_json templateInfo);
                                ("uploadedAt", VStr now)])]))
     end)
    (fun error =>
       ret (res_status_json 500
              (VObj [("error", VStr "Failed to process template");
                     ("message", VStr (message_or "Unknown error occurred" error))]))).

(** "Validate template file": [validateTemplate] of the controller, which
    imports the function of the same name above as
    [validateTemplateUtil]. *)
Definition validateTemplateHandler (file : option UploadedFile) : Result Response :=
  try_catch
    (match file with
     | None =>
         ret (res_status_json 400
                (VObj [("error", VStr "No template file provided");
                       ("message",
                        VStr "Please upload an Excel template file for validation")]))
     | Some file =>
         let templateBuffer := file_buffer file in
         let* validation := validateTemplate xlsx_load templateBuffer in
         if negb (isValid validation) then
           ret (res_status_json 400
                  (VObj [("success", VBool false);
                         ("error", VStr "Template validation failed");
                         ("message", optional_string (error validation));
                         ("details",
                          VObj [("fileName", VStr (originalname file));
                                ("fileSize", VStr (size_in_kb (upload_size file)));
                                ("validatedAt", VStr now)])]))
         else
           let* templateInfo :=
             getTemplateInfo xlsx_load worksheet_rowCount worksheet_columnCount
               templateBuffer in
           ret (res_json
                  (VObj [("success", VBool true);
                         ("message", VStr "Template is valid and ready to use");
                         ("validation",
                          VObj [("isValid", VBool true);
                                ("sheets", VArr (map VStr (sheets validation)));
                                ("details", template_info_json templateInfo);
                                ("fileName", VStr (originalname file));
                                ("fileSize", VStr (size_in_kb (upload_size file)));
                                ("validatedAt", VStr now)])]))
     end)
    (fun error =>
       ret (res_status_json 500
              (VObj [("success", VBool false);
                     ("error", VStr "Validation failed");
                     ("message", VStr (message_or "Unknown error occurred" error))]))).

End Handlers.

(** Stand-ins for the concrete examples: the row and column counts of a
    sheet as the largest row and column that hold a cell, a mail service
    that fails for one recipient, a text for a buffer and a time. *)
Definition sample_rowCount (worksheet : Excel.Worksheet) : Z :=
  foldr (fun rc n => Z.max (fst rc) n) 0 (map fst (map_to_list (Excel.cells worksheet))).

Definition sample_columnCount (worksheet : Excel.Worksheet) : Z :=
  foldr (fun rc n => Z.max (snd rc) n) 0 (map fst (map_to_list (Excel.cells worksheet))).

Definition sample_sendEmail (to : string) (buffer : Buffer) (name : string)
  : Result unit :=
  if String.eqb to "bounce@example.com"
  then throw (JsError "Failed to send email: mailbox unavailable")
  else ret tt.

Definition sample_base64 (buffer : Buffer) : string :=
  number_to_string (Z.of_nat (length buffer)) ++ " bytes".

Definition sample_now : string := "2024-01-01T00:00:00.000Z".

(** A few of the members a current runtime lets arrays and strings
    inherit, to run the definitions on. *)
Definition sample_inherited_member (v : JsValue) (key : string) : option JsValue :=
  match v with
  | VArr _ =>
      if String.eqb key "constructor" then Some (VFunction "Array")
      else if existsb (String.eqb key) ["forEach"; "map"; "join"]
           then Some (VFunction ("Array.prototype." ++ key))
           else None
  | VStr _ =>
      if String.eqb key "constructor" then Some (VFunction "String")
      else if existsb (String.eqb key) ["trim"; "toUpperCase"]
           then Some (VFunction ("String.prototype." ++ key))
           else None
  | _ => None
  end.

(** Stand-ins for the two calls into the spreadsheet library, for the
    concrete examples: a buffer loads when it starts with the two bytes
    "PK" of a zip archive, and a workbook is serialised to one byte per
    sheet. *)
Definition sample_load (buffer : Buffer) : Result Excel.Workbook :=
  match buffer with
  | Byte.x50 :: Byte.x4b :: _ => ret [Excel.new_sheet "Sheet1"]
  | _ => throw (JsError "Can't find end of central directory")
  end.

Definition sample_writeBuffer (workbook : Excel.Workbook) : Result Buffer :=
  ret (map (fun _ => Byte.x00) workbook).

(* ===================================================================== *)
(** * Properties *)
(* ===================================================================== *)

(** ** Results *)

Lemma bind_inr {A B} (m : Result A) (k : A -> Result B) (a : A) :
  m = inr a -> bind m k = k a.
Proof. intros ->. reflexivity. Qed.

Lemma bind_inl {A B} (m : Result A) (k : A -> Result B) (e : exn) :
  m = inl e -> bind m k = inl e.
Proof. intros ->. reflexivity. Qed.

Lemma bind_inr_inv {A B} (m : Result A) (k : A -> Result B) (b : B) :
  bind m k = inr b -> exists a, m = inr a /\ k a = inr b.
Proof. destruct m as [e|a]; simpl; [discriminate | eauto]. Qed.

(** ** Characters and strings *)

Lemma charCode_A : charCode "A" = 65.
Proof. reflexivity. Qed.

Lemma charCode_Z : charCode "Z" = 90.
Proof. reflexivity. Qed.

Lemma fromCharCode_charCode c : fromCharCode (charCode c) = c.
Proof. unfold fromCharCode, charCode. rewrite Nat2Z.id. apply ascii_nat_embedding. Qed.

Lemma charCode_fromCharCode n : 0 <= n < 256 -> charCode (fromCharCode n) = n.
Proof.
  intros H. unfold fromCharCode, charCode.
  rewrite nat_ascii_embedding by lia. lia.
Qed.

Lemma is_upper_spec c : is_upper c = true <-> 65 <= charCode c <= 90.
Proof. unfold is_upper. rewrite charCode_A, charCode_Z. lia. Qed.

Lemma append_cons c (s t : string) : String c s ++ t = String c (s ++ t).
Proof. reflexivity. Qed.

Lemma append_empty_r (s : string) : s ++ "" = s.
Proof.
  induction s as [|c s IH]; [reflexivity|].
  rewrite append_cons. now rewrite IH.
Qed.

Lemma length_append (s t : string) :
  String.length (s ++ t) = (String.length s + String.length t)%nat.
Proof.
  induction s as [|c s IH]; [reflexivity|].
  rewrite append_cons. simpl. now rewrite IH.
Qed.

(** ** Splitting a path *)

Lemma split_dot_nonempty s : split_dot s <> [].
Proof.
  destruct s as [|c s]; simpl; [discriminate|].
  destruct (Ascii.eqb c "."); [discriminate|].
  destruct (split_dot s); discriminate.
Qed.

Lemma split_dot_dot_free p : dot_free p = true -> split_dot p = [p].
Proof.
  induction p as [|c p IH]; intros H; [reflexivity|].
  unfold dot_free in H. simpl in H. apply andb_prop in H as [Hc Hp].
  simpl. apply negb_true_iff in Hc. rewrite Hc.
  rewrite (IH Hp). reflexivity.
Qed.

Lemma split_dot_app p rest :
  dot_free p = true -> split_dot (p ++ "." ++ rest) = p :: split_dot rest.
Proof.
  induction p as [|c p IH]; intros H.
  - reflexivity.
  - unfold dot_free in H. simpl in H. apply andb_prop in H as [Hc Hp].
    rewrite append_cons. simpl. apply negb_true_iff in Hc. rewrite Hc.
    rewrite (IH Hp). reflexivity.
Qed.

(** Splitting undoes joining: a path written as dot-free pieces joined by
    dots is split into exactly these pieces. *)
Lemma split_dot_join_dot pieces :
  pieces <> [] -> Forall (fun p => dot_free p = true) pieces ->
  split_dot (join_dot pieces) = pieces.
Proof.
  induction pieces as [|p rest IH]; intros Hne Hall; [congruence|].
  inversion Hall as [|? ? Hp Hrest]; subst.
  destruct rest as [|q rest'].
  - simpl. now apply split_dot_dot_free.
  - change (join_dot (p :: q :: rest')) with (p ++ "." ++ join_dot (q :: rest')).
    rewrite split_dot_app by assumption.
    rewrite IH; [reflexivity | discriminate | assumption].
Qed.

(** ** Field resolution *)

Lemma getNestedValue_join obj pieces :
  pieces <> [] -> Forall (fun p => dot_free p = true) pieces ->
  getNestedValue obj (join_dot pieces) = walk obj pieces.
Proof.
  intros Hne Hall. unfold getNestedValue, walk.
  now rewrite split_dot_join_dot.
Qed.

Lemma walk_app obj before after :
  walk obj (before ++ after)%list = walk (walk obj before) after.
Proof. unfold walk. apply fold_left_app. Qed.

Lemma getNestedValue_step_found current key :
  truthy current = true -> get_member current key <> VUndefined ->
  getNestedValue_step current key = get_member current key.
Proof.
  intros Ht Hm. unfold getNestedValue_step. rewrite Ht.
  destruct (get_member current key); try reflexivity. congruence.
Qed.

Lemma getNestedValue_step_missing current key :
  get_member current key = VUndefined -> getNestedValue_step current key = VNull.
Proof.
  intros Hm. unfold getNestedValue_step. rewrite Hm. simpl.
  now rewrite andb_false_r.
Qed.

Lemma getNestedValue_step_falsy current key :
  truthy current = false -> getNestedValue_step current key = VNull.
Proof. intros Ht. unfold getNestedValue_step. now rewrite Ht. Qed.

Lemma walk_null pieces : walk VNull pieces = VNull.
Proof.
  induction pieces as [|p rest IH]; [reflexivity|].
  unfold walk in *. simpl. exact IH.
Qed.

Lemma walk_falsy current pieces :
  pieces <> [] -> truthy current = false -> walk current pieces = VNull.
Proof.
  intros Hne Ht. destruct pieces as [|p rest]; [congruence|].
  unfold walk. simpl. rewrite (getNestedValue_step_falsy _ _ Ht).
  apply walk_null.
Qed.

(** The result is never [undefined]. *)
Lemma getNestedValue_step_defined current key :
  getNestedValue_step current key <> VUndefined.
Proof.
  unfold getNestedValue_step.
  destruct (truthy current); simpl; [|discriminate].
  destruct (get_member current key); simpl; discriminate.
Qed.

Lemma getNestedValue_defined obj path : getNestedValue obj path <> VUndefined.
Proof.
  unfold getNestedValue.
  pose proof (split_dot_nonempty path) as Hne.
  destruct (split_dot path) as [|p rest] using rev_ind; [congruence|].
  rewrite fold_left_app. simpl. apply getNestedValue_step_defined.
Qed.

(** Own members come first; a key that an object of the document does
    not have reads as the member of [Object.prototype] of that name. *)
Lemma get_member_own props key v :
  lookup_prop key props = Some v -> get_member (VObj props) key = v.
Proof. intros H. unfold get_member. simpl. now rewrite H. Qed.

Lemma get_member_absent props key :
  lookup_prop key props = None ->
  get_member (VObj props) key = object_prototype_member key.
Proof. intros H. unfold get_member. simpl. now rewrite H. Qed.

(** A method that every object inherits is found by the resolution. *)
Lemma getNestedValue_inherited_method :
  getNestedValue (VObj [("a", VObj [("b", VNum 5)])]) "a.toString" =
  VFunction "Object.prototype.toString".
Proof. reflexivity. Qed.

(** The falsy values are exactly these. *)
Lemma falsy_cases v :
  truthy v = false <->
  v = VUndefined \/ v = VNull \/ v = VBool false \/ v = VNum 0 \/ v = VStr "".
Proof.
  split.
  - destruct v as [| |b|n|s| | |]; simpl; intros H; try discriminate; auto.
    + destruct b; [discriminate | auto].
    + apply negb_false_iff, Z.eqb_eq in H. subst. auto 6.
    + apply negb_false_iff, String.eqb_eq in H. subst. auto 6.
  - intros [->|[->|[->|[->| ->]]]]; reflexivity.
Qed.

(** C2, as amended.  Field resolution splits the path on the dots and
    steps into the nested values, piece by piece: a piece that is found in
    a truthy current value yields the member; a piece whose member reads
    as [undefined] yields [null], and so does every longer path through
    it.  In an object of the document a key that the object does not have
    reads as [undefined] unless it is the name of a member of
    [Object.prototype], such as [toString]; such a name resolves to the
    inherited member.  For the document [{"a":{"b":5}}], the path ["a.b"]
    yields [5] and the path ["a.c"] yields [null]. *)
Theorem getNestedValue_resolves :
  (forall obj path,
      getNestedValue obj path = walk obj (split_dot path))
  /\ (forall pieces,
         pieces <> [] -> Forall (fun p => dot_free p = true) pieces ->
         split_dot (join_dot pieces) = pieces)
  /\ (forall obj before key,
         Forall (fun p => dot_free p = true) (before ++ [key])%list ->
         truthy (walk obj before) = true ->
         get_member (walk obj before) key <> VUndefined ->
         getNestedValue obj (join_dot (before ++ [key])) =
         get_member (walk obj before) key)
  /\ (forall obj before key after,
         Forall (fun p => dot_free p = true) (before ++ key :: after)%list ->
         get_member (walk obj before) key = VUndefined ->
         getNestedValue obj (join_dot (before ++ key :: after)) = VNull)
  /\ (forall obj before key after props,
         Forall (fun p => dot_free p = true) (before ++ key :: after)%list ->
         walk obj before = VObj props ->
         lookup_prop key props = None ->
         object_prototype_member key = VUndefined ->
         getNestedValue obj (join_dot (before ++ key :: after)) = VNull)
  /\ (forall obj before key props,
         Forall (fun p => dot_free p = true) (before ++ [key])%list ->
         walk obj before = VObj props ->
         lookup_prop key props = None ->
         object_prototype_member key <> VUndefined ->
         getNestedValue obj (join_dot (before ++ [key])) = object_prototype_member key)
  /\ getNestedValue (VObj [("a", VObj [("b", VNum 5)])]) "a.b" = VNum 5
  /\ getNestedValue (VObj [("a", VObj [("b", VNum 5)])]) "a.c" = VNull.
Proof.
  assert (Hmissing : forall obj before key after,
             Forall (fun p => dot_free p = true) (before ++ key :: after)%list ->
             get_member (walk obj before) key = VUndefined ->
             getNestedValue obj (join_dot (before ++ key :: after)) = VNull).
  { intros obj before key after Hall Hm.
    rewrite getNestedValue_join; [| now destruct before | assumption].
    rewrite walk_app.
    change (walk (walk obj before) (key :: after))
      with (walk (getNestedValue_step (walk obj before) key) after).
    rewrite (getNestedValue_step_missing _ _ Hm). apply walk_null. }
  assert (Hfound : forall obj before key,
             Forall (fun p => dot_free p = true) (before ++ [key])%list ->
             truthy (walk obj before) = true ->
             get_member (walk obj before) key <> VUndefined ->
             getNestedValue obj (join_dot (before ++ [key])) =
             get_member (walk obj before) key).
  { intros obj before key Hall Ht Hm.
    rewrite getNestedValue_join; [| now destruct before | assumption].
    rewrite walk_app. unfold walk at 1. simpl.
    now apply getNestedValue_step_found. }
  split; [reflexivity|].
  split; [exact split_dot_join_dot|].
  split; [exact Hfound|]. split; [exact Hmissing|].
  split; [|split; [|split; reflexivity]].
  - intros obj before key after props Hall Hobj Hkey Hproto.
    apply Hmissing; [assumption|].
    now rewrite Hobj, get_member_absent.
  - intros obj before key props Hall Hobj Hkey Hproto.
    rewrite Hfound; try assumption.
    + now rewrite Hobj, get_member_absent.
    + now rewrite Hobj.
    + now rewrite Hobj, get_member_absent.
Qed.

(** C9, as amended.  Once a step of the resolution has produced a falsy
    value (undefined, null, false, 0 or the empty string; a JSON document
    holds no NaN) and pieces of the path remain, the result is [null]
    whatever the remaining pieces are.  A field that is present with value
    [null] and a field that is missing both resolve to [null] when the key
    names no member of [Object.prototype], and the mapping loop then
    stores the same blank for them: the empty string, or a formula with
    cached result 0.  Under the name of a member of [Object.prototype] the
    two differ: the present [null] resolves to [null], the missing field
    to the inherited member. *)
Theorem getNestedValue_falsy_is_null :
  (forall v,
      truthy v = false <->
      v = VUndefined \/ v = VNull \/ v = VBool false \/ v = VNum 0 \/ v = VStr "")
  /\ (forall obj before after,
         after <> [] ->
         Forall (fun p => dot_free p = true) (before ++ after)%list ->
         truthy (walk obj before) = false ->
         getNestedValue obj (join_dot (before ++ after)) = VNull)
  /\ (forall present missing before key props1 props2 formula,
         Forall (fun p => dot_free p = true) (before ++ [key])%list ->
         walk present before = VObj props1 ->
         walk missing before = VObj props2 ->
         lookup_prop key props1 = Some VNull ->
         lookup_prop key props2 = None ->
         object_prototype_member key = VUndefined ->
         let path := join_dot (before ++ [key]) in
         getNestedValue present path = VNull
         /\ getNestedValue missing path = VNull
         /\ mapped_value formula (getNestedValue present path) =
            mapped_value formula (getNestedValue missing path)
         /\ mapped_value formula (getNestedValue missing path) =
            if truthy_string formula
            then Excel.Formula (default "" formula) (VNum 0)
            else Excel.Plain (VStr ""))
  /\ (forall present missing before key props1 props2,
         Forall (fun p => dot_free p = true) (before ++ [key])%list ->
         walk present before = VObj props1 ->
         walk missing before = VObj props2 ->
         lookup_prop key props1 = Some VNull ->
         lookup_prop key props2 = None ->
         object_prototype_member key <> VUndefined ->
         let path := join_dot (before ++ [key]) in
         getNestedValue present path = VNull
         /\ getNestedValue missing path = object_prototype_member key).
Proof.
  assert (Hpresent : forall present before key props1,
             Forall (fun p => dot_free p = true) (before ++ [key])%list ->
             walk present before = VObj props1 ->
             lookup_prop key props1 = Some VNull ->
             getNestedValue present (join_dot (before ++ [key])) = VNull).
  { intros present before key props1 Hall H1 Hk1.
    rewrite getNestedValue_join; [| now destruct before | assumption].
    rewrite walk_app, H1. unfold walk. simpl.
    unfold getNestedValue_step. now rewrite (get_member_own _ _ _ Hk1). }
  split; [exact falsy_cases|]. split; [|split].
  - intros obj before after Hne Hall Ht.
    rewrite getNestedValue_join; [| now destruct before, after | assumption].
    rewrite walk_app. now apply walk_falsy.
  - intros present missing before key props1 props2 formula Hall H1 H2 Hk1 Hk2 Hproto path.
    assert (Hp : getNestedValue present path = VNull).
    { unfold path. rewrite getNestedValue_join; [| now destruct before | assumption].
      rewrite walk_app, H1. unfold walk. simpl.
      unfold getNestedValue_step. now rewrite (get_member_own _ _ _ Hk1). }
    assert (Hm : getNestedValue missing path = VNull).
    { unfold path. rewrite getNestedValue_join; [| now destruct before | assumption].
      rewrite walk_app, H2. unfold walk. simpl.
      apply getNestedValue_step_missing.
      now rewrite get_member_absent. }
    rewrite Hp, Hm. repeat split.
  - intros present missing before key props1 props2 Hall H1 H2 Hk1 Hk2 Hproto path.
    split; [now apply Hpresent with props1|].
    unfold path. rewrite getNestedValue_join; [| now destruct before | assumption].
    rewrite walk_app, H2. unfold walk. simpl.
    rewrite getNestedValue_step_found; [| reflexivity |];
      now rewrite (get_member_absent _ _ Hk2).
Qed.

(** ** Column letters *)

Lemma string_forall_app p (s t : string) :
  string_forall p (s ++ t) = string_forall p s && string_forall p t.
Proof.
  induction s as [|d s IH]; [reflexivity|]. rewrite append_cons.
  change (string_forall p (String d (s ++ t))) with (p d && string_forall p (s ++ t)).
  change (string_forall p (String d s)) with (p d && string_forall p s).
  rewrite IH. apply andb_assoc.
Qed.

(** ** Numbers *)

Lemma round_div_near n d : 0 < d ->
  2 * n - d <= 2 * d * JsNumber.round_div n d <= 2 * n + d.
Proof.
  intros Hd. unfold JsNumber.round_div.
  pose proof (Z.div_mod n d ltac:(lia)) as Hdm.
  pose proof (Z.mod_pos_bound n d Hd) as Hm.
  destruct (Z.ltb_spec (2 * (n mod d)) d); [nia|].
  destruct (Z.ltb_spec d (2 * (n mod d))); [nia|].
  destruct (Z.even (n / d)); nia.
Qed.

Lemma fl_of_nonneg z : 0 <= z -> JsNumber.fl z = JsNumber.fl_nonneg z.
Proof.
  intros Hz. unfold JsNumber.fl. destruct z as [|p|p]; [reflexivity | | lia].
  change (Z.sgn (Z.pos p)) with 1. change (Z.abs (Z.pos p)) with (Z.pos p).
  apply Z.mul_1_l.
Qed.

(** Up to 2^53 every integer is a double. *)
Lemma fl_exact z : 0 <= z <= 2 ^ 53 -> JsNumber.fl z = z.
Proof.
  intros Hz. rewrite fl_of_nonneg by lia. unfold JsNumber.fl_nonneg.
  destruct (Z.leb_spec (Z.log2 z - 52) 0) as [H|H]; [reflexivity|].
  assert (0 < z) by (destruct (Z.eq_dec z 0); [subst; simpl in *; lia | lia]).
  pose proof (Z.log2_spec z ltac:(lia)) as [Hlo Hhi].
  assert (2 ^ 53 <= 2 ^ Z.log2 z) by (apply Z.pow_le_mono_r; lia).
  assert (z = 2 ^ 53) as -> by lia.
  vm_compute. reflexivity.
Qed.

(** Rounding does not take a number from above 2^53 to below it. *)
Lemma fl_large z : 2 ^ 53 <= z -> 2 ^ 53 <= JsNumber.fl z.
Proof.
  intros Hz. rewrite fl_of_nonneg by lia. unfold JsNumber.fl_nonneg.
  destruct (Z.leb_spec (Z.log2 z - 52) 0) as [H|H]; [lia|].
  pose proof (Z.log2_spec z ltac:(lia)) as [Hlo Hhi].
  set (e := Z.log2 z - 52) in *.
  assert (He : Z.log2 z = e + 52) by lia. rewrite He in *.
  rewrite Z.pow_add_r in Hlo by lia.
  assert (HP : 0 < 2 ^ e) by (apply Z.pow_pos_nonneg; lia).
  pose proof (round_div_near z (2 ^ e) HP) as [Hn1 Hn2].
  assert (2 ^ 52 <= z / 2 ^ e) by (apply Z.div_le_lower_bound; lia).
  assert (z / 2 ^ e <= JsNumber.round_div z (2 ^ e)).
  { unfold JsNumber.round_div.
    repeat match goal with |- context [if ?b then _ else _] => destruct b end; lia. }
  assert (2 ^ 53 <= 2 ^ 52 * 2 ^ e).
  { replace (2 ^ 53) with (2 ^ 52 * 2 ^ 1) by reflexivity.
    apply Z.mul_le_mono_nonneg_l; [lia|]. apply Z.pow_le_mono_r; lia. }
  nia.
Qed.

(** Up to 2^53 the rounded quotient by 26, floored, is the integer quotient. *)
Lemma floor_div_exact a : 0 <= a <= 2 ^ 53 -> JsNumber.floor_div a 26 = a / 26.
Proof.
  intros Ha. unfold JsNumber.floor_div.
  destruct (Z.eqb_spec (a / 26) 0) as [E|E]; [lia|].
  assert (Hq : 0 < a / 26) by (pose proof (Z.div_pos a 26); lia).
  assert (Hq' : a / 26 < 2 ^ 49).
  { apply Z.div_lt_upper_bound; [lia|].
    assert (2 ^ 53 < 26 * 2 ^ 49) by (vm_compute; reflexivity). lia. }
  pose proof (Z.log2_spec (a / 26) Hq) as [Hlo Hhi].
  assert (Z.log2 (a / 26) < 49) by (apply Z.log2_lt_pow2; lia).
  destruct (Z.leb_spec 0 (Z.log2 (a / 26) - 52)) as [H1|H1]; [lia|].
  set (s := - (Z.log2 (a / 26) - 52)) in *.
  assert (HS : 16 <= 2 ^ s).
  { change 16 with (2 ^ 4). apply Z.pow_le_mono_r; lia. }
  pose proof (round_div_near (a * 2 ^ s) 26 ltac:(lia)) as [Hn1 Hn2].
  pose proof (Z.div_mod a 26 ltac:(lia)) as Hdm.
  pose proof (Z.mod_pos_bound a 26 ltac:(lia)) as Hm.
  symmetry.
  apply Z.div_unique with (r := JsNumber.round_div (a * 2 ^ s) 26 - 2 ^ s * (a / 26)).
  - left. nia.
  - lia.
Qed.

(** ** Column letters *)

Lemma numberToColumnLetter_loop_pos num result :
  0 < num <= 2 ^ 53 ->
  numberToColumnLetter_loop num result =
  numberToColumnLetter_loop ((num - 1) / 26)
    (String (fromCharCode (charCode "A" + (num - 1) mod 26)) result).
Proof.
  intros H. rewrite numberToColumnLetter_loop_equation_1.
  destruct (Z_gt_dec num 0); [|lia]. simpl.
  unfold JsNumber.sub. rewrite fl_exact by lia.
  rewrite floor_div_exact by lia. reflexivity.
Qed.

Lemma numberToColumnLetter_loop_nonpos num result :
  num <= 0 -> numberToColumnLetter_loop num result = result.
Proof.
  intros H. rewrite numberToColumnLetter_loop_equation_1.
  destruct (Z_gt_dec num 0); [lia | reflexivity].
Qed.

Lemma numberToColumnLetter_loop_push r c acc :
  0 <= r -> is_upper c = true ->
  r * 26 + (charCode c - charCode "A" + 1) <= 2 ^ 53 ->
  numberToColumnLetter_loop (r * 26 + (charCode c - charCode "A" + 1)) acc =
  numberToColumnLetter_loop r (String c acc).
Proof.
  intros Hr Hc. apply is_upper_spec in Hc. rewrite charCode_A. intros Hb.
  rewrite numberToColumnLetter_loop_pos by lia. rewrite charCode_A.
  replace (r * 26 + (charCode c - 65 + 1) - 1) with ((charCode c - 65) + r * 26) by lia.
  rewrite Z.div_add, Z.mod_add by lia.
  rewrite Z.div_small, Z.mod_small by lia.
  replace (65 + (charCode c - 65)) with (charCode c) by lia.
  rewrite fromCharCode_charCode. reflexivity.
Qed.

Lemma column_value_loop_bounds s : forall r,
  string_forall is_upper s = true -> 0 <= r ->
  r * 26 ^ Z.of_nat (String.length s) <= column_value_loop s r
  <= (r + 2) * 26 ^ Z.of_nat (String.length s) - 2.
Proof.
  induction s as [|c s IH]; intros r Hs Hr.
  - simpl. lia.
  - simpl in Hs. apply andb_prop in Hs as [Hc Hs]. apply is_upper_spec in Hc.
    simpl String.length. simpl column_value_loop. rewrite charCode_A.
    rewrite Nat2Z.inj_succ, Z.pow_succ_r by lia.
    specialize (IH (r * 26 + (charCode c - 65 + 1)) Hs ltac:(lia)).
    assert (0 < 26 ^ Z.of_nat (String.length s)) by (apply Z.pow_pos_nonneg; lia).
    nia.
Qed.

Lemma column_value_loop_ge s r :
  string_forall is_upper s = true -> 0 <= r -> r <= column_value_loop s r.
Proof.
  intros Hs Hr. pose proof (column_value_loop_bounds s r Hs Hr) as [Hlo _].
  assert (0 < 26 ^ Z.of_nat (String.length s)) by (apply Z.pow_pos_nonneg; lia).
  nia.
Qed.

(** One pass of the loop of [columnLetterToNumber]: exact below 2^53, and
    not below 2^53 otherwise. *)
Lemma columnLetterToNumber_step r c :
  0 <= r -> is_upper c = true ->
  let exact := r * 26 + (charCode c - charCode "A" + 1) in
  let rounded := JsNumber.add (JsNumber.mul r 26) (charCode c - charCode "A" + 1) in
  (exact <= 2 ^ 53 -> rounded = exact) /\ (2 ^ 53 < exact -> 2 ^ 53 <= rounded).
Proof.
  intros Hr Hc. apply is_upper_spec in Hc. rewrite charCode_A. cbv zeta.
  unfold JsNumber.add, JsNumber.mul. split.
  - intros Hb. rewrite (fl_exact (r * 26)) by lia. apply fl_exact. lia.
  - intros Hb. destruct (Z.le_gt_cases (r * 26) (2 ^ 53)).
    + rewrite (fl_exact (r * 26)) by lia. apply fl_large. lia.
    + pose proof (fl_large (r * 26) ltac:(lia)). apply fl_large. lia.
Qed.

Lemma columnLetterToNumber_loop_large s : forall r,
  string_forall is_upper s = true -> 2 ^ 53 <= r ->
  2 ^ 53 <= columnLetterToNumber_loop s r.
Proof.
  induction s as [|c s IH]; intros r Hs Hr; [assumption|].
  simpl in Hs. apply andb_prop in Hs as [Hc Hs]. simpl. apply IH; [assumption|].
  destruct (columnLetterToNumber_step r c ltac:(lia) Hc) as [_ Hbig].
  apply Hbig. apply is_upper_spec in Hc. rewrite charCode_A. lia.
Qed.

(** When the exact value is at most 2^53, no pass rounds. *)
Lemma columnLetterToNumber_loop_exact s : forall r,
  string_forall is_upper s = true -> 0 <= r ->
  column_value_loop s r <= 2 ^ 53 ->
  columnLetterToNumber_loop s r = column_value_loop s r.
Proof.
  induction s as [|c s IH]; intros r Hs Hr Hb; [reflexivity|].
  simpl in Hs. apply andb_prop in Hs as [Hc Hs]. simpl in *.
  pose proof Hc as Hc'. apply is_upper_spec in Hc'. rewrite charCode_A in *.
  pose proof (column_value_loop_ge s (r * 26 + (charCode c - 65 + 1)) Hs ltac:(lia)).
  destruct (columnLetterToNumber_step r c Hr Hc) as [Hexact _].
  rewrite charCode_A in Hexact. cbv zeta in Hexact.
  rewrite Hexact by lia. apply IH; [assumption | lia | assumption].
Qed.

(** When the computed number is below 2^53, it is the exact value. *)
Lemma columnLetterToNumber_loop_below s : forall r,
  string_forall is_upper s = true -> 0 <= r ->
  columnLetterToNumber_loop s r < 2 ^ 53 ->
  columnLetterToNumber_loop s r = column_value_loop s r.
Proof.
  induction s as [|c s IH]; intros r Hs Hr Hb; [reflexivity|].
  simpl in Hs. apply andb_prop in Hs as [Hc Hs]. simpl in *.
  pose proof Hc as Hc'. apply is_upper_spec in Hc'.
  destruct (columnLetterToNumber_step r c Hr Hc) as [Hexact Hbig].
  cbv zeta in Hexact, Hbig.
  destruct (Z.le_gt_cases (r * 26 + (charCode c - charCode "A" + 1)) (2 ^ 53)) as [Hle|Hgt].
  - rewrite Hexact in * by assumption.
    apply IH; [assumption | rewrite charCode_A; lia | assumption].
  - pose proof (columnLetterToNumber_loop_large s _ Hs (Hbig Hgt)). lia.
Qed.

Lemma letters_of_value_loop s : forall r acc,
  string_forall is_upper s = true -> 0 <= r ->
  column_value_loop s r <= 2 ^ 53 ->
  numberToColumnLetter_loop (column_value_loop s r) acc =
  numberToColumnLetter_loop r (s ++ acc).
Proof.
  induction s as [|c s IH]; intros r acc Hs Hr Hb; simpl in *; [reflexivity|].
  apply andb_prop in Hs as [Hc Hs].
  pose proof Hc as Hc'. apply is_upper_spec in Hc'. rewrite charCode_A in *.
  pose proof (column_value_loop_ge s (r * 26 + (charCode c - 65 + 1)) Hs ltac:(lia)).
  rewrite IH; [| assumption | lia | assumption].
  rewrite <- charCode_A. apply numberToColumnLetter_loop_push; try assumption.
  rewrite charCode_A. lia.
Qed.

Lemma numberToColumnLetter_columnLetterToNumber s :
  string_forall is_upper s = true -> columnLetterToNumber s < 2 ^ 53 ->
  numberToColumnLetter (columnLetterToNumber s) = s.
Proof.
  intros Hs Hb. unfold numberToColumnLetter, columnLetterToNumber in *.
  rewrite columnLetterToNumber_loop_below in * by (assumption || lia).
  rewrite letters_of_value_loop by (assumption || lia).
  rewrite numberToColumnLetter_loop_nonpos by lia. apply append_empty_r.
Qed.

Lemma column_value_loop_acc s : forall r,
  column_value_loop s r =
  r * 26 ^ Z.of_nat (String.length s) + column_value_loop s 0.
Proof.
  induction s as [|c s IH]; intros r; simpl String.length; simpl column_value_loop.
  - simpl. lia.
  - rewrite IH. rewrite (IH (0 * 26 + _)).
    rewrite Nat2Z.inj_succ, Z.pow_succ_r by lia. ring.
Qed.

Lemma column_value_loop_app s t : forall r,
  column_value_loop (s ++ t) r = column_value_loop t (column_value_loop s r).
Proof.
  induction s as [|c s IH]; intros r; [reflexivity|].
  rewrite append_cons. simpl. apply IH.
Qed.

Lemma value_of_letters_loop num : forall acc, 0 <= num <= 2 ^ 53 ->
  column_value (numberToColumnLetter_loop num acc) =
  num * 26 ^ Z.of_nat (String.length acc) + column_value acc.
Proof.
  intros acc. funelim (numberToColumnLetter_loop num acc); intros Hnum.
  - unfold JsNumber.sub in *. rewrite fl_exact in * by lia.
    rewrite floor_div_exact in * by lia.
    assert (Hq : 0 <= (num - 1) / 26 <= 2 ^ 53).
    { split; [apply Z.div_pos; lia|].
      apply Z.div_le_upper_bound; lia. }
    rewrite (H Hq).
    unfold column_value. simpl String.length. simpl column_value_loop.
    rewrite (column_value_loop_acc result (0 * 26 + _)).
    rewrite charCode_fromCharCode, charCode_A.
    2:{ rewrite charCode_A. pose proof (Z.mod_pos_bound (num - 1) 26). lia. }
    rewrite Nat2Z.inj_succ, Z.pow_succ_r by lia.
    pose proof (Z.div_mod (num - 1) 26).
    set (P := 26 ^ Z.of_nat (String.length result)) in *.
    set (q := (num - 1) / 26) in *. set (m := (num - 1) mod 26) in *.
    clearbody q m P. assert (num = 26 * q + m + 1) as -> by lia. ring.
  - assert (num = 0) as -> by lia. lia.
Qed.

Lemma numberToColumnLetter_loop_upper num : forall acc,
  string_forall is_upper acc = true ->
  string_forall is_upper (numberToColumnLetter_loop num acc) = true.
Proof.
  intros acc. funelim (numberToColumnLetter_loop num acc); intros Hacc; [|assumption].
  apply H. simpl. rewrite Hacc, andb_true_r.
  apply is_upper_spec. rewrite charCode_A.
  pose proof (Z.mod_pos_bound (JsNumber.sub num 1) 26).
  rewrite charCode_fromCharCode; lia.
Qed.

Lemma numberToColumnLetter_loop_nonempty num : forall acc,
  0 < num \/ acc <> "" -> numberToColumnLetter_loop num acc <> "".
Proof.
  intros acc. funelim (numberToColumnLetter_loop num acc); intros Hor.
  - apply H. right. discriminate.
  - destruct Hor; [lia | assumption].
Qed.

Lemma numberToColumnLetter_is_column_name num :
  0 < num -> is_column_name (numberToColumnLetter num) = true.
Proof.
  intros H. unfold is_column_name, numberToColumnLetter.
  pose proof (numberToColumnLetter_loop_nonempty num "" (or_introl H)) as Hne.
  pose proof (numberToColumnLetter_loop_upper num "" eq_refl) as Hup.
  destruct (numberToColumnLetter_loop num ""); [congruence | assumption].
Qed.

Lemma is_column_name_upper s :
  is_column_name s = true -> string_forall is_upper s = true.
Proof. destruct s; [discriminate | trivial]. Qed.

Lemma columnLetterToNumber_numberToColumnLetter num :
  0 <= num <= 2 ^ 53 -> columnLetterToNumber (numberToColumnLetter num) = num.
Proof.
  intros H.
  assert (Hv : column_value (numberToColumnLetter num) = num).
  { unfold numberToColumnLetter. rewrite value_of_letters_loop by assumption.
    unfold column_value. simpl. lia. }
  unfold columnLetterToNumber. rewrite columnLetterToNumber_loop_exact.
  - exact Hv.
  - apply numberToColumnLetter_loop_upper. reflexivity.
  - lia.
  - unfold column_value in Hv. lia.
Qed.

Lemma column_value_pos letters :
  is_column_name letters = true -> 1 <= column_value letters.
Proof.
  intros H. destruct letters as [|c s]; [discriminate|].
  simpl in H. apply andb_prop in H as [Hc Hs]. apply is_upper_spec in Hc.
  unfold column_value. simpl column_value_loop. rewrite charCode_A.
  pose proof (column_value_loop_ge s (0 * 26 + (charCode c - 65 + 1)) Hs ltac:(lia)). lia.
Qed.

Lemma columnLetterToNumber_pos letters :
  is_column_name letters = true -> 1 <= columnLetterToNumber letters.
Proof.
  intros H. pose proof (is_column_name_upper _ H) as Hup.
  destruct (Z.lt_ge_cases (columnLetterToNumber letters) (2 ^ 53)) as [Hlt|Hge]; [|lia].
  unfold columnLetterToNumber in *.
  rewrite columnLetterToNumber_loop_below by (assumption || lia).
  now apply column_value_pos.
Qed.

Lemma columnLetterToNumber_safe s :
  string_forall is_upper s = true -> (String.length s <= 11)%nat ->
  columnLetterToNumber s = column_value s /\ 0 <= columnLetterToNumber s < 2 ^ 53.
Proof.
  intros Hs Hlen.
  pose proof (column_value_loop_bounds s 0 Hs ltac:(lia)) as [Hlo Hhi].
  assert (26 ^ Z.of_nat (String.length s) <= 26 ^ 11)
    by (apply Z.pow_le_mono_r; lia).
  assert (2 * 26 ^ 11 < 2 ^ 53) by (vm_compute; reflexivity).
  assert (He : columnLetterToNumber s = column_value s).
  { unfold columnLetterToNumber. apply columnLetterToNumber_loop_exact; [assumption|lia|lia]. }
  rewrite He. unfold column_value. split; [reflexivity | lia].
Qed.

(** C3, as amended.  The two conversions are inverse to each other on
    the numbers below 2^53: a column name (one or more letters A-Z) whose
    number is below 2^53, and so every name of up to 11 letters, is
    recovered from its number; a positive number below 2^53 is recovered
    from its name, and that name is a column name.  There the number of a
    name is its value in base 26 with the digits A = 1, ..., Z = 26: "A"
    is 1, "Z" is 26, "AA" is 27. *)
Theorem column_letters_round_trip :
  (forall s, is_column_name s = true -> columnLetterToNumber s < 2 ^ 53 ->
             numberToColumnLetter (columnLetterToNumber s) = s)
  /\ (forall s, is_column_name s = true -> (String.length s <= 11)%nat ->
                1 <= columnLetterToNumber s < 2 ^ 53)
  /\ (forall n, 0 < n < 2 ^ 53 ->
                columnLetterToNumber (numberToColumnLetter n) = n
                /\ is_column_name (numberToColumnLetter n) = true)
  /\ (forall s c,
         string_forall is_upper s = true -> is_upper c = true ->
         columnLetterToNumber (s ++ String c "") < 2 ^ 53 ->
         columnLetterToNumber (s ++ String c "") =
         columnLetterToNumber s * 26 + (charCode c - charCode "A" + 1))
  /\ (columnLetterToNumber "A" = 1 /\ numberToColumnLetter 1 = "A")
  /\ (columnLetterToNumber "Z" = 26 /\ numberToColumnLetter 26 = "Z")
  /\ (columnLetterToNumber "AA" = 27 /\ numberToColumnLetter 27 = "AA").
Proof.
  split; [|split; [|split; [|split]]].
  - intros s Hs Hb. apply numberToColumnLetter_columnLetterToNumber; [|assumption].
    now apply is_column_name_upper.
  - intros s Hs Hlen. split.
    + now apply columnLetterToNumber_pos.
    + apply columnLetterToNumber_safe; [now apply is_column_name_upper | assumption].
  - intros n Hn. split.
    + apply columnLetterToNumber_numberToColumnLetter. lia.
    + apply numberToColumnLetter_is_column_name. lia.
  - intros s c Hs Hc Hb. unfold columnLetterToNumber in *.
    assert (Hup : string_forall is_upper (s ++ String c "") = true).
    { rewrite string_forall_app, Hs.
      change (string_forall is_upper (String c "")) with (is_upper c && true).
      now rewrite Hc. }
    rewrite columnLetterToNumber_loop_below in * by (assumption || lia).
    rewrite column_value_loop_app in *. simpl in *.
    apply is_upper_spec in Hc. rewrite charCode_A in *.
    pose proof (column_value_loop_ge s 0 Hs ltac:(lia)).
    rewrite columnLetterToNumber_loop_exact; [reflexivity | assumption | lia | lia].
  - repeat split; reflexivity.
Qed.

Lemma column_letters_round_trip_witness :
  numberToColumnLetter (columnLetterToNumber "XFD") = "XFD"
  /\ columnLetterToNumber (numberToColumnLetter 16384) = 16384.
Proof.
  destruct column_letters_round_trip as (Hname & _ & Hnum & _).
  split.
  - apply (Hname "XFD"); [reflexivity | vm_compute; reflexivity].
  - apply (Hnum 16384). lia.
Defined.

(** C3 as stated fails on a name of 12 letters: the exact base-26 value
    of "ZZZZZZZZZZZA" is 99246114928149437, above 2^53, where doubles are
    16 apart; [columnLetterToNumber] returns the double
    99246114928149440, whose name is "ZZZZZZZZZZZE". *)
Lemma column_letters_long_name :
  is_column_name "ZZZZZZZZZZZA" = true
  /\ column_value "ZZZZZZZZZZZA" = 99246114928149437
  /\ columnLetterToNumber "ZZZZZZZZZZZA" = 99246114928149440
  /\ numberToColumnLetter (columnLetterToNumber "ZZZZZZZZZZZA") = "ZZZZZZZZZZZE"
  /\ numberToColumnLetter (columnLetterToNumber "ZZZZZZZZZZZA") <> "ZZZZZZZZZZZA".
Proof. vm_compute. repeat split; discriminate. Qed.

(** ** Exact arithmetic *)

Lemma fl_nonneg_result z : 0 <= z -> 0 <= JsNumber.fl z.
Proof.
  intros Hz. destruct (Z.le_gt_cases z (2 ^ 53)) as [H|H].
  - rewrite fl_exact; lia.
  - pose proof (fl_large z ltac:(lia)). lia.
Qed.

Lemma add_exact a b : 0 <= a + b <= 2 ^ 53 -> JsNumber.add a b = a + b.
Proof. intros H. unfold JsNumber.add. now apply fl_exact. Qed.

Lemma sub_exact a b : 0 <= a - b <= 2 ^ 53 -> JsNumber.sub a b = a - b.
Proof. intros H. unfold JsNumber.sub. now apply fl_exact. Qed.

Lemma mul_exact a b : 0 <= a * b <= 2 ^ 53 -> JsNumber.mul a b = a * b.
Proof. intros H. unfold JsNumber.mul. now apply fl_exact. Qed.

(** ** Cell references *)

Lemma span_spec p s : forall a b,
  span p s = (a, b) -> s = a ++ b /\ string_forall p a = true.
Proof.
  induction s as [|c s IH]; intros a b; simpl.
  - intros [= <- <-]. split; reflexivity.
  - destruct (p c) eqn:Hc.
    + destruct (span p s) as [a' b'] eqn:E. intros [= <- <-].
      destruct (IH a' b' eq_refl) as [-> Ha]. split; [reflexivity|].
      simpl. now rewrite Hc, Ha.
    + intros [= <- <-]. split; reflexivity.
Qed.

Lemma span_app p s c t :
  string_forall p s = true -> p c = false ->
  span p (s ++ String c t) = (s, String c t).
Proof.
  induction s as [|d s IH]; intros Hs Hc.
  - change ("" ++ String c t) with (String c t). simpl. now rewrite Hc.
  - simpl in Hs. apply andb_prop in Hs as [Hd Hs].
    rewrite append_cons. simpl. rewrite Hd. now rewrite (IH Hs Hc).
Qed.

Lemma match_cell_ref_spec ref letters digits :
  match_cell_ref ref = Some (letters, digits) ->
  ref = letters ++ digits
  /\ is_column_name letters = true
  /\ digits <> ""
  /\ string_forall is_digit digits = true.
Proof.
  unfold match_cell_ref. destruct (span is_upper ref) as [a b] eqn:E.
  apply span_spec in E as [-> Ha].
  destruct a as [|c a]; [discriminate|].
  destruct b as [|d b]; [discriminate|].
  destruct (string_forall is_digit (String d b)) eqn:Hd; [|discriminate].
  intros [= <- <-]. repeat split; try assumption. discriminate.
Qed.

Lemma digit_not_upper c : is_digit c = true -> is_upper c = false.
Proof.
  unfold is_digit, is_upper. intros H.
  apply andb_prop in H as [H1 H2].
  change (charCode "0") with 48 in H1. change (charCode "9") with 57 in H2.
  change (charCode "A") with 65. change (charCode "Z") with 90.
  apply andb_false_iff. left. lia.
Qed.

Lemma match_cell_ref_app letters digits :
  is_column_name letters = true -> digits <> "" ->
  string_forall is_digit digits = true ->
  match_cell_ref (letters ++ digits) = Some (letters, digits).
Proof.
  intros Hl Hne Hd. unfold match_cell_ref.
  destruct digits as [|d digits]; [congruence|].
  pose proof Hd as Hd'. simpl in Hd'. apply andb_prop in Hd' as [Hd0 _].
  rewrite span_app; [| now apply is_column_name_upper | now apply digit_not_upper].
  destruct letters; [discriminate|]. now rewrite Hd.
Qed.

Lemma string_of_uint_digits d :
  string_forall is_digit (NilEmpty.string_of_uint d) = true.
Proof. induction d; simpl; try reflexivity; assumption. Qed.

Lemma is_digit_spec c : is_digit c = true <-> 48 <= charCode c <= 57.
Proof.
  unfold is_digit. change (charCode "0") with 48. change (charCode "9") with 57.
  rewrite andb_true_iff, !Z.leb_le. reflexivity.
Qed.

Lemma append_assoc (s t u : string) : (s ++ t) ++ u = s ++ (t ++ u).
Proof.
  induction s as [|c s IH]; [reflexivity|].
  rewrite !append_cons. now rewrite IH.
Qed.

Lemma digits_value_loop_ge s : forall r,
  string_forall is_digit s = true -> 0 <= r -> r <= digits_value_loop s r.
Proof.
  induction s as [|c s IH]; intros r Hs Hr; [simpl; lia|].
  simpl in Hs. apply andb_prop in Hs as [Hc Hs]. apply is_digit_spec in Hc.
  simpl. change (charCode "0") with 48.
  pose proof (IH (r * 10 + (charCode c - 48)) Hs ltac:(lia)). lia.
Qed.

(** The decimal numeral of a number writes that number. *)
Lemma digits_value_loop_uint_acc d : forall acc,
  digits_value_loop (NilEmpty.string_of_uint d) (Z.pos acc) = Z.pos (Pos.of_uint_acc d acc).
Proof.
  induction d; intros acc; simpl; try reflexivity;
    match goal with
    | |- digits_value_loop _ ?x = Z.pos (Pos.of_uint_acc _ ?p) =>
        replace x with (Z.pos p) by (vm_compute charCode; lia)
    end; apply IHd.
Qed.

Lemma digits_value_uint d :
  digits_value (NilEmpty.string_of_uint d) = Z.of_N (Pos.of_uint d).
Proof.
  unfold digits_value. induction d; simpl; try reflexivity; try assumption;
    match goal with
    | |- digits_value_loop _ ?x = Z.pos (Pos.of_uint_acc _ ?p) =>
        replace x with (Z.pos p) by (vm_compute; reflexivity)
    end; apply digits_value_loop_uint_acc.
Qed.

Lemma number_to_string_spec n :
  0 <= n ->
  number_to_string n <> ""
  /\ string_forall is_digit (number_to_string n) = true
  /\ digits_value (number_to_string n) = n.
Proof.
  intros Hn. unfold number_to_string.
  destruct n as [|p|p]; [repeat split; discriminate | | lia].
  simpl Z.to_int. simpl NilZero.string_of_int.
  pose proof (Unsigned.to_uint_nonnil p) as Hnil.
  assert (Hs : NilZero.string_of_uint (Pos.to_uint p) =
               NilEmpty.string_of_uint (Pos.to_uint p))
    by (destruct (Pos.to_uint p); [congruence | reflexivity ..]).
  rewrite Hs. repeat split.
  - destruct (Pos.to_uint p); [congruence | discriminate ..].
  - apply string_of_uint_digits.
  - rewrite digits_value_uint, Unsigned.of_to. reflexivity.
Qed.

Lemma digits_value_nonneg digits :
  string_forall is_digit digits = true -> 0 <= digits_value digits.
Proof. intros H. now apply (digits_value_loop_ge digits 0). Qed.

Lemma parseInt_nonneg digits :
  string_forall is_digit digits = true -> 0 <= parseInt digits.
Proof. intros H. apply fl_nonneg_result. now apply digits_value_nonneg. Qed.

(** Below 2^53 [parseInt] returns the number the digits write. *)
Lemma parseInt_exact digits :
  string_forall is_digit digits = true -> parseInt digits < 2 ^ 53 ->
  parseInt digits = digits_value digits.
Proof.
  intros Hd Hb. unfold parseInt in *.
  pose proof (digits_value_nonneg digits Hd).
  destruct (Z.le_gt_cases (2 ^ 53) (digits_value digits)) as [H1|H1].
  - pose proof (fl_large _ H1). lia.
  - apply fl_exact. lia.
Qed.

Lemma column_value_numberToColumnLetter num :
  0 <= num <= 2 ^ 53 -> column_value (numberToColumnLetter num) = num.
Proof.
  intros H. unfold numberToColumnLetter. rewrite value_of_letters_loop by assumption.
  unfold column_value. simpl. lia.
Qed.

Lemma columnLetterToNumber_exact letters :
  string_forall is_upper letters = true -> columnLetterToNumber letters < 2 ^ 53 ->
  columnLetterToNumber letters = column_value letters.
Proof.
  intros Hl Hb. unfold columnLetterToNumber, column_value in *.
  now apply columnLetterToNumber_loop_below.
Qed.

(** ** The addresses of the library *)

(** The letters of an address: the loop reads them as the source's
    [columnLetterToNumber] does. *)
Lemma decode_letters letters : forall rest d,
  string_forall is_upper letters = true ->
  Excel.hasRow d = false -> 0 <= Excel.colNumber d ->
  column_value_loop letters (Excel.colNumber d) <= 2 ^ 52 ->
  Excel.decode_loop (letters ++ rest) d =
  Excel.decode_loop rest
    {| Excel.hasCol := Excel.hasCol d || negb (String.eqb letters "");
       Excel.col := Excel.col d ++ letters;
       Excel.colNumber := column_value_loop letters (Excel.colNumber d);
       Excel.hasRow := false;
       Excel.row := Excel.row d;
       Excel.rowNumber := Excel.rowNumber d |}.
Proof.
  induction letters as [|c letters IH]; intros rest d Hl Hrow Hcol Hb.
  - destruct d as [hc co cn hr ro rn]. simpl in *. subst hr.
    now rewrite orb_false_r, append_empty_r.
  - simpl in Hl. apply andb_prop in Hl as [Hc Hl].
    pose proof Hc as Hc'. apply is_upper_spec in Hc'.
    simpl column_value_loop in *. rewrite charCode_A in *.
    pose proof (column_value_loop_ge letters
                  (Excel.colNumber d * 26 + (charCode c - 65 + 1)) Hl ltac:(lia)).
    assert (H52 : 2 ^ 52 + 64 <= 2 ^ 53) by (vm_compute; discriminate).
    assert (E : JsNumber.sub
                  (JsNumber.add (JsNumber.mul (Excel.colNumber d) 26) (charCode c)) 64 =
                Excel.colNumber d * 26 + (charCode c - 65 + 1)).
    { rewrite mul_exact, add_exact, sub_exact by lia. lia. }
    rewrite append_cons. simpl Excel.decode_loop. rewrite Hrow, Hc. simpl andb. cbv iota.
    rewrite E, IH; simpl; try assumption; try lia.
    now rewrite orb_true_r, append_assoc.
Qed.

(** The digits of an address. *)
Lemma decode_digits digits : forall rest d,
  string_forall is_digit digits = true ->
  0 <= Excel.rowNumber d ->
  digits_value_loop digits (Excel.rowNumber d) <= 2 ^ 52 ->
  Excel.decode_loop (digits ++ rest) d =
  Excel.decode_loop rest
    {| Excel.hasCol := Excel.hasCol d;
       Excel.col := Excel.col d;
       Excel.colNumber := Excel.colNumber d;
       Excel.hasRow := Excel.hasRow d || negb (String.eqb digits "");
       Excel.row := Excel.row d ++ digits;
       Excel.rowNumber := digits_value_loop digits (Excel.rowNumber d) |}.
Proof.
  induction digits as [|c digits IH]; intros rest d Hd Hrow Hb.
  - destruct d as [hc co cn hr ro rn]. simpl.
    now rewrite orb_false_r, append_empty_r.
  - simpl in Hd. apply andb_prop in Hd as [Hc Hd].
    pose proof Hc as Hc'. apply is_digit_spec in Hc'.
    simpl digits_value_loop in *. change (charCode "0") with 48 in *.
    pose proof (digits_value_loop_ge digits
                  (Excel.rowNumber d * 10 + (charCode c - 48)) Hd ltac:(lia)).
    assert (H52 : 2 ^ 52 + 64 <= 2 ^ 53) by (vm_compute; discriminate).
    assert (E : JsNumber.sub
                  (JsNumber.add (JsNumber.mul (Excel.rowNumber d) 10) (charCode c)) 48 =
                Excel.rowNumber d * 10 + (charCode c - 48)).
    { rewrite mul_exact, add_exact, sub_exact by lia. lia. }
    rewrite append_cons. simpl Excel.decode_loop.
    rewrite (digit_not_upper c Hc), andb_false_r, Hc.
    rewrite E, IH; simpl; try assumption; try lia.
    now rewrite orb_true_r, append_assoc.
Qed.

Lemma decodeAddress_reference letters digits rest :
  is_column_name letters = true ->
  digits <> "" -> string_forall is_digit digits = true ->
  ends_reference rest = true ->
  column_value letters <= 16384 -> digits_value digits <= 2 ^ 52 ->
  Excel.decodeAddress (letters ++ digits ++ rest) =
  inr {| Excel.address_text := letters ++ digits;
         Excel.address_col := Some (column_value letters);
         Excel.address_row := Some (digits_value digits) |}.
Proof.
  intros Hname Hne Hd Hrest Hcol Hrow.
  pose proof (is_column_name_upper _ Hname) as Hl.
  assert (H52 : 16384 <= 2 ^ 52) by (vm_compute; discriminate).
  unfold Excel.decodeAddress.
  rewrite decode_letters; simpl; try assumption; try lia;
    [| unfold column_value in Hcol; lia].
  rewrite decode_digits; simpl; try assumption; try lia.
  assert (Hstop :
            Excel.decode_loop rest
              {| Excel.hasCol := negb (String.eqb letters "");
                 Excel.col := "" ++ letters;
                 Excel.colNumber := column_value_loop letters 0;
                 Excel.hasRow := negb (String.eqb digits "");
                 Excel.row := "" ++ digits;
                 Excel.rowNumber := digits_value_loop digits 0 |} =
            {| Excel.hasCol := true;
               Excel.col := letters;
               Excel.colNumber := column_value letters;
               Excel.hasRow := true;
               Excel.row := digits;
               Excel.rowNumber := digits_value digits |}).
  { assert (Hl0 : String.eqb letters "" = false) by (now destruct letters).
    assert (Hd0 : String.eqb digits "" = false) by (now destruct digits).
    rewrite Hl0, Hd0. simpl negb.
    destruct rest as [|c rest]; [reflexivity|].
    simpl in Hrest. apply andb_prop in Hrest as [Hc1 Hc2].
    apply negb_true_iff in Hc1. simpl. rewrite Hc1, Hc2. reflexivity. }
  rewrite Hstop. simpl.
  destruct (Z.ltb_spec 16384 (column_value letters)); [lia | reflexivity].
Qed.

(** A reference that matches the pattern of cell references, inside the
    columns of a sheet, is the address of the cell at its row and its
    column. *)
Lemma cell_of_address_match address letters digits :
  match_cell_ref address = Some (letters, digits) ->
  column_value letters <= 16384 -> digits_value digits <= 2 ^ 52 ->
  Excel.cell_of_address address = inr (digits_value digits, column_value letters).
Proof.
  intros Href Hcol Hrow.
  apply match_cell_ref_spec in Href as (-> & Hname & Hne & Hd).
  unfold Excel.cell_of_address.
  rewrite <- (append_empty_r digits) at 1.
  rewrite decodeAddress_reference by (assumption || reflexivity).
  reflexivity.
Qed.

(** The cell at a row and a column of the grid. *)
Lemma cell_at_ret r c :
  0 <= r <= 2 ^ 52 -> 1 <= c <= 16384 -> Excel.cell_at r c = inr (r, c).
Proof.
  intros Hr Hc. unfold Excel.cell_at, Excel.getAddress, Excel.n2l.
  destruct (Z.eqb_spec c 0); [lia|].
  destruct (Z.ltb_spec c 1); [lia|]. destruct (Z.ltb_spec 16384 c); [lia|].
  simpl.
  destruct (number_to_string_spec r ltac:(lia)) as (Hne & Hd & Hv).
  assert (H53 : 16384 <= 2 ^ 53) by (vm_compute; discriminate).
  rewrite <- (append_empty_r (number_to_string r)).
  rewrite decodeAddress_reference; try assumption; try reflexivity.
  - simpl. rewrite Hv, column_value_numberToColumnLetter by lia. reflexivity.
  - apply numberToColumnLetter_is_column_name. lia.
  - rewrite column_value_numberToColumnLetter; lia.
  - lia.
Qed.

Lemma n2l_ret c : 1 <= c <= 16384 -> Excel.n2l c = inr (numberToColumnLetter c).
Proof.
  intros Hc. unfold Excel.n2l.
  destruct (Z.ltb_spec c 1); [lia|]. now destruct (Z.ltb_spec 16384 c); [lia|].
Qed.

Lemma row_cell_ret ws r c : 1 <= c <= 16384 -> Excel.row_cell ws r c = inr (r, c).
Proof.
  intros Hc. unfold Excel.row_cell.
  destruct (Excel.cells ws !! (r, c)); [reflexivity|].
  now rewrite n2l_ret.
Qed.

(** ** Cells, sheets and workbooks *)

Lemma getCell_update_eq rc f ws :
  Excel.getCell (Excel.update_cell rc f ws) rc = f (Excel.getCell ws rc).
Proof. unfold Excel.getCell at 1. simpl. now rewrite lookup_insert_eq. Qed.

Lemma getCell_update_ne rc rc' f ws :
  rc <> rc' -> Excel.getCell (Excel.update_cell rc f ws) rc' = Excel.getCell ws rc'.
Proof. intros H. unfold Excel.getCell. simpl. now rewrite lookup_insert_ne. Qed.

Lemma getCell_register t ws rc :
  Excel.getCell (register t ws) rc = Excel.getCell ws rc.
Proof. reflexivity. Qed.

Lemma getWorksheet_name wb n ws :
  Excel.getWorksheet wb n = Some ws -> Excel.sheet_name ws = n.
Proof.
  induction wb as [|ws0 wb IH]; simpl; [discriminate|].
  destruct (String.eqb (Excel.sheet_name ws0) n) eqn:E.
  - intros [= <-]. now apply String.eqb_eq.
  - exact IH.
Qed.

Lemma getWorksheet_app_new wb ws :
  Excel.getWorksheet wb (Excel.sheet_name ws) = None ->
  Excel.getWorksheet (wb ++ [ws])%list (Excel.sheet_name ws) = Some ws.
Proof.
  induction wb as [|ws0 wb IH]; simpl.
  - intros _. now rewrite String.eqb_refl.
  - destruct (String.eqb (Excel.sheet_name ws0) (Excel.sheet_name ws));
      [discriminate | exact IH].
Qed.

(** A sheet that [addWorksheet] returns is new, it is the last sheet of
    the workbook, and no other sheet has its name. *)
Lemma addWorksheet_spec wb n wb' ws :
  Excel.addWorksheet wb n = inr (wb', ws) ->
  wb' = (wb ++ [ws])%list
  /\ ws = Excel.new_sheet (Excel.sheet_name ws)
  /\ Excel.getWorksheet wb (Excel.sheet_name ws) = None.
Proof.
  unfold Excel.addWorksheet. destruct (Excel.name_error n); [discriminate|].
  set (n' := if (31 <? String.length n)%nat then substring 0 31 n else n).
  destruct (existsb _ wb) eqn:E; [discriminate|].
  intros [= <- <-]. repeat split. simpl.
  induction wb as [|ws0 wb IH]; [reflexivity|].
  simpl in *. apply orb_false_iff in E as [E0 E].
  destruct (String.eqb_spec (Excel.sheet_name ws0) n') as [Heq|Hne].
  - rewrite Heq, String.eqb_refl in E0. discriminate.
  - now apply IH.
Qed.

Lemma getWorksheet_put wb ws ws0 :
  Excel.getWorksheet wb (Excel.sheet_name ws) = Some ws0 ->
  Excel.getWorksheet (Excel.putWorksheet wb ws) (Excel.sheet_name ws) = Some ws.
Proof.
  induction wb as [|ws1 wb IH]; simpl; [discriminate|].
  destruct (String.eqb (Excel.sheet_name ws1) (Excel.sheet_name ws)) eqn:E.
  - intros _. simpl. now rewrite String.eqb_refl.
  - intros H. simpl. rewrite E. now apply IH.
Qed.

Lemma getWorksheet_put_named wb n ws ws0 :
  Excel.getWorksheet wb n = Some ws0 -> Excel.sheet_name ws = n ->
  Excel.getWorksheet (Excel.putWorksheet wb ws) n = Some ws.
Proof. intros H <-. now apply getWorksheet_put with ws0. Qed.

(** The sheet the source works on is a sheet of the workbook, under its
    own name. *)
Lemma ensure_sheet_spec wb n wb' ws :
  ensure_sheet wb n = inr (wb', ws) ->
  Excel.getWorksheet wb' (Excel.sheet_name ws) = Some ws.
Proof.
  unfold ensure_sheet. destruct (Excel.getWorksheet wb n) as [ws0|] eqn:E.
  - intros [= <- <-]. now rewrite (getWorksheet_name _ _ _ E).
  - intros H. apply addWorksheet_spec in H as (-> & _ & Hnew).
    now apply getWorksheet_app_new.
Qed.

(** A sheet that is found keeps the name it was asked under. *)
Lemma ensure_sheet_found wb n ws :
  Excel.getWorksheet wb n = Some ws -> ensure_sheet wb n = inr (wb, ws).
Proof. intros H. unfold ensure_sheet. now rewrite H. Qed.

Lemma value_applyCellStyle cell style :
  Excel.value (applyCellStyle cell style) = Excel.value cell.
Proof.
  unfold applyCellStyle. destruct style as [st|]; [|reflexivity].
  destruct (has_keys _); destruct (truthy_string (MappingConfig.bgColor st)); reflexivity.
Qed.

Lemma value_applyCellFormat cell format :
  Excel.value (applyCellFormat cell format) = Excel.value cell.
Proof.
  unfold applyCellFormat.
  repeat match goal with |- context [if ?b then _ else _] => destruct b end;
    reflexivity.
Qed.

Lemma value_apply_row_color cfg rowIndex cell :
  Excel.value (apply_row_color cfg rowIndex cell) = Excel.value cell.
Proof.
  unfold apply_row_color.
  repeat match goal with |- context [if ?b then _ else _] => destruct b end;
    reflexivity.
Qed.

(** ** The mapping engine *)

(** What one pass of the mapping loop leaves in the target cell, once the
    sheet is there and the reference is the address of a cell. *)
Lemma process_mapping_cell jsonData workbook mapping workbook1 worksheet1 cell :
  ensure_sheet workbook (MappingConfig.sheet mapping) = inr (workbook1, worksheet1) ->
  Excel.cell_of_address (MappingConfig.cell mapping) = inr cell ->
  exists workbook' worksheet,
    process_mapping jsonData workbook mapping = inr workbook'
    /\ Excel.getWorksheet workbook' (Excel.sheet_name worksheet1) = Some worksheet
    /\ Excel.value (Excel.getCell worksheet cell) =
       mapped_value (MappingConfig.formula mapping)
         (getNestedValue jsonData (MappingConfig.fieldName mapping)).
Proof.
  intros Hsheet Hcell. unfold process_mapping. rewrite Hsheet. simpl.
  rewrite Hcell. simpl.
  apply ensure_sheet_spec in Hsheet.
  eexists _, _. split; [reflexivity|]. split.
  - eapply getWorksheet_put_named; [exact Hsheet | reflexivity].
  - rewrite getCell_update_eq, value_applyCellFormat, value_applyCellStyle.
    reflexivity.
Qed.

(** The failures of one pass of the mapping loop are those of its two
    library calls. *)
Lemma process_mapping_throws jsonData workbook mapping e :
  process_mapping jsonData workbook mapping = inl e <->
  ensure_sheet workbook (MappingConfig.sheet mapping) = inl e
  \/ ((exists sheet, ensure_sheet workbook (MappingConfig.sheet mapping) = inr sheet)
      /\ Excel.cell_of_address (MappingConfig.cell mapping) = inl e).
Proof.
  unfold process_mapping.
  destruct (ensure_sheet workbook (MappingConfig.sheet mapping)) as [e1|[wb1 ws1]]; simpl.
  - split; [intros [= <-]; now left|].
    intros [H | [[sheet Hs] _]]; [congruence | discriminate].
  - destruct (Excel.cell_of_address (MappingConfig.cell mapping)) as [e2|cell]; simpl.
    + split; [intros [= <-]; right; split; [now eexists | reflexivity]|].
      intros [H | [_ H]]; [discriminate | congruence].
    + split; [discriminate|]. intros [H | [_ H]]; discriminate.
Qed.

(** C1, as amended.  One pass of the mapping loop first looks up or adds
    the sheet and asks it for the cell of the reference; either call may
    throw, and then the pass throws the same error.  When both return, the
    pass completes and leaves in the target cell: for a non-empty formula,
    the formula with the resolved value as cached result when that value
    is truthy and 0 when it is falsy (null, false, 0 or the empty string);
    without a formula (or with an empty one), the resolved value, the
    empty string standing in for [null].  A sheet that is already there is
    always found, and a reference that matches the pattern of cell
    references, with a column up to XFD (16384) and a row up to 2^52, is
    the address of the cell at that row and column. *)
Theorem mapping_sets_cell_value :
  (forall jsonData workbook mapping workbook1 worksheet1 cell,
      ensure_sheet workbook (MappingConfig.sheet mapping) = inr (workbook1, worksheet1) ->
      Excel.cell_of_address (MappingConfig.cell mapping) = inr cell ->
      exists workbook' worksheet,
        process_mapping jsonData workbook mapping = inr workbook'
        /\ Excel.getWorksheet workbook' (Excel.sheet_name worksheet1) = Some worksheet
        /\ let value := getNestedValue jsonData (MappingConfig.fieldName mapping) in
           let stored := Excel.value (Excel.getCell worksheet cell) in
           match MappingConfig.formula mapping with
           | Some f =>
               if String.eqb f ""
               then stored = Excel.Plain (match value with VNull => VStr "" | _ => value end)
               else stored = Excel.Formula f (if truthy value then value else VNum 0)
           | None =>
               stored = Excel.Plain (match value with VNull => VStr "" | _ => value end)
           end)
  /\ (forall jsonData workbook mapping e,
         process_mapping jsonData workbook mapping = inl e <->
         ensure_sheet workbook (MappingConfig.sheet mapping) = inl e
         \/ ((exists sheet,
                 ensure_sheet workbook (MappingConfig.sheet mapping) = inr sheet)
             /\ Excel.cell_of_address (MappingConfig.cell mapping) = inl e))
  /\ (forall workbook name worksheet,
         Excel.getWorksheet workbook name = Some worksheet ->
         ensure_sheet workbook name = inr (workbook, worksheet))
  /\ (forall address letters digits,
         match_cell_ref address = Some (letters, digits) ->
         column_value letters <= 16384 -> digits_value digits <= 2 ^ 52 ->
         Excel.cell_of_address address =
         inr (digits_value digits, column_value letters)).
Proof.
  split; [|split; [|split]].
  - intros jsonData workbook mapping workbook1 worksheet1 cell Hsheet Hcell.
    destruct (process_mapping_cell jsonData workbook mapping workbook1 worksheet1 cell
                Hsheet Hcell) as (wb' & ws & Hrun & Hget & Hval).
    exists wb', ws. split; [assumption|]. split; [assumption|].
    cbv zeta. rewrite Hval. unfold mapped_value, js_or.
    destruct (MappingConfig.formula mapping) as [f|]; simpl; [|reflexivity].
    destruct (String.eqb f ""); reflexivity.
  - exact process_mapping_throws.
  - exact ensure_sheet_found.
  - exact cell_of_address_match.
Qed.

(** ** Loops that write one slot per index *)

Lemma lookup_Z_nil {A} (k : Z) : lookup_Z (@nil A) k = None.
Proof. unfold lookup_Z. destruct (k <? 0)%Z; reflexivity. Qed.

Lemma lookup_Z_cons {A} (x : A) l (k : Z) :
  lookup_Z (x :: l) k = if (k =? 0)%Z then Some x else lookup_Z l (k - 1).
Proof.
  unfold lookup_Z.
  destruct (Z.eqb_spec k 0) as [->|Hk]; [reflexivity|].
  destruct (Z.ltb_spec k 0), (Z.ltb_spec (k - 1) 0); try reflexivity; try lia.
  replace (Z.to_nat k) with (S (Z.to_nat (k - 1))) by lia. reflexivity.
Qed.

Lemma lookup_Z_of_nat {A} (l : list A) (j : nat) : lookup_Z l (Z.of_nat j) = l !! j.
Proof.
  unfold lookup_Z. destruct (Z.ltb_spec (Z.of_nat j) 0); [lia|].
  now rewrite Nat2Z.id.
Qed.

Lemma lookup_Z_Some {A} (l : list A) (k : Z) x :
  lookup_Z l k = Some x -> 0 <= k < Z.of_nat (length l).
Proof.
  unfold lookup_Z. destruct (Z.ltb_spec k 0); [discriminate|].
  intros Hx%lookup_lt_Some. lia.
Qed.

Section SlotLoop.

(** A state observed slot by slot, and a loop body whose pass [i] changes
    only the slots selected by [i]. *)
Context {S A K V : Type}.
Variable obs : S -> K -> V.
Variable sel : K -> Z.
Variable eff : A -> Z -> K -> V -> V.
Variable f : S -> A -> Z -> S.
Hypothesis f_obs : forall s x i key,
  obs (f s x i) key = if (sel key =? i)%Z then eff x i key (obs s key) else obs s key.

Lemma forEach_pure_obs l : forall i0 s key,
  obs (forEach_pure f l i0 s) key =
  match lookup_Z l (sel key - i0) with
  | Some x => eff x (sel key) key (obs s key)
  | None => obs s key
  end.
Proof.
  induction l as [|x rest IH]; intros i0 s key.
  - simpl. now rewrite lookup_Z_nil.
  - simpl. rewrite IH, f_obs, lookup_Z_cons.
    replace (sel key - (i0 + 1)) with (sel key - i0 - 1) by lia.
    destruct (Z.eqb_spec (sel key) i0) as [E|E].
    + rewrite E, Z.sub_diag. simpl.
      unfold lookup_Z. simpl. reflexivity.
    + destruct (Z.eqb_spec (sel key - i0) 0); [lia | reflexivity].
Qed.

End SlotLoop.

Lemma forEach_pure_ext {A S} (f g : S -> A -> Z -> S) l :
  (forall s x i, f s x i = g s x i) ->
  forall i0 s, forEach_pure f l i0 s = forEach_pure g l i0 s.
Proof.
  intros Hfg. induction l as [|x rest IH]; intros i0 s; simpl; [reflexivity|].
  now rewrite Hfg, IH.
Qed.

Lemma forEach_ret {A S} (f : S -> A -> Z -> Result S) (g : S -> A -> Z -> S) l :
  (forall s x i, In x l -> f s x i = ret (g s x i)) ->
  forall i0 s, forEach f l i0 s = ret (forEach_pure g l i0 s).
Proof.
  induction l as [|x rest IH]; intros Hfg i0 s; simpl; [reflexivity|].
  rewrite Hfg by (now left). simpl. apply IH.
  intros s' y i Hy. apply Hfg. now right.
Qed.

Lemma mapM_ret {A B} (f : A -> Result B) (g : A -> B) l :
  (forall x, In x l -> f x = ret (g x)) -> mapM f l = ret (map g l).
Proof.
  induction l as [|x rest IH]; intros Hfg; simpl; [reflexivity|].
  rewrite Hfg by (now left). simpl. rewrite IH; [reflexivity|].
  intros y Hy. apply Hfg. now right.
Qed.

Lemma forEach_pure_tables {A} (f : Excel.Worksheet -> A -> Z -> Excel.Worksheet) l :
  (forall s x i, Excel.tables (f s x i) = Excel.tables s) ->
  forall i0 s, Excel.tables (forEach_pure f l i0 s) = Excel.tables s.
Proof.
  intros Hf. induction l as [|x rest IH]; intros i0 s; simpl; [reflexivity|].
  now rewrite IH, Hf.
Qed.

(** ** The table builder *)

Ltac powers :=
  change (2 ^ 52) with 4503599627370496 in *;
  change (2 ^ 53) with 9007199254740992 in *.

Lemma forEach_ret_index {A S} (f : S -> A -> Z -> Result S) (g : S -> A -> Z -> S) l :
  forall i0 s,
    (forall s x i,
        i0 <= i < i0 + Z.of_nat (length l) -> In x l -> f s x i = ret (g s x i)) ->
    forEach f l i0 s = ret (forEach_pure g l i0 s).
Proof.
  induction l as [|x rest IH]; intros i0 s Hfg; simpl; [reflexivity|].
  rewrite Hfg; [| simpl length; lia | now left].
  simpl. apply IH. intros s' y i Hi Hy.
  apply Hfg; [simpl length; lia | now right].
Qed.

Lemma member_ret row key : nullish row = false -> member row key = ret (get_member row key).
Proof. destruct row; simpl; intros H; try reflexivity; discriminate. Qed.

Lemma write_header_ret cfg startRow startCol ws header index :
  0 <= startRow <= 2 ^ 52 -> 1 <= startCol -> 0 <= index ->
  startCol + index <= 16384 ->
  write_header cfg startRow startCol ws header index =
  ret (written_header cfg startRow startCol ws header index).
Proof.
  intros Hr Hc Hi Hb. unfold write_header, written_header.
  rewrite add_exact by (powers; lia). rewrite cell_at_ret by lia. reflexivity.
Qed.

Lemma write_row_ret cfg startRow startCol ws row rowIndex :
  nullish row = false ->
  0 <= startRow -> 0 <= rowIndex -> startRow + rowIndex + 1 <= 2 ^ 52 ->
  1 <= startCol ->
  startCol + Z.of_nat (length (TableConfig.columns cfg)) - 1 <= 16384 ->
  write_row cfg startRow startCol ws row rowIndex =
  ret (written_row cfg startRow startCol ws row rowIndex).
Proof.
  intros Hrow Hr Hi Hb Hc Hw. unfold write_row, written_row.
  rewrite (add_exact startRow rowIndex), (add_exact (startRow + rowIndex) 1)
    by (powers; lia).
  destruct row; simpl in *; try reflexivity; try discriminate.
  - apply forEach_ret_index. intros s x i Hx _.
    unfold write_array_cell, written_array_cell.
    destruct (Z.ltb_spec i (Z.of_nat (length (TableConfig.columns cfg)))); [|reflexivity].
    rewrite add_exact by (powers; lia). rewrite cell_at_ret by lia. reflexivity.
  - apply forEach_ret_index. intros s x i Hx _.
    unfold write_object_cell, write_object_cell_pure.
    rewrite add_exact by (powers; lia). rewrite cell_at_ret by lia. reflexivity.
Qed.

Lemma table_row_ret cfg row :
  nullish row = false -> table_row cfg row = ret (table_row_pure cfg row).
Proof.
  intros Hrow. unfold table_row, table_row_pure.
  destruct row; simpl in *; try reflexivity; try discriminate;
    apply mapM_ret; intros x _; reflexivity.
Qed.

(** The row that [addTable] gets for a row that fits has at most one
    value per column. *)
Lemma table_row_pure_length cfg row :
  row_fits cfg row = true ->
  (length (table_row_pure cfg row) <= length (TableConfig.columns cfg))%nat.
Proof.
  unfold row_fits, table_row_pure.
  destruct row; intros H; rewrite ?length_map; try lia.
  now apply Nat.leb_le.
Qed.

(** *** The store of a table *)

Lemma store_value_ret r c v ws :
  1 <= c <= 16384 ->
  Excel.store_value r c v ws =
  ret (Excel.update_cell (r, c) (Excel.set_value (Excel.Plain v)) ws).
Proof. intros Hc. unfold Excel.store_value. now rewrite row_cell_ret. Qed.

Lemma store_table_ret t r c ws :
  Excel.headerRow t = true ->
  0 <= r -> r + 1 + Z.of_nat (length (Excel.rows t)) <= 2 ^ 52 ->
  1 <= c -> c + Z.of_nat (length (Excel.columns t)) - 1 <= 16384 ->
  Forall (fun data => (length data <= length (Excel.columns t))%nat) (Excel.rows t) ->
  Excel.store_table t r c ws = ret (stored_table t r c ws).
Proof.
  intros Hheader Hr Hb Hc Hw Hfit. unfold Excel.store_table, stored_table.
  rewrite Hheader.
  rewrite (forEach_ret_index _ (stored_header r c)).
  2:{ intros s x j Hj _. unfold stored_header.
      rewrite add_exact by (powers; lia). now rewrite store_value_ret by lia. }
  simpl.
  apply forEach_ret_index. intros s data i Hi Hdata.
  pose proof (proj1 (List.Forall_forall _ _) Hfit data Hdata) as Hlen.
  cbv beta in Hlen.
  apply forEach_ret_index. intros s' v j Hj _.
  unfold Excel.store_data_cell, stored_data_cell.
  rewrite (add_exact r (1 + i)), (add_exact c j) by (powers; lia).
  rewrite store_value_ret by lia. simpl.
  destruct (Z.ltb_spec j (Z.of_nat (length (Excel.columns t)))); [reflexivity | lia].
Qed.

Lemma forEach_ensure_names columns : forall i,
  Forall (fun column => column <> "") columns ->
  forEach
    (fun (_ : unit) (column : string) (i : Z) =>
       Excel.ensure (negb (String.eqb column ""))
         ("Column " ++ number_to_string i ++ " must have a name"))
    columns i tt = ret tt.
Proof.
  induction columns as [|column columns IH]; intros i Hnames; [reflexivity|].
  apply Forall_cons in Hnames as [Hname Hnames]. simpl.
  destruct (String.eqb_spec column ""); [congruence|]. simpl. now apply IH.
Qed.

Lemma validate_table_ret t letters digits rest :
  Excel.ref t = letters ++ digits ++ rest ->
  is_column_name letters = true ->
  digits <> "" -> string_forall is_digit digits = true ->
  ends_reference rest = true ->
  1 <= digits_value digits <= 2 ^ 52 ->
  column_value letters <= 16384 ->
  1 <= column_value letters + Z.of_nat (length (Excel.columns t)) - 1 <= 16384 ->
  Forall (fun column => column <> "") (Excel.columns t) ->
  Excel.validate_table t = ret (digits_value digits, column_value letters).
Proof.
  intros Href Hname Hne Hd Hrest Hrow Hcol Hlast Hnames.
  pose proof (column_value_pos letters Hname) as Hpos.
  unfold Excel.validate_table. rewrite Href.
  assert (Hnonempty : String.eqb (letters ++ digits ++ rest) "" = false)
    by (destruct letters; [discriminate | reflexivity]).
  rewrite Hnonempty. simpl.
  rewrite decodeAddress_reference by (assumption || lia). simpl.
  destruct (Z.ltb_spec 0 (digits_value digits)); [|lia].
  destruct (Z.ltb_spec 0 (column_value letters)); [|lia]. simpl.
  rewrite n2l_ret by lia. simpl.
  rewrite add_exact, sub_exact by (powers; lia).
  rewrite n2l_ret by lia. simpl.
  now rewrite forEach_ensure_names.
Qed.

Lemma addTable_ret t ws letters digits rest :
  Excel.ref t = letters ++ digits ++ rest ->
  is_column_name letters = true ->
  digits <> "" -> string_forall is_digit digits = true ->
  ends_reference rest = true ->
  Excel.headerRow t = true ->
  1 <= digits_value digits ->
  digits_value digits + 1 + Z.of_nat (length (Excel.rows t)) <= 2 ^ 52 ->
  column_value letters <= 16384 ->
  1 <= column_value letters + Z.of_nat (length (Excel.columns t)) - 1 <= 16384 ->
  Forall (fun column => column <> "") (Excel.columns t) ->
  Forall (fun data => (length data <= length (Excel.columns t))%nat) (Excel.rows t) ->
  Excel.addTable t ws =
  ret (register t (stored_table t (digits_value digits) (column_value letters) ws)).
Proof.
  intros Href Hname Hne Hd Hrest Hheader Hrow Hb Hcol Hlast Hnames Hfit.
  pose proof (column_value_pos letters Hname) as Hpos.
  unfold Excel.addTable.
  rewrite (validate_table_ret t letters digits rest) by (assumption || lia).
  simpl. rewrite store_table_ret by (assumption || lia). reflexivity.
Qed.

(** *** The cells after the loops *)

Lemma pair_eq_dec_Z (r c r' c' : Z) :
  (r, c) = (r', c') \/ (r, c) <> (r', c').
Proof.
  destruct (Z.eq_dec r r'), (Z.eq_dec c c'); subst; auto; right; congruence.
Qed.

Lemma write_array_cells_getCell cfg currentRow startCol rowIndex items ws key :
  Excel.getCell
    (forEach_pure (written_array_cell cfg currentRow startCol rowIndex) items 0 ws) key =
  if (fst key =? currentRow)%Z
  then row_cell_after cfg rowIndex (VArr items) (snd key - startCol) (Excel.getCell ws key)
  else Excel.getCell ws key.
Proof.
  rewrite (forEach_pure_obs Excel.getCell (fun key => snd key - startCol)
             (fun v i key cell =>
                if (fst key =? currentRow)%Z
                   && (i <? Z.of_nat (length (TableConfig.columns cfg)))%Z
                then apply_row_color cfg rowIndex (Excel.set_value (Excel.Plain v) cell)
                else cell)).
  - rewrite Z.sub_0_r. unfold row_cell_after.
    destruct (lookup_Z items (snd key - startCol));
      destruct (fst key =? currentRow)%Z; simpl; reflexivity.
  - intros s x i [r c]. simpl. unfold written_array_cell.
    destruct (Z.ltb_spec i (Z.of_nat (length (TableConfig.columns cfg)))).
    + destruct (pair_eq_dec_Z currentRow (startCol + i) r c) as [E|E].
      * injection E as <- <-. rewrite getCell_update_eq.
        replace (startCol + i - startCol) with i by lia.
        now rewrite !Z.eqb_refl.
      * rewrite getCell_update_ne by assumption.
        destruct (Z.eqb_spec (c - startCol) i); [|reflexivity].
        destruct (Z.eqb_spec r currentRow); [|reflexivity].
        exfalso. apply E. f_equal; lia.
    + rewrite andb_false_r. now destruct (c - startCol =? i)%Z.
Qed.

Lemma write_object_cells_getCell cfg currentRow startCol rowIndex props ws key :
  Excel.getCell
    (forEach_pure (write_object_cell_pure cfg currentRow startCol rowIndex (VObj props))
       (TableConfig.columns cfg) 0 ws) key =
  if (fst key =? currentRow)%Z
  then row_cell_after cfg rowIndex (VObj props) (snd key - startCol) (Excel.getCell ws key)
  else Excel.getCell ws key.
Proof.
  rewrite (forEach_pure_obs Excel.getCell (fun key => snd key - startCol)
             (fun column (_ : Z) key cell =>
                if (fst key =? currentRow)%Z
                then apply_row_color cfg rowIndex
                       (Excel.set_value
                          (Excel.Plain (js_or (get_member (VObj props) column) (VStr ""))) cell)
                else cell)).
  - rewrite Z.sub_0_r. unfold row_cell_after.
    destruct (lookup_Z (TableConfig.columns cfg) (snd key - startCol));
      destruct (fst key =? currentRow)%Z; simpl; reflexivity.
  - intros s x i [r c]. simpl. unfold write_object_cell_pure.
    destruct (pair_eq_dec_Z currentRow (startCol + i) r c) as [E|E].
    + injection E as <- <-. rewrite getCell_update_eq.
      replace (startCol + i - startCol) with i by lia.
      now rewrite !Z.eqb_refl.
    + rewrite getCell_update_ne by assumption.
      destruct (Z.eqb_spec (c - startCol) i); [|reflexivity].
      destruct (Z.eqb_spec r currentRow); [|reflexivity].
      exfalso. apply E. f_equal; lia.
Qed.

Lemma written_row_getCell cfg startRow startCol ws row rowIndex key :
  Excel.getCell (written_row cfg startRow startCol ws row rowIndex) key =
  if (fst key - startRow - 1 =? rowIndex)%Z
  then row_cell_after cfg rowIndex row (snd key - startCol) (Excel.getCell ws key)
  else Excel.getCell ws key.
Proof.
  assert (Heq : (fst key - startRow - 1 =? rowIndex)%Z
                = (fst key =? startRow + rowIndex + 1)%Z).
  { destruct (Z.eqb_spec (fst key - startRow - 1) rowIndex),
             (Z.eqb_spec (fst key) (startRow + rowIndex + 1)); try reflexivity; lia. }
  rewrite Heq. unfold written_row.
  destruct row;
    try (simpl; now destruct (fst key =? startRow + rowIndex + 1)%Z).
  - apply write_array_cells_getCell.
  - apply write_object_cells_getCell.
Qed.

(** After the row loop, a cell holds what its own row made of it. *)
Lemma written_rows_getCell cfg startRow startCol rows ws key :
  Excel.getCell (forEach_pure (written_row cfg startRow startCol) rows 0 ws) key =
  match lookup_Z rows (fst key - startRow - 1) with
  | Some row =>
      row_cell_after cfg (fst key - startRow - 1) row (snd key - startCol)
        (Excel.getCell ws key)
  | None => Excel.getCell ws key
  end.
Proof.
  rewrite (forEach_pure_obs Excel.getCell (fun key => fst key - startRow - 1)
             (fun row i key cell => row_cell_after cfg i row (snd key - startCol) cell)).
  - now rewrite Z.sub_0_r.
  - intros s x i key'. apply written_row_getCell.
Qed.

(** The header loop writes the header row only. *)
Lemma write_headers_getCell cfg startRow startCol columns ws key :
  Excel.getCell (forEach_pure (written_header cfg startRow startCol) columns 0 ws) key =
  match lookup_Z columns (snd key - startCol) with
  | Some header =>
      if (fst key =? startRow)%Z
      then header_cell cfg header (Excel.getCell ws key)
      else Excel.getCell ws key
  | None => Excel.getCell ws key
  end.
Proof.
  rewrite (forEach_pure_obs Excel.getCell (fun key => snd key - startCol)
             (fun header (_ : Z) key cell =>
                if (fst key =? startRow)%Z then header_cell cfg header cell else cell)).
  - now rewrite Z.sub_0_r.
  - intros s x i [r c]. simpl. unfold written_header.
    destruct (pair_eq_dec_Z startRow (startCol + i) r c) as [E|E].
    + injection E as <- <-.
      replace (startCol + i - startCol) with i by lia.
      now rewrite !Z.eqb_refl, getCell_update_eq.
    + rewrite getCell_update_ne by assumption.
      destruct (Z.eqb_spec (c - startCol) i); [|reflexivity].
      destruct (Z.eqb_spec r startRow); [|reflexivity].
      exfalso. apply E. f_equal; lia.
Qed.

Lemma value_header_cell cfg header cell :
  Excel.value (header_cell cfg header cell) = Excel.Plain (VStr header).
Proof.
  unfold header_cell.
  repeat match goal with |- context [if ?b then _ else _] => destruct b end;
    reflexivity.
Qed.

(** What the store of a table makes of a cell: the value of its place in
    the table, when it has one. *)
Lemma stored_headers_getCell r c columns ws key :
  Excel.getCell (forEach_pure (stored_header r c) columns 0 ws) key =
  match lookup_Z columns (snd key - c) with
  | Some column =>
      if (fst key =? r)%Z
      then Excel.set_value (Excel.Plain (VStr column)) (Excel.getCell ws key)
      else Excel.getCell ws key
  | None => Excel.getCell ws key
  end.
Proof.
  rewrite (forEach_pure_obs Excel.getCell (fun key => snd key - c)
             (fun column (_ : Z) key cell =>
                if (fst key =? r)%Z
                then Excel.set_value (Excel.Plain (VStr column)) cell else cell)).
  - now rewrite Z.sub_0_r.
  - intros s x i [r' c']. simpl. unfold stored_header.
    destruct (pair_eq_dec_Z r (c + i) r' c') as [E|E].
    + injection E as <- <-.
      replace (c + i - c) with i by lia.
      now rewrite !Z.eqb_refl, getCell_update_eq.
    + rewrite getCell_update_ne by assumption.
      destruct (Z.eqb_spec (c' - c) i); [|reflexivity].
      destruct (Z.eqb_spec r' r); [|reflexivity].
      exfalso. apply E. f_equal; lia.
Qed.

Lemma stored_data_getCell r c data ws key :
  Excel.getCell (forEach_pure (stored_data_cell r c) data 0 ws) key =
  if (fst key =? r)%Z
  then stored_cell_after data (snd key - c) (Excel.getCell ws key)
  else Excel.getCell ws key.
Proof.
  rewrite (forEach_pure_obs Excel.getCell (fun key => snd key - c)
             (fun v (_ : Z) key cell =>
                if (fst key =? r)%Z
                then Excel.set_value (Excel.Plain v) cell else cell)).
  - rewrite Z.sub_0_r. unfold stored_cell_after.
    destruct (lookup_Z data (snd key - c)); destruct (fst key =? r)%Z; reflexivity.
  - intros s x i [r' c']. simpl. unfold stored_data_cell.
    destruct (pair_eq_dec_Z r (c + i) r' c') as [E|E].
    + injection E as <- <-.
      replace (c + i - c) with i by lia.
      now rewrite !Z.eqb_refl, getCell_update_eq.
    + rewrite getCell_update_ne by assumption.
      destruct (Z.eqb_spec (c' - c) i); [|reflexivity].
      destruct (Z.eqb_spec r' r); [|reflexivity].
      exfalso. apply E. f_equal; lia.
Qed.

Lemma stored_table_getCell t r c ws key :
  Excel.getCell (stored_table t r c ws) key =
  let after_header :=
    match lookup_Z (Excel.columns t) (snd key - c) with
    | Some column =>
        if (fst key =? r)%Z
        then Excel.set_value (Excel.Plain (VStr column)) (Excel.getCell ws key)
        else Excel.getCell ws key
    | None => Excel.getCell ws key
    end in
  match lookup_Z (Excel.rows t) (fst key - r - 1) with
  | Some data => stored_cell_after data (snd key - c) after_header
  | None => after_header
  end.
Proof.
  unfold stored_table.
  rewrite (forEach_pure_obs Excel.getCell (fun key => fst key - r - 1)
             (fun data (_ : Z) key cell => stored_cell_after data (snd key - c) cell)).
  - rewrite Z.sub_0_r, stored_headers_getCell. reflexivity.
  - intros s data i key'. rewrite stored_data_getCell.
    destruct (Z.eqb_spec (fst key') (r + (1 + i))),
             (Z.eqb_spec (fst key' - r - 1) i); try reflexivity; lia.
Qed.

Lemma value_stored_cell_after data j cell :
  Excel.value (stored_cell_after data j cell) =
  match lookup_Z data j with
  | Some v => Excel.Plain v
  | None => Excel.value cell
  end.
Proof. unfold stored_cell_after. now destruct (lookup_Z data j). Qed.

(** *** The table builder on the grid *)

Lemma on_grid_exact letters digits width height :
  is_column_name letters = true -> string_forall is_digit digits = true ->
  on_grid (parseInt digits) (columnLetterToNumber letters) width height ->
  parseInt digits = digits_value digits
  /\ columnLetterToNumber letters = column_value letters.
Proof.
  intros Hl Hd (Hr1 & Hr2 & Hc1 & Hc2). split.
  - apply parseInt_exact; [assumption | powers; lia].
  - apply columnLetterToNumber_exact; [now apply is_column_name_upper | powers; lia].
Qed.

Lemma registered_rows_fit tableConfig rows startRow startCol :
  Forall (fun row => row_fits tableConfig row = true) rows ->
  Forall (fun data => (length data <= length (TableConfig.columns tableConfig))%nat)
    (Excel.rows (registered_table tableConfig startRow startCol rows)).
Proof.
  intros Hfit. simpl. apply List.Forall_forall. intros data Hin.
  apply in_map_iff in Hin as (row & <- & Hin).
  apply table_row_pure_length.
  exact (proj1 (List.Forall_forall _ _) Hfit row Hin).
Qed.

(** What [createTable] returns for a table on the grid whose rows are not
    [null] and fit the columns, and whose columns have names: the sheet
    after the header loop, the row loop and the store of the table, with
    the table registered. *)
Lemma createTable_run worksheet tableConfig rows letters digits :
  match_cell_ref (TableConfig.startCell tableConfig) = Some (letters, digits) ->
  rows <> [] ->
  Forall (fun row => nullish row = false) rows ->
  Forall (fun row => row_fits tableConfig row = true) rows ->
  Forall (fun column => column <> "") (TableConfig.columns tableConfig) ->
  on_grid (parseInt digits) (columnLetterToNumber letters)
          (length (TableConfig.columns tableConfig)) (length rows) ->
  createTable worksheet tableConfig (VArr rows) =
  inr (built_table tableConfig (parseInt digits) (columnLetterToNumber letters) rows
         worksheet).
Proof.
  intros Href Hne Hrows Hfit Hnames Hgrid.
  pose proof Href as Hspec.
  apply match_cell_ref_spec in Hspec as (Hcell & Hname & Hdne & Hd).
  destruct (on_grid_exact letters digits _ _ Hname Hd Hgrid) as [Hrow Hcol].
  destruct Hgrid as (Hr1 & Hr2 & Hc1 & Hc2).
  unfold createTable.
  assert (Hlen : match get_member (VArr rows) "length" with
                 | VNum 0 => true | _ => false end = false).
  { destruct rows; [congruence | reflexivity]. }
  rewrite Hlen, Href. simpl.
  rewrite (forEach_ret_index _
             (written_header tableConfig (parseInt digits) (columnLetterToNumber letters))).
  2:{ intros s x i Hi _. apply write_header_ret; powers; lia. }
  simpl.
  rewrite (forEach_ret_index _
             (written_row tableConfig (parseInt digits) (columnLetterToNumber letters))).
  2:{ intros s x i Hi Hx. apply write_row_ret; try (powers; lia).
      exact (proj1 (List.Forall_forall _ _) Hrows x Hx). }
  simpl.
  rewrite (mapM_ret _ (table_row_pure tableConfig)).
  2:{ intros x Hx. apply table_row_ret.
      exact (proj1 (List.Forall_forall _ _) Hrows x Hx). }
  simpl.
  rewrite (add_exact (columnLetterToNumber letters)), sub_exact,
    (add_exact (parseInt digits)) by (powers; lia).
  change (Excel.addTable _ ?ws)
    with (Excel.addTable
            (registered_table tableConfig (parseInt digits) (columnLetterToNumber letters)
               rows) ws).
  rewrite (addTable_ret _ _ letters digits
             (":" ++
              numberToColumnLetter
                (columnLetterToNumber letters
                 + Z.of_nat (length (TableConfig.columns tableConfig)) - 1) ++
              number_to_string (parseInt digits + Z.of_nat (length rows)))).
  - unfold built_table, written_table. now rewrite <- Hrow, <- Hcol.
  - simpl. now rewrite Hcell, append_assoc.
  - assumption.
  - assumption.
  - assumption.
  - reflexivity.
  - reflexivity.
  - lia.
  - simpl. rewrite length_map. powers. lia.
  - lia.
  - simpl. lia.
  - exact Hnames.
  - now apply registered_rows_fit.
Qed.

Lemma createTable_empty worksheet tableConfig :
  createTable worksheet tableConfig (VArr []) = inr worksheet.
Proof. reflexivity. Qed.

(** The cell at a place of the worksheet that [createTable] returns. *)
Lemma built_table_getCell cfg startRow startCol rows ws key :
  Excel.getCell (built_table cfg startRow startCol rows ws) key =
  let after_header :=
    match lookup_Z (TableConfig.columns cfg) (snd key - startCol) with
    | Some header =>
        if (fst key =? startRow)%Z
        then header_cell cfg header (Excel.getCell ws key)
        else Excel.getCell ws key
    | None => Excel.getCell ws key
    end in
  let after_rows :=
    match lookup_Z rows (fst key - startRow - 1) with
    | Some row =>
        row_cell_after cfg (fst key - startRow - 1) row (snd key - startCol) after_header
    | None => after_header
    end in
  let after_names :=
    match lookup_Z (TableConfig.columns cfg) (snd key - startCol) with
    | Some column =>
        if (fst key =? startRow)%Z
        then Excel.set_value (Excel.Plain (VStr column)) after_rows
        else after_rows
    | None => after_rows
    end in
  match lookup_Z (map (table_row_pure cfg) rows) (fst key - startRow - 1) with
  | Some data => stored_cell_after data (snd key - startCol) after_names
  | None => after_names
  end.
Proof.
  unfold built_table. rewrite getCell_register, stored_table_getCell.
  unfold written_table. rewrite written_rows_getCell, write_headers_getCell.
  reflexivity.
Qed.

Lemma lookup_Z_None {A} (l : list A) (k : Z) :
  k < 0 \/ Z.of_nat (length l) <= k -> lookup_Z l k = None.
Proof.
  intros H. unfold lookup_Z. destruct (Z.ltb_spec k 0); [reflexivity|].
  apply lookup_ge_None. lia.
Qed.

Lemma lookup_Z_map {A B} (f : A -> B) (l : list A) (k : Z) :
  lookup_Z (map f l) k = option_map f (lookup_Z l k).
Proof.
  unfold lookup_Z. destruct (k <? 0)%Z; [reflexivity|].
  now rewrite list_lookup_fmap.
Qed.

(** The value a data row leaves in the cell of one of its registered
    values. *)
Lemma built_table_row_value cfg startRow startCol rows ws (i j : nat) row v :
  rows !! i = Some row -> table_row_pure cfg row !! j = Some v ->
  Excel.value
    (Excel.getCell (built_table cfg startRow startCol rows ws)
       (startRow + Z.of_nat i + 1, startCol + Z.of_nat j)) =
  Excel.Plain v.
Proof.
  intros Hi Hj. rewrite built_table_getCell. cbv zeta. simpl fst. simpl snd.
  replace (startRow + Z.of_nat i + 1 - startRow - 1) with (Z.of_nat i) by lia.
  replace (startCol + Z.of_nat j - startCol) with (Z.of_nat j) by lia.
  rewrite lookup_Z_map, lookup_Z_of_nat, Hi. simpl.
  rewrite value_stored_cell_after, lookup_Z_of_nat, Hj. reflexivity.
Qed.

(** The value of a header cell. *)
Lemma built_table_header_value cfg startRow startCol rows ws (j : nat) header :
  TableConfig.columns cfg !! j = Some header ->
  Excel.value
    (Excel.getCell (built_table cfg startRow startCol rows ws)
       (startRow, startCol + Z.of_nat j)) =
  Excel.Plain (VStr header).
Proof.
  intros Hj. rewrite built_table_getCell. cbv zeta. simpl fst. simpl snd.
  replace (startRow - startRow - 1) with (-1) by lia.
  replace (startCol + Z.of_nat j - startCol) with (Z.of_nat j) by lia.
  rewrite lookup_Z_map.
  rewrite (lookup_Z_None rows) by lia. simpl.
  now rewrite lookup_Z_of_nat, Hj, Z.eqb_refl.
Qed.

Lemma row_cell_after_outside cfg rowIndex row j cell :
  j < 0 \/ Z.of_nat (length (TableConfig.columns cfg)) <= j ->
  row_cell_after cfg rowIndex row j cell = cell.
Proof.
  intros Hj. unfold row_cell_after. destruct row; try reflexivity.
  - destruct (lookup_Z items j) eqn:E; [|reflexivity].
    destruct (Z.ltb_spec j (Z.of_nat (length (TableConfig.columns cfg)))); [|reflexivity].
    apply lookup_Z_Some in E. lia.
  - now rewrite lookup_Z_None.
Qed.

(** A cell outside the rectangle of the table is left as it was. *)
Lemma built_table_outside cfg startRow startCol rows ws r c :
  Forall (fun row => row_fits cfg row = true) rows ->
  r < startRow \/ startRow + Z.of_nat (length rows) < r
  \/ c < startCol \/ startCol + Z.of_nat (length (TableConfig.columns cfg)) <= c ->
  Excel.getCell (built_table cfg startRow startCol rows ws) (r, c) = Excel.getCell ws (r, c).
Proof.
  intros Hfit Hout. rewrite built_table_getCell. cbv zeta. simpl fst. simpl snd.
  rewrite lookup_Z_map.
  destruct Hout as [Hr | [Hr | Hc]].
  - rewrite (lookup_Z_None rows) by lia. simpl.
    destruct (lookup_Z (TableConfig.columns cfg) (c - startCol)); [|reflexivity].
    destruct (Z.eqb_spec r startRow); [lia | reflexivity].
  - rewrite (lookup_Z_None rows) by lia. simpl.
    destruct (lookup_Z (TableConfig.columns cfg) (c - startCol)); [|reflexivity].
    destruct (Z.eqb_spec r startRow); [lia | reflexivity].
  - rewrite (lookup_Z_None (TableConfig.columns cfg)) by lia.
    destruct (lookup_Z rows (r - startRow - 1)) as [row|] eqn:Erow; simpl; [|reflexivity].
    rewrite row_cell_after_outside by lia.
    unfold stored_cell_after. rewrite lookup_Z_None; [reflexivity|].
    assert (Hin : In row rows).
    { unfold lookup_Z in Erow. destruct (r - startRow - 1 <? 0)%Z; [discriminate|].
      apply list_elem_of_lookup_2 in Erow. now apply list_elem_of_In. }
    pose proof (table_row_pure_length cfg row
                  (proj1 (List.Forall_forall _ _) Hfit row Hin)).
    lia.
Qed.

(** What a row makes of the cells of its worksheet row. *)
Lemma row_cell_after_array cfg rowIndex items (j : nat) v cell :
  items !! j = Some v -> (j < length (TableConfig.columns cfg))%nat ->
  Excel.value (row_cell_after cfg rowIndex (VArr items) (Z.of_nat j) cell) = Excel.Plain v.
Proof.
  intros Hj Hlt. unfold row_cell_after. rewrite lookup_Z_of_nat, Hj.
  destruct (Z.ltb_spec (Z.of_nat j) (Z.of_nat (length (TableConfig.columns cfg)))); [|lia].
  now rewrite value_apply_row_color.
Qed.

Lemma row_cell_after_beyond cfg rowIndex items (j : nat) cell :
  (length (TableConfig.columns cfg) <= j)%nat ->
  row_cell_after cfg rowIndex (VArr items) (Z.of_nat j) cell = cell.
Proof. intros Hge. apply row_cell_after_outside. lia. Qed.

Lemma row_cell_after_object cfg rowIndex props (j : nat) column cell :
  TableConfig.columns cfg !! j = Some column ->
  Excel.value (row_cell_after cfg rowIndex (VObj props) (Z.of_nat j) cell) =
  Excel.Plain (js_or (get_member (VObj props) column) (VStr "")).
Proof.
  intros Hj. unfold row_cell_after. rewrite lookup_Z_of_nat, Hj.
  now rewrite value_apply_row_color.
Qed.

(** The value an object row leaves in a cell, by what the row has under
    the name of the column. *)
Lemma object_cell_cases props column value :
  value = Excel.Plain (js_or (get_member (VObj props) column) (VStr "")) ->
  (forall v,
      lookup_prop column props = Some v ->
      value = Excel.Plain (if truthy v then v else VStr ""))
  /\ (lookup_prop column props = None ->
      value = Excel.Plain (js_or (object_prototype_member column) (VStr "")))
  /\ (lookup_prop column props = None ->
      object_prototype_member column = VUndefined ->
      value = Excel.Plain (VStr "")).
Proof.
  intros ->. split; [|split].
  - intros v Hv. now rewrite (get_member_own _ _ _ Hv).
  - intros Hnone. now rewrite (get_member_absent _ _ Hnone).
  - intros Hnone Hproto. rewrite (get_member_absent _ _ Hnone), Hproto. reflexivity.
Qed.

(** C4, as amended.  The callback for the data row at 0-based index [i],
    for a row that is not [null] or [undefined] and a table on the grid of
    the sheet
    (1,048,576 rows, 16,384 columns), writes into worksheet row
    [startRow + i + 1] and leaves the values of the other rows: for a row
    that is a value list, the values at their positions, up to the number
    of columns; for a row that is an object, for each column
    [row[column] || ''], that is the member of that name when it is truthy
    and the empty string when it is falsy or not there.  The member is
    the own one, or else the one every object inherits under that name:
    the empty string stands in for an absent key unless the key names a
    member of [Object.prototype].
    When the start cell parses, the table lies on the grid, the columns
    have names, no row is [null] or [undefined] and no value list is
    longer than the columns, the table builder completes and the worksheet
    it returns holds these values. *)
Theorem createTable_writes_rows :
  (forall tableConfig startRow startCol worksheet row i,
      nullish row = false ->
      let columns := TableConfig.columns tableConfig in
      let currentRow := startRow + i + 1 in
      0 <= startRow -> 0 <= i -> currentRow <= 1048576 ->
      1 <= startCol -> startCol + Z.of_nat (length columns) - 1 <= 16384 ->
      exists worksheet',
        write_row tableConfig startRow startCol worksheet row i = inr worksheet'
        /\ (forall r c,
               r <> currentRow ->
               Excel.value (Excel.getCell worksheet' (r, c)) =
               Excel.value (Excel.getCell worksheet (r, c)))
        /\ (forall items,
               row = VArr items ->
               (forall (j : nat) v,
                   items !! j = Some v -> (j < length columns)%nat ->
                   Excel.value
                     (Excel.getCell worksheet' (currentRow, startCol + Z.of_nat j)) =
                   Excel.Plain v)
               /\ (forall (j : nat),
                      (length columns <= j)%nat ->
                      Excel.value
                        (Excel.getCell worksheet' (currentRow, startCol + Z.of_nat j)) =
                      Excel.value
                        (Excel.getCell worksheet (currentRow, startCol + Z.of_nat j))))
        /\ (forall props,
               row = VObj props ->
               forall (j : nat) column,
                 columns !! j = Some column ->
                 let value :=
                   Excel.value
                     (Excel.getCell worksheet' (currentRow, startCol + Z.of_nat j)) in
                 value = Excel.Plain (js_or (get_member row column) (VStr ""))
                 /\ (forall v,
                        lookup_prop column props = Some v ->
                        value = Excel.Plain (if truthy v then v else VStr ""))
                 /\ (lookup_prop column props = None ->
                     value = Excel.Plain (js_or (object_prototype_member column) (VStr "")))
                 /\ (lookup_prop column props = None ->
                     object_prototype_member column = VUndefined ->
                     value = Excel.Plain (VStr ""))))
  /\ (forall worksheet tableConfig rows letters digits,
         let columns := TableConfig.columns tableConfig in
         let startCol := columnLetterToNumber letters in
         let startRow := parseInt digits in
         match_cell_ref (TableConfig.startCell tableConfig) = Some (letters, digits) ->
         on_grid startRow startCol (length columns) (length rows) ->
         Forall (fun column => column <> "") columns ->
         Forall (fun row => nullish row = false) rows ->
         Forall (fun row => row_fits tableConfig row = true) rows ->
         exists worksheet',
           createTable worksheet tableConfig (VArr rows) = inr worksheet'
           /\ forall (i : nat) row,
                rows !! i = Some row ->
                let currentRow := startRow + Z.of_nat i + 1 in
                (forall items,
                    row = VArr items ->
                    forall (j : nat) v,
                      items !! j = Some v ->
                      Excel.value
                        (Excel.getCell worksheet' (currentRow, startCol + Z.of_nat j)) =
                      Excel.Plain v)
                /\ (forall props,
                       row = VObj props ->
                       forall (j : nat) column,
                         columns !! j = Some column ->
                         let value :=
                           Excel.value
                             (Excel.getCell worksheet' (currentRow, startCol + Z.of_nat j)) in
                         value = Excel.Plain (js_or (get_member row column) (VStr ""))
                         /\ (forall v,
                                lookup_prop column props = Some v ->
                                value = Excel.Plain (if truthy v then v else VStr ""))
                         /\ (lookup_prop column props = None ->
                             value =
                             Excel.Plain (js_or (object_prototype_member column) (VStr "")))
                         /\ (lookup_prop column props = None ->
                             object_prototype_member column = VUndefined ->
                             value = Excel.Plain (VStr "")))).
Proof.
  split.
  - intros tableConfig startRow startCol worksheet row i Hrow columns currentRow
      Hr Hi Hb Hc Hw.
    exists (written_row tableConfig startRow startCol worksheet row i).
    split; [apply write_row_ret; try assumption; unfold currentRow in Hb; powers; lia|].
    assert (Hcell : forall j : nat,
               Excel.getCell (written_row tableConfig startRow startCol worksheet row i)
                 (currentRow, startCol + Z.of_nat j) =
               row_cell_after tableConfig i row (Z.of_nat j)
                 (Excel.getCell worksheet (currentRow, startCol + Z.of_nat j))).
    { intros j. rewrite written_row_getCell. simpl fst. simpl snd.
      replace (currentRow - startRow - 1) with i by (unfold currentRow; lia).
      replace (startCol + Z.of_nat j - startCol) with (Z.of_nat j) by lia.
      now rewrite Z.eqb_refl. }
    split; [|split].
    + intros r c Hrc. rewrite written_row_getCell. simpl fst.
      destruct (Z.eqb_spec (r - startRow - 1) i); [unfold currentRow in Hrc; lia|].
      reflexivity.
    + intros items ->. split.
      * intros j v Hj Hlt. rewrite Hcell. now apply row_cell_after_array.
      * intros j Hge. rewrite Hcell. now rewrite row_cell_after_beyond.
    + intros props -> j column Hj value.
      assert (Hvalue : value =
                Excel.Plain (js_or (get_member (VObj props) column) (VStr "")))
        by (unfold value; rewrite Hcell; now apply row_cell_after_object).
      split; [exact Hvalue | now apply object_cell_cases].
  - intros worksheet tableConfig rows letters digits columns startCol startRow
      Href Hgrid Hnames Hrows Hfit.
    assert (Hcase : rows = [] \/ rows <> [])
      by (destruct rows; [now left | now right]).
    destruct Hcase as [-> | Hne].
    { exists worksheet. split; [reflexivity|]. intros i row Hi. discriminate. }
    eexists. split;
      [exact (createTable_run worksheet tableConfig rows letters digits
                Href Hne Hrows Hfit Hnames Hgrid)|].
    intros i row Hi currentRow. split.
    + intros items -> j v Hj. apply (built_table_row_value _ _ _ _ _ i j (VArr items));
        assumption.
    + intros props -> j column Hj value.
      assert (Hvalue : value =
                Excel.Plain (js_or (get_member (VObj props) column) (VStr ""))).
      { unfold value.
        apply (built_table_row_value _ _ _ _ _ i j (VObj props)); [assumption|].
        simpl. unfold columns in Hj. now rewrite list_lookup_fmap, Hj. }
      split; [exact Hvalue | now apply object_cell_cases].
Qed.

(** ** The registered table *)

Lemma forEach_pure_preserves {A S B} (proj : S -> B) (f : S -> A -> Z -> S) l :
  (forall s x i, proj (f s x i) = proj s) ->
  forall i0 s, proj (forEach_pure f l i0 s) = proj s.
Proof.
  intros Hf. induction l as [|x rest IH]; intros i0 s; simpl; [reflexivity|].
  now rewrite IH, Hf.
Qed.

Lemma written_row_preserves {B} (proj : Excel.Worksheet -> B) cfg startRow startCol ws row
    rowIndex :
  (forall rc f s, proj (Excel.update_cell rc f s) = proj s) ->
  proj (written_row cfg startRow startCol ws row rowIndex) = proj ws.
Proof.
  intros Hproj. unfold written_row. destruct row; try reflexivity.
  - apply forEach_pure_preserves. intros s x i. unfold written_array_cell.
    destruct (i <? _)%Z; [apply Hproj | reflexivity].
  - apply forEach_pure_preserves. intros s x i. apply Hproj.
Qed.

(** The loops and the store of a table change cells only: what a
    projection that does not look at the cells sees stays. *)
Lemma stored_written_preserves {B} (proj : Excel.Worksheet -> B) cfg startRow startCol
    rows ws t :
  (forall rc f s, proj (Excel.update_cell rc f s) = proj s) ->
  proj (stored_table t startRow startCol (written_table cfg startRow startCol rows ws)) =
  proj ws.
Proof.
  intros Hproj. unfold stored_table, written_table.
  rewrite (forEach_pure_preserves proj).
  2:{ intros s data i. apply forEach_pure_preserves. intros s' v j. apply Hproj. }
  rewrite (forEach_pure_preserves proj) by (intros s x i; apply Hproj).
  rewrite (forEach_pure_preserves proj)
    by (intros s x i; now apply written_row_preserves).
  apply forEach_pure_preserves. intros s x i. apply Hproj.
Qed.

Lemma tables_built_table cfg startRow startCol rows ws :
  Excel.tables (built_table cfg startRow startCol rows ws) =
  <[TableConfig.tableName cfg := registered_table cfg startRow startCol rows]>
    (Excel.tables ws).
Proof.
  unfold built_table. simpl.
  now rewrite (stored_written_preserves Excel.tables) by reflexivity.
Qed.

(** C5, as amended.  On a non-empty data set, when the start cell parses,
    the table lies on the grid of the sheet, the columns have names, no
    row is [null] or [undefined] and no value list is longer than the
    columns, the table builder completes and the sheet then has, under
    the name of the table, a table whose range runs from the start cell
    to the end cell at column [startCol + columns.length - 1] and row
    [startRow + dataRows.length] (the end reference parses back to exactly
    this column and row); the header row is enabled, the theme is the
    striped default one, the columns are the configured ones, a row that
    is a value list is registered as it is, and the header cells hold the
    names of the columns.  The tables under other names stay.  With
    columns ["P","Q"], data [[1,2],[3,4]] and start cell "A1" the table
    spans A1:B3 with header row ["P","Q"] and data rows [1,2] and [3,4]. *)
Theorem createTable_registers_table :
  (forall worksheet tableConfig rows letters digits,
      let columns := TableConfig.columns tableConfig in
      let startCol := columnLetterToNumber letters in
      let startRow := parseInt digits in
      let endCol := numberToColumnLetter (startCol + Z.of_nat (length columns) - 1) in
      let endRow := number_to_string (startRow + Z.of_nat (length rows)) in
      match_cell_ref (TableConfig.startCell tableConfig) = Some (letters, digits) ->
      rows <> [] ->
      on_grid startRow startCol (length columns) (length rows) ->
      Forall (fun column => column <> "") columns ->
      Forall (fun row => nullish row = false) rows ->
      Forall (fun row => row_fits tableConfig row = true) rows ->
      exists worksheet' table,
        createTable worksheet tableConfig (VArr rows) = inr worksheet'
        /\ Excel.tables worksheet' !! TableConfig.tableName tableConfig = Some table
        /\ (forall other,
               other <> TableConfig.tableName tableConfig ->
               Excel.tables worksheet' !! other = Excel.tables worksheet !! other)
        /\ Excel.name table = TableConfig.tableName tableConfig
        /\ Excel.ref table = TableConfig.startCell tableConfig ++ ":" ++ endCol ++ endRow
        /\ match_cell_ref (endCol ++ endRow) = Some (endCol, endRow)
        /\ columnLetterToNumber endCol = startCol + Z.of_nat (length columns) - 1
        /\ parseInt endRow = startRow + Z.of_nat (length rows)
        /\ Excel.headerRow table = true
        /\ Excel.theme table = "TableStyleMedium9"
        /\ Excel.showRowStripes table = true
        /\ Excel.columns table = columns
        /\ length (Excel.rows table) = length rows
        /\ (forall (i : nat) items,
               rows !! i = Some (VArr items) -> Excel.rows table !! i = Some items)
        /\ (forall (j : nat) header,
               columns !! j = Some header ->
               Excel.value (Excel.getCell worksheet' (startRow, startCol + Z.of_nat j)) =
               Excel.Plain (VStr header)))
  /\ (exists worksheet',
         createTable (Excel.new_sheet "Sheet1")
           {| TableConfig.sheet := "Sheet1"; TableConfig.tableName := "Table1";
              TableConfig.startCell := "A1"; TableConfig.columns := ["P"; "Q"];
              TableConfig.style := None |}
           (VArr [VArr [VNum 1; VNum 2]; VArr [VNum 3; VNum 4]]) = inr worksheet'
         /\ Excel.tables worksheet' !! "Table1" =
            Some {| Excel.name := "Table1"; Excel.ref := "A1:B3";
                    Excel.headerRow := true; Excel.theme := "TableStyleMedium9";
                    Excel.showRowStripes := true; Excel.columns := ["P"; "Q"];
                    Excel.rows := [[VNum 1; VNum 2]; [VNum 3; VNum 4]] |}
         /\ Excel.value (Excel.getCell worksheet' (1, 1)) = Excel.Plain (VStr "P")
         /\ Excel.value (Excel.getCell worksheet' (1, 2)) = Excel.Plain (VStr "Q")
         /\ Excel.value (Excel.getCell worksheet' (2, 1)) = Excel.Plain (VNum 1)
         /\ Excel.value (Excel.getCell worksheet' (2, 2)) = Excel.Plain (VNum 2)
         /\ Excel.value (Excel.getCell worksheet' (3, 1)) = Excel.Plain (VNum 3)
         /\ Excel.value (Excel.getCell worksheet' (3, 2)) = Excel.Plain (VNum 4)).
Proof.
  split.
  - intros worksheet tableConfig rows letters digits columns startCol startRow endCol endRow
      Href Hne Hgrid Hnames Hrows Hfit.
    eexists _, _. split;
      [exact (createTable_run worksheet tableConfig rows letters digits
                Href Hne Hrows Hfit Hnames Hgrid)|].
    rewrite tables_built_table.
    split; [apply lookup_insert_eq|].
    split; [intros other Hother; now apply lookup_insert_ne|].
    split; [reflexivity|]. split; [reflexivity|].
    apply match_cell_ref_spec in Href as (_ & Hletters & _ & Hdigits).
    destruct Hgrid as (Hr1 & Hr2 & Hc1 & Hc2).
    destruct (number_to_string_spec (startRow + Z.of_nat (length rows)) ltac:(lia))
      as (Hne' & Hdigits' & Hparse).
    split; [|split; [|split]].
    { apply match_cell_ref_app; try assumption.
      apply numberToColumnLetter_is_column_name. lia. }
    { apply columnLetterToNumber_numberToColumnLetter. powers. lia. }
    { unfold endRow, parseInt. rewrite Hparse. apply fl_exact. powers. lia. }
    split; [reflexivity|]. split; [reflexivity|]. split; [reflexivity|].
    split; [reflexivity|]. split; [apply length_map|]. split.
    { intros i items Hi. simpl. rewrite list_lookup_fmap, Hi. reflexivity. }
    intros j header Hj. now apply built_table_header_value.
  - eexists. split; [vm_compute; reflexivity|]. vm_compute. repeat split.
Qed.

(** ** Failures of the assembler *)

(** C10.  A data set that holds [null] next to a non-empty column list
    makes the table builder take the object-row branch and throw on the
    first column lookup; the assembler turns this into a generation
    failure and returns no buffer, whatever the spreadsheet library would
    have done with the workbook. *)
Theorem null_row_fails_generation :
  let jsonData := VObj [("tableData", VArr [VNull])] in
  let tableConfig :=
    {| TableConfig.sheet := "Sheet1"; TableConfig.tableName := "Table1";
       TableConfig.startCell := "A1"; TableConfig.columns := ["P"];
       TableConfig.style := None |} in
  typeof_object VNull = true
  /\ write_row tableConfig 1 1 (Excel.new_sheet "Sheet1") VNull 0 =
     inl (JsError "Cannot read properties of null (reading 'P')")
  /\ createTable (Excel.new_sheet "Sheet1") tableConfig (VArr [VNull]) =
     inl (JsError "Cannot read properties of null (reading 'P')")
  /\ forall xlsx_load xlsx_writeBuffer options,
       generateWorkbook xlsx_load xlsx_writeBuffer jsonData [] [tableConfig] None options =
       inl (JsError
              "Failed to generate Excel workbook: Cannot read properties of null (reading 'P')").
Proof. repeat split. Qed.

Section AssemblerProperties.

Variable xlsx_load : Buffer -> Result Excel.Workbook.
Variable xlsx_writeBuffer : Excel.Workbook -> Result Buffer.

Variable jsonData : JsValue.
Variable mappingConfig : list MappingConfig.t.
Variable tableConfigs : list TableConfig.t.
Variable templateBuffer : option Buffer.
Variable options : ExcelOptions.t.

Abbreviation raised :=
  (raised_in_generation xlsx_load xlsx_writeBuffer jsonData mappingConfig tableConfigs
     templateBuffer options).
Abbreviation completes :=
  (generation_completes xlsx_load xlsx_writeBuffer jsonData mappingConfig tableConfigs
     templateBuffer options).

Lemma generateWorkbook_try_raises e :
  raised e <->
  generateWorkbook_try xlsx_load xlsx_writeBuffer jsonData mappingConfig tableConfigs
    templateBuffer options = inl e.
Proof.
  unfold generateWorkbook_try. split.
  - intros [H0 | wb0 H0 H1 | wb0 wb1 H0 H1 H2 | wb0 wb1 wb2 H0 H1 H2 H3];
      rewrite H0; simpl; try reflexivity;
      rewrite H1; simpl; try reflexivity;
      rewrite H2; simpl; try reflexivity; exact H3.
  - destruct (initial_workbook xlsx_load templateBuffer) as [e0|wb0] eqn:H0; simpl.
    { intros [= <-]. now apply raised_in_load. }
    destruct (for_of (process_mapping jsonData) mappingConfig wb0) as [e1|wb1] eqn:H1; simpl.
    { intros [= <-]. now apply raised_in_mapping with wb0. }
    destruct (for_of (process_table jsonData) tableConfigs wb1) as [e2|wb2] eqn:H2; simpl.
    { intros [= <-]. now apply raised_in_tables with wb0 wb1. }
    intros H3. now apply raised_in_serialize with wb0 wb1 wb2.
Qed.

Lemma generateWorkbook_try_completes buffer :
  completes buffer <->
  generateWorkbook_try xlsx_load xlsx_writeBuffer jsonData mappingConfig tableConfigs
    templateBuffer options = inr buffer.
Proof.
  unfold generateWorkbook_try, generation_completes. split.
  - intros (wb0 & wb1 & wb2 & H0 & H1 & H2 & H3).
    rewrite H0; simpl. rewrite H1; simpl. rewrite H2; simpl. exact H3.
  - intros H.
    apply bind_inr_inv in H as (wb0 & H0 & H).
    apply bind_inr_inv in H as (wb1 & H1 & H).
    apply bind_inr_inv in H as (wb2 & H2 & H3).
    now exists wb0, wb1, wb2.
Qed.

(** C8.  An exception raised in the template load, the mapping loop, the
    table loop or the serialisation makes [generateWorkbook] throw one
    generation failure whose message is the fixed prefix followed by the
    message of the original error (or by "Unknown error" when the thrown
    value is not an error object); every failure of [generateWorkbook]
    is of this form; and a buffer is returned only when every stage
    completed, never together with a failure. *)
Theorem generateWorkbook_failure :
  let outcome :=
    generateWorkbook xlsx_load xlsx_writeBuffer jsonData mappingConfig tableConfigs
      templateBuffer options in
  (forall e,
      raised e ->
      outcome =
      inl (JsError ("Failed to generate Excel workbook: " ++ message_or "Unknown error" e)))
  /\ (forall message,
         raised (JsError message) ->
         outcome = inl (JsError ("Failed to generate Excel workbook: " ++ message)))
  /\ (forall failure,
         outcome = inl failure ->
         exists e,
           raised e
           /\ failure =
              JsError ("Failed to generate Excel workbook: " ++ message_or "Unknown error" e))
  /\ (forall buffer, outcome = inr buffer <-> completes buffer)
  /\ (forall buffer e, outcome = inr buffer -> ~ raised e).
Proof.
  cbv zeta. unfold generateWorkbook.
  assert (Hraise : forall e,
             raised e ->
             try_catch
               (generateWorkbook_try xlsx_load xlsx_writeBuffer jsonData mappingConfig
                  tableConfigs templateBuffer options)
               (fun error => throw (generation_failure error)) =
             inl (generation_failure e)).
  { intros e He. apply generateWorkbook_try_raises in He. now rewrite He. }
  split; [exact Hraise|]. split; [intros m Hm; exact (Hraise _ Hm)|]. split; [|split].
  - intros failure.
    destruct (generateWorkbook_try _ _ _ _ _ _ _) as [e|buffer] eqn:Htry; simpl;
      [|discriminate].
    intros [= <-]. exists e. split; [|reflexivity].
    now apply generateWorkbook_try_raises.
  - intros buffer. rewrite generateWorkbook_try_completes.
    destruct (generateWorkbook_try _ _ _ _ _ _ _) as [e|b]; simpl; unfold throw;
      split; congruence.
  - intros buffer e Hok He. rewrite (Hraise e He) in Hok. discriminate.
Qed.


End AssemblerProperties.

(** ** Bulk generation *)

Section BulkProperties.

Variable xlsx_load : Buffer -> Result Excel.Workbook.
Variable xlsx_writeBuffer : Excel.Workbook -> Result Buffer.

Abbreviation generate := (generate_request xlsx_load xlsx_writeBuffer).
Abbreviation step := (bulk_step xlsx_load xlsx_writeBuffer).
Abbreviation outcomes := (bulk_outcomes xlsx_load xlsx_writeBuffer).

Lemma bulk_step_ret results errors request i :
  step (results, errors) request i =
  inr match generate request with
      | inr buffer => (push results (result_entry i request buffer), errors)
      | inl e => (results, push errors (error_entry i e))
      end.
Proof.
  unfold bulk_step. destruct (generate request); reflexivity.
Qed.

Lemma forEach_bulk_step requests : forall i results errors,
  forEach step requests i (results, errors) =
  inr ((results ++ fst (outcomes requests i))%list,
       (errors ++ snd (outcomes requests i))%list).
Proof.
  induction requests as [|request rest IH]; intros i results errors.
  - simpl. now rewrite !app_nil_r.
  - change (forEach step (request :: rest) i (results, errors))
      with (bind (step (results, errors) request i)
              (fun s' => forEach step rest (i + 1) s')).
    rewrite bulk_step_ret. simpl bind. simpl bulk_outcomes.
    destruct (outcomes rest (i + 1)) as [rs es] eqn:E.
    destruct (generate request) as [e|buffer]; rewrite IH, E; unfold push; simpl;
      now rewrite <- !app_assoc.
Qed.

Lemma bulk_outcomes_spec requests : forall i,
  let results := fst (outcomes requests i) in
  let errors := snd (outcomes requests i) in
  (length results + length errors = length requests)%nat
  /\ (forall (k : nat) request,
         requests !! k = Some request ->
         match generate request with
         | inr buffer => result_entry (i + Z.of_nat k) request buffer ∈ results
         | inl e => error_entry (i + Z.of_nat k) e ∈ errors
         end)
  /\ StronglySorted Z.lt (map result_index results)
  /\ StronglySorted Z.lt (map error_index errors)
  /\ Forall (fun r => i <= result_index r) results
  /\ Forall (fun r => i <= error_index r) errors.
Proof.
  induction requests as [|request rest IH]; intros i.
  - simpl. repeat split; try constructor. intros k request Hk. discriminate.
  - specialize (IH (i + 1)). cbv zeta in IH.
    destruct IH as (Hlen & Hall & Hsr & Hse & Hlr & Hle).
    simpl bulk_outcomes. destruct (outcomes rest (i + 1)) as [rs es].
    simpl fst in *. simpl snd in *.
    assert (Hmono_r : Forall (fun r => i <= result_index r) rs)
      by (eapply Forall_impl; [exact Hlr | simpl; intros; lia]).
    assert (Hmono_e : Forall (fun r => i <= error_index r) es)
      by (eapply Forall_impl; [exact Hle | simpl; intros; lia]).
    assert (Hother : forall (k : nat) request',
               rest !! k = Some request' ->
               match generate request' with
               | inr buffer => result_entry (i + Z.of_nat (S k)) request' buffer ∈ rs
               | inl e => error_entry (i + Z.of_nat (S k)) e ∈ es
               end).
    { intros k request' Hk. specialize (Hall k request' Hk).
      replace (i + Z.of_nat (S k)) with (i + 1 + Z.of_nat k) by lia. exact Hall. }
    destruct (generate request) as [e|buffer] eqn:Hgen; simpl fst; simpl snd.
    + split; [simpl; lia|]. split.
      { intros [|k] request' Hk.
        - injection Hk as <-. rewrite Hgen, Z.add_0_r. now left.
        - specialize (Hother k request' Hk).
          destruct (generate request'); [now right | assumption]. }
      split; [assumption|]. split.
      { simpl. constructor; [assumption|].
        apply List.Forall_map. eapply Forall_impl; [exact Hle | simpl; intros; lia]. }
      split; [assumption|]. constructor; [simpl; lia | assumption].
    + split; [simpl; lia|]. split.
      { intros [|k] request' Hk.
        - injection Hk as <-. rewrite Hgen, Z.add_0_r. now left.
        - specialize (Hother k request' Hk).
          destruct (generate request'); [assumption | now right]. }
      split.
      { simpl. constructor; [assumption|].
        apply List.Forall_map. eapply Forall_impl; [exact Hlr | simpl; intros; lia]. }
      split; [assumption|]. split; [|assumption].
      constructor; [simpl; lia | assumption].
Qed.

Lemma bulkGenerate_completes requests :
  requests <> [] ->
  bulkGenerate xlsx_load xlsx_writeBuffer (Some requests) =
  inr (Completed
         (fst (outcomes requests 0)) (snd (outcomes requests 0))
         {| total := Z.of_nat (length requests);
            successful := Z.of_nat (length (fst (outcomes requests 0)));
            failed := Z.of_nat (length (snd (outcomes requests 0))) |}).
Proof.
  intros Hne. unfold bulkGenerate.
  destruct requests as [|request rest]; [congruence|].
  rewrite forEach_bulk_step. reflexivity.
Qed.

(** C6.  For a non-empty array, [bulkGenerate] always answers with the
    completed response, whatever the single generations do: every
    request, at its index, has one entry, in [results] when its
    generation returned a buffer and in [errors] when it threw; there
    are as many entries as requests; and both lists are in strictly
    increasing index order.  With three requests of which only the one
    at index 1 fails, [results] has 2 entries, [errors] has 1 and
    [errors[0].index] is 1. *)
Theorem bulkGenerate_isolates_failures :
  (forall requests,
      requests <> [] ->
      exists results errors,
        bulkGenerate xlsx_load xlsx_writeBuffer (Some requests) =
        inr (Completed results errors
               {| total := Z.of_nat (length requests);
                  successful := Z.of_nat (length results);
                  failed := Z.of_nat (length errors) |})
        /\ (length results + length errors = length requests)%nat
        /\ (forall (i : nat) request,
               requests !! i = Some request ->
               match generate request with
               | inr buffer => result_entry (Z.of_nat i) request buffer ∈ results
               | inl e => error_entry (Z.of_nat i) e ∈ errors
               end)
        /\ StronglySorted Z.lt (map result_index results)
        /\ StronglySorted Z.lt (map error_index errors))
  /\ (forall request0 request1 request2 buffer0 e1 buffer2,
         generate request0 = inr buffer0 ->
         generate request1 = inl e1 ->
         generate request2 = inr buffer2 ->
         exists results errors summary,
           bulkGenerate xlsx_load xlsx_writeBuffer (Some [request0; request1; request2]) =
           inr (Completed results errors summary)
           /\ length results = 2%nat
           /\ length errors = 1%nat
           /\ map error_index errors = [1]
           /\ map result_index results = [0; 2]
           /\ summary = {| total := 3; successful := 2; failed := 1 |}).
Proof.
  split.
  - intros requests Hne.
    exists (fst (outcomes requests 0)), (snd (outcomes requests 0)).
    split; [now apply bulkGenerate_completes|].
    destruct (bulk_outcomes_spec requests 0) as (Hlen & Hall & Hsr & Hse & _ & _).
    repeat split; assumption.
  - intros request0 request1 request2 buffer0 e1 buffer2 H0 H1 H2.
    eexists _, _, _. split; [now apply bulkGenerate_completes|].
    simpl. rewrite H0, H1, H2. simpl. repeat split.
Qed.

End BulkProperties.

(* ===================================================================== *)
(** * Further properties *)
(* ===================================================================== *)

(** ** Field resolution *)

Lemma split_dot_append p q :
  split_dot (p ++ "." ++ q) = (split_dot p ++ split_dot q)%list.
Proof.
  induction p as [|c p IH].
  - reflexivity.
  - rewrite append_cons. simpl. rewrite IH.
    destruct (Ascii.eqb c "."); [reflexivity|].
    pose proof (split_dot_nonempty p) as Hne.
    destruct (split_dot p) as [|piece pieces]; [congruence | reflexivity].
Qed.

Lemma getNestedValue_append obj p q :
  getNestedValue obj (p ++ "." ++ q) = getNestedValue (getNestedValue obj p) q.
Proof. unfold getNestedValue. rewrite split_dot_append. apply fold_left_app. Qed.

(** X1.  Resolution composes along the dots of a path: resolving
    [p + "." + q] is resolving [q] in what [p] resolves to, whatever the
    document and whatever dots [p] and [q] hold themselves. *)
Theorem getNestedValue_composes :
  forall obj p q,
    getNestedValue obj (p ++ "." ++ q) = getNestedValue (getNestedValue obj p) q.
Proof. exact getNestedValue_append. Qed.

(** X2.  Resolution never yields [undefined], so the mapping loop never
    stores [null] or [undefined] in a cell: without a formula the cell
    holds a value that is neither, with a formula the cached result is a
    truthy value or the number 0. *)
Theorem mapped_value_never_null :
  forall obj path formula,
    getNestedValue obj path <> VUndefined
    /\ match mapped_value formula (getNestedValue obj path) with
       | Excel.Plain v => v <> VNull /\ v <> VUndefined
       | Excel.Formula _ result => truthy result = true \/ result = VNum 0
       end.
Proof.
  intros obj path formula.
  pose proof (getNestedValue_defined obj path) as Hdef.
  split; [exact Hdef|].
  unfold mapped_value, js_or.
  destruct (truthy_string formula).
  - destruct (truthy (getNestedValue obj path)) eqn:Ht; [now left | now right].
  - destruct (getNestedValue obj path); split; congruence.
Qed.

Lemma number_to_string_parse n :
  0 <= n ->
  exists u, NilZero.uint_of_string (number_to_string n) = Some u /\ Z.of_uint u = n.
Proof.
  intros Hn. unfold number_to_string.
  destruct n as [|p|p]; [now eexists | | lia].
  exists (Pos.to_uint p). split.
  - simpl. apply NilZero.usu. apply Unsigned.to_uint_nonnil.
  - unfold Z.of_uint. now rewrite DecimalPos.Unsigned.of_to.
Qed.

Lemma array_index_number_to_string n :
  0 <= n -> array_index (number_to_string n) = Some n.
Proof.
  intros Hn. unfold array_index.
  destruct (number_to_string_parse n Hn) as (u & -> & Hu).
  cbv zeta. rewrite Hu, String.eqb_refl. reflexivity.
Qed.

Lemma digits_dot_free s : string_forall is_digit s = true -> dot_free s = true.
Proof.
  unfold dot_free. induction s as [|c s IH]; [reflexivity|].
  simpl. intros H. apply andb_prop in H as [Hc Hs]. rewrite (IH Hs), andb_true_r.
  destruct (Ascii.eqb_spec c "."); [subst; discriminate | reflexivity].
Qed.

Lemma digits_not_length s :
  s <> "" -> string_forall is_digit s = true -> String.eqb s "length" = false.
Proof.
  destruct s as [|c s]; [congruence|]. intros _ H. simpl in H.
  apply andb_prop in H as [Hc _].
  apply String.eqb_neq. intros [= -> _]. discriminate.
Qed.

Lemma get_member_array_element items (i : nat) :
  get_member (VArr items) (number_to_string (Z.of_nat i)) =
  match items !! i with
  | Some v => v
  | None => default VUndefined
              (inherited_member (VArr items) (number_to_string (Z.of_nat i)))
  end.
Proof.
  destruct (number_to_string_spec (Z.of_nat i) ltac:(lia)) as (Hne & Hdig & _).
  unfold get_member. simpl own_member.
  rewrite (digits_not_length _ Hne Hdig).
  rewrite array_index_number_to_string by lia.
  rewrite lookup_Z_of_nat. now destruct (items !! i).
Qed.

(** X3.  Resolution steps into arrays: after a path that resolves to an
    array, a segment that is the decimal numeral of an index yields the
    element at that index, and the segment [length] yields the number of
    elements. *)
Theorem getNestedValue_array_element :
  forall obj p items (i : nat) v,
    getNestedValue obj p = VArr items ->
    items !! i = Some v -> v <> VUndefined ->
    getNestedValue obj (p ++ "." ++ number_to_string (Z.of_nat i)) = v
    /\ getNestedValue obj (p ++ "." ++ "length") = VNum (Z.of_nat (length items)).
Proof.
  intros obj p items i v Hp Hi Hv. rewrite !getNestedValue_append, Hp. split.
  - destruct (number_to_string_spec (Z.of_nat i) ltac:(lia)) as (_ & Hdig & _).
    unfold getNestedValue. rewrite (split_dot_dot_free _ (digits_dot_free _ Hdig)).
    simpl.
    rewrite (getNestedValue_step_found (VArr items)); [| reflexivity |];
      rewrite get_member_array_element, Hi; [reflexivity | assumption].
  - reflexivity.
Qed.

(** ** Column letters *)

(** X4.  [numberToColumnLetter] returns a column name, one or more
    letters A-Z, exactly for the positive numbers; for zero and for a
    negative number it returns the empty string. *)
Theorem numberToColumnLetter_names :
  forall num,
    is_column_name (numberToColumnLetter num) = (0 <? num)%Z
    /\ (numberToColumnLetter num = "" <-> num <= 0).
Proof.
  intros num. destruct (Z.ltb_spec 0 num) as [Hpos|Hnonpos].
  - pose proof (numberToColumnLetter_is_column_name num Hpos) as Hname.
    split; [exact Hname|]. split; [|lia].
    intros Hempty. rewrite Hempty in Hname. discriminate.
  - unfold numberToColumnLetter.
    rewrite (numberToColumnLetter_loop_nonpos num "" Hnonpos).
    split; [reflexivity|]. split; [lia | reflexivity].
Qed.

(** ** Cell styling and formatting *)

Lemma spread_no_font f : Excel.spread f Excel.no_font = f.
Proof. now destruct f. Qed.

Lemma font_applyCellStyle cell style :
  Excel.font (applyCellStyle cell (Some style)) =
  Excel.spread (Excel.font cell)
    {| Excel.color :=
         if truthy_string (MappingConfig.fontColor style)
         then Some ("FF" ++ default "" (MappingConfig.fontColor style)) else None;
       Excel.size :=
         if truthy_number (MappingConfig.fontSize style)
         then MappingConfig.fontSize style else None;
       Excel.bold :=
         if truthy_bool (MappingConfig.bold style) then Some true else None;
       Excel.italic :=
         if truthy_bool (MappingConfig.italic style) then Some true else None;
       Excel.underline :=
         if truthy_bool (MappingConfig.underline style) then Some true else None |}.
Proof.
  unfold applyCellStyle.
  destruct (truthy_string (MappingConfig.fontColor style));
    destruct (truthy_number (MappingConfig.fontSize style)) eqn:Hsize;
    [ destruct (MappingConfig.fontSize style); [|discriminate] | |
      destruct (MappingConfig.fontSize style); [|discriminate] | ];
    destruct (truthy_bool (MappingConfig.bold style));
    destruct (truthy_bool (MappingConfig.italic style));
    destruct (truthy_bool (MappingConfig.underline style));
    destruct (truthy_string (MappingConfig.bgColor style));
    simpl; try reflexivity; now destruct (Excel.font cell).
Qed.

(** X5.  A style is merged into the cell: the value and the number format
    stay, the fill is replaced only by a non-empty background colour, and
    each font attribute is replaced only by a truthy one of the style.
    So a style never removes an attribute: [bold: false] leaves a bold
    cell bold, a font size 0 or an empty colour leaves the old one. *)
Theorem applyCellStyle_merges :
  forall cell style,
    let cell' := applyCellStyle cell (Some style) in
    let old := Excel.font cell in
    applyCellStyle cell None = cell
    /\ Excel.value cell' = Excel.value cell
    /\ Excel.numFmt cell' = Excel.numFmt cell
    /\ Excel.fill cell' =
       (if truthy_string (MappingConfig.bgColor style)
        then Some (solid_fill (default "" (MappingConfig.bgColor style)))
        else Excel.fill cell)
    /\ Excel.color (Excel.font cell') =
       (if truthy_string (MappingConfig.fontColor style)
        then Some ("FF" ++ default "" (MappingConfig.fontColor style))
        else Excel.color old)
    /\ Excel.size (Excel.font cell') =
       (if truthy_number (MappingConfig.fontSize style)
        then MappingConfig.fontSize style
        else Excel.size old)
    /\ Excel.bold (Excel.font cell') =
       (if truthy_bool (MappingConfig.bold style) then Some true else Excel.bold old)
    /\ Excel.italic (Excel.font cell') =
       (if truthy_bool (MappingConfig.italic style) then Some true else Excel.italic old)
    /\ Excel.underline (Excel.font cell') =
       (if truthy_bool (MappingConfig.underline style)
        then Some true else Excel.underline old).
Proof.
  intros cell style cell' old. unfold cell', old.
  split; [reflexivity|].
  split; [apply value_applyCellStyle|].
  split.
  { unfold applyCellStyle.
    destruct (has_keys _); destruct (truthy_string (MappingConfig.bgColor style));
      reflexivity. }
  split.
  { unfold applyCellStyle.
    destruct (has_keys _); destruct (truthy_string (MappingConfig.bgColor style));
      reflexivity. }
  rewrite font_applyCellStyle. unfold Excel.spread. simpl.
  destruct (truthy_string (MappingConfig.fontColor style));
    destruct (truthy_number (MappingConfig.fontSize style)) eqn:Hsize;
    [ destruct (MappingConfig.fontSize style); [|discriminate] | |
      destruct (MappingConfig.fontSize style); [|discriminate] | ];
    destruct (truthy_bool (MappingConfig.bold style));
    destruct (truthy_bool (MappingConfig.italic style));
    destruct (truthy_bool (MappingConfig.underline style));
    repeat split.
Qed.

Lemma toLowerCase_not_keyword_cases lower :
  ~ In lower format_keywords <->
  String.eqb lower "currency" = false /\ String.eqb lower "percentage" = false
  /\ String.eqb lower "date" = false /\ String.eqb lower "datetime" = false
  /\ String.eqb lower "number" = false /\ String.eqb lower "integer" = false.
Proof.
  unfold format_keywords. simpl. rewrite !String.eqb_neq. intuition congruence.
Qed.

Lemma truthy_string_nonempty s : s <> "" -> truthy_string (Some s) = true.
Proof. intros Hs. simpl. apply negb_true_iff. now apply String.eqb_neq. Qed.

(** Two spellings of a format name give the same cell. *)
Lemma applyCellFormat_lower cell format other :
  format <> "" -> other <> "" ->
  toLowerCase other = toLowerCase format ->
  In (toLowerCase format) format_keywords ->
  applyCellFormat cell (Some other) = applyCellFormat cell (Some format).
Proof.
  intros Hf Ho Hlower Hin. unfold applyCellFormat.
  rewrite (truthy_string_nonempty _ Hf), (truthy_string_nonempty _ Ho).
  simpl. rewrite Hlower.
  unfold format_keywords in Hin. simpl in Hin.
  destruct Hin as [H|[H|[H|[H|[H|[H|[]]]]]]]; rewrite <- H; reflexivity.
Qed.

(** What [applyCellFormat] does with a non-empty format, by its lower-case
    form. *)
Lemma applyCellFormat_code cell format :
  format <> "" ->
  exists code,
    applyCellFormat cell (Some format) = Excel.set_numFmt code cell
    /\ code <> ""
    /\ ~ In (toLowerCase code) format_keywords
    /\ (~ In (toLowerCase format) format_keywords -> code = format).
Proof.
  intros Hne. unfold applyCellFormat.
  rewrite (truthy_string_nonempty format Hne). simpl.
  destruct (String.eqb (toLowerCase format) "currency") eqn:E1;
    [|destruct (String.eqb (toLowerCase format) "percentage") eqn:E2;
      [|destruct (String.eqb (toLowerCase format) "date") eqn:E3;
        [|destruct (String.eqb (toLowerCase format) "datetime") eqn:E4;
          [|destruct (String.eqb (toLowerCase format) "number") eqn:E5;
            [|destruct (String.eqb (toLowerCase format) "integer") eqn:E6]]]]];
    eexists; (split; [reflexivity|]).
  1-6: split; [discriminate|]; split; [vm_compute; intuition discriminate|];
       intros Hnot; exfalso; apply Hnot;
       match goal with E : String.eqb _ _ = true |- _ =>
         apply String.eqb_eq in E; rewrite E end;
       unfold format_keywords; simpl; tauto.
  split; [assumption|].
  split; [apply toLowerCase_not_keyword_cases; tauto | reflexivity].
Qed.

(** X6.  A non-empty format changes the number format of the cell and
    nothing else.  The six format names are recognised in any mix of upper
    and lower case, any other string is taken as the format code itself,
    and the code the cell ends up with is never one of the names: applying
    it as a format again leaves the cell as it is. *)
Theorem applyCellFormat_codes :
  forall cell format,
    format <> "" ->
    let cell' := applyCellFormat cell (Some format) in
    Excel.value cell' = Excel.value cell
    /\ Excel.fill cell' = Excel.fill cell
    /\ Excel.font cell' = Excel.font cell
    /\ (forall other,
           other <> "" -> toLowerCase other = toLowerCase format ->
           In (toLowerCase format) format_keywords ->
           applyCellFormat cell (Some other) = cell')
    /\ (~ In (toLowerCase format) format_keywords -> Excel.numFmt cell' = Some format)
    /\ exists code,
         Excel.numFmt cell' = Some code
         /\ ~ In (toLowerCase code) format_keywords
         /\ applyCellFormat cell' (Some code) = cell'.
Proof.
  intros cell format Hne cell'. unfold cell'.
  split; [apply value_applyCellFormat|].
  destruct (applyCellFormat_code cell format Hne)
    as (code & Hrun & Hcode_ne & Hcode & Hverbatim).
  split; [now rewrite Hrun|]. split; [now rewrite Hrun|].
  split; [intros other Ho Hlower Hin; now apply applyCellFormat_lower|].
  split; [intros Hnot; now rewrite Hrun, (Hverbatim Hnot)|].
  exists code. split; [now rewrite Hrun|]. split; [exact Hcode|].
  rewrite Hrun.
  destruct (applyCellFormat_code (Excel.set_numFmt code cell) code Hcode_ne)
    as (code2 & -> & _ & _ & Hsame).
  now rewrite (Hsame Hcode).
Qed.

(** ** The outcomes of the table builder *)

Lemma write_row_ret_general cfg startRow startCol ws row rowIndex :
  row <> VNull ->
  0 <= startRow -> 0 <= rowIndex -> startRow + rowIndex + 1 <= 2 ^ 52 ->
  1 <= startCol ->
  startCol + Z.of_nat (length (TableConfig.columns cfg)) - 1 <= 16384 ->
  write_row cfg startRow startCol ws row rowIndex =
  ret (written_row cfg startRow startCol ws row rowIndex).
Proof.
  intros Hrow Hr Hi Hb Hc Hw.
  assert (Hcase : row = VUndefined \/ nullish row = false)
    by (destruct row; auto; congruence).
  destruct Hcase as [-> | Hn]; [reflexivity | now apply write_row_ret].
Qed.

(** Without columns the row loop looks at no cell and reads no member. *)
Lemma write_row_no_columns cfg startRow startCol ws row rowIndex :
  TableConfig.columns cfg = [] ->
  write_row cfg startRow startCol ws row rowIndex = ret ws.
Proof.
  intros Hcols. unfold write_row. rewrite Hcols.
  destruct row; try reflexivity.
  rewrite (forEach_ret_index _ (fun s _ _ => s)).
  - f_equal. now apply (forEach_pure_preserves (fun s => s)).
  - intros s x i Hi _. unfold write_array_cell. rewrite Hcols. simpl.
    change (Z.of_nat 0) with 0.
    destruct (Z.ltb_spec i 0); [lia | reflexivity].
Qed.

Lemma table_row_no_columns cfg row :
  TableConfig.columns cfg = [] ->
  table_row cfg row = ret (table_row_pure cfg row).
Proof.
  intros Hcols. unfold table_row, table_row_pure. rewrite Hcols. now destruct row.
Qed.

(** The table builder on a data set that is not empty. *)
Lemma createTable_proceeds worksheet tableConfig tableData :
  table_data_empty tableData = false ->
  createTable worksheet tableConfig tableData =
  match match_cell_ref (TableConfig.startCell tableConfig) with
  | None => throw (JsError ("Invalid start cell: " ++ TableConfig.startCell tableConfig))
  | Some (letters, digits) =>
      let startCol := columnLetterToNumber letters in
      let startRow := parseInt digits in
      let* worksheet :=
        forEach (write_header tableConfig startRow startCol)
                (TableConfig.columns tableConfig) 0 worksheet in
      let* rows := as_array tableData in
      let* worksheet :=
        forEach (write_row tableConfig startRow startCol) rows 0 worksheet in
      let* table_rows := mapM (table_row tableConfig) rows in
      Excel.addTable
        {| Excel.name := TableConfig.tableName tableConfig;
           Excel.ref :=
             TableConfig.startCell tableConfig ++ ":" ++
             numberToColumnLetter
               (JsNumber.sub
                  (JsNumber.add startCol
                     (Z.of_nat (length (TableConfig.columns tableConfig))))
                  1) ++
             number_to_string (JsNumber.add startRow (Z.of_nat (length rows)));
           Excel.headerRow := true;
           Excel.theme := "TableStyleMedium9";
           Excel.showRowStripes := true;
           Excel.columns := TableConfig.columns tableConfig;
           Excel.rows := table_rows |}
        worksheet
  end.
Proof.
  intros H. unfold createTable. unfold table_data_empty in H. rewrite H.
  destruct (match_cell_ref (TableConfig.startCell tableConfig)) as [[letters digits]|];
    reflexivity.
Qed.

(** The header loop on the grid. *)
Lemma write_headers_ret cfg startRow startCol ws :
  0 <= startRow <= 2 ^ 52 -> 1 <= startCol ->
  startCol + Z.of_nat (length (TableConfig.columns cfg)) - 1 <= 16384 ->
  forEach (write_header cfg startRow startCol) (TableConfig.columns cfg) 0 ws =
  ret (forEach_pure (written_header cfg startRow startCol) (TableConfig.columns cfg) 0 ws).
Proof.
  intros Hr Hc Hw. apply forEach_ret_index.
  intros s x i Hi _. apply write_header_ret; lia.
Qed.

Lemma forEach_write_row_null cfg startRow startCol column rest rows :
  TableConfig.columns cfg = column :: rest -> In VNull rows ->
  0 <= startRow -> 1 <= startCol ->
  startCol + Z.of_nat (length (TableConfig.columns cfg)) - 1 <= 16384 ->
  forall i ws,
    0 <= i -> startRow + i + Z.of_nat (length rows) <= 2 ^ 52 ->
    forEach (write_row cfg startRow startCol) rows i ws = inl (null_read_error column).
Proof.
  intros Hcols Hin Hr Hc Hw.
  induction rows as [|row rows IH]; intros i ws Hi Hb; [destruct Hin|].
  simpl length in Hb.
  change (forEach (write_row cfg startRow startCol) (row :: rows) i ws)
    with (bind (write_row cfg startRow startCol ws row i)
            (fun s' => forEach (write_row cfg startRow startCol) rows (i + 1) s')).
  assert (Hcase : row = VNull \/ row <> VNull)
    by (destruct row; auto; right; discriminate).
  destruct Hcase as [-> | Hrow].
  - unfold write_row. simpl. rewrite Hcols. simpl. unfold write_object_cell at 1.
    rewrite (add_exact startRow i), (add_exact (startRow + i) 1), (add_exact startCol 0)
      by (powers; lia).
    rewrite cell_at_ret by (rewrite ?Hcols in *; simpl in *; powers; lia).
    reflexivity.
  - rewrite write_row_ret_general by (assumption || (powers; lia)). simpl.
    apply IH; [| lia | lia].
    destruct Hin as [Hin|Hin]; [congruence | assumption].
Qed.

Lemma mapM_table_row_undefined cfg column rest rows :
  TableConfig.columns cfg = column :: rest ->
  ~ In VNull rows -> In VUndefined rows ->
  mapM (table_row cfg) rows = inl (undefined_read_error column).
Proof.
  intros Hcols. induction rows as [|row rows IH]; intros Hnull Hin; [destruct Hin|].
  simpl.
  assert (Hcase : row = VUndefined \/ nullish row = false).
  { destruct row; auto. exfalso. apply Hnull. now left. }
  destruct Hcase as [-> | Hrow].
  - unfold table_row. rewrite Hcols. reflexivity.
  - rewrite table_row_ret by assumption. simpl.
    rewrite IH; [reflexivity | |].
    + intros H. apply Hnull. now right.
    + destruct Hin as [Hin|Hin]; [subst; discriminate | assumption].
Qed.

(** The store of a row of values that is longer than the columns: the
    values go into the cells, the first one beyond the columns included,
    and reading the style of its column throws. *)
Lemma store_data_long t r c data : forall j ws,
  1 <= c -> c + Z.of_nat (length (Excel.columns t)) <= 16384 ->
  0 <= j <= Z.of_nat (length (Excel.columns t)) ->
  Z.of_nat (length (Excel.columns t)) < j + Z.of_nat (length data) ->
  forEach (Excel.store_data_cell t r c) data j ws = inl style_read_error.
Proof.
  induction data as [|v data IH]; intros j ws Hc Hw Hj Hlong; [simpl in Hlong; lia|].
  simpl length in Hlong. simpl. unfold Excel.store_data_cell at 1.
  rewrite (add_exact c j) by (powers; lia). rewrite store_value_ret by lia. simpl.
  destruct (Z.ltb_spec j (Z.of_nat (length (Excel.columns t)))).
  - simpl. apply IH; lia.
  - reflexivity.
Qed.

Lemma store_rows_long t r c rows : forall i ws,
  Exists (fun data => (length (Excel.columns t) < length data)%nat) rows ->
  0 <= r -> 0 <= i -> r + 1 + i + Z.of_nat (length rows) <= 2 ^ 52 ->
  1 <= c -> c + Z.of_nat (length (Excel.columns t)) <= 16384 ->
  forEach
    (fun ws data i => forEach (Excel.store_data_cell t (JsNumber.add r (1 + i)) c) data 0 ws)
    rows i ws = inl style_read_error.
Proof.
  induction rows as [|data rows IH]; intros i ws Hex Hr Hi Hb Hc Hw.
  - inversion Hex.
  - simpl length in Hb. simpl.
    destruct (Nat.ltb_spec (length (Excel.columns t)) (length data)) as [Hlong|Hfit].
    + rewrite store_data_long by lia. reflexivity.
    + rewrite (forEach_ret_index _ (stored_data_cell (r + (1 + i)) c)).
      2:{ intros s v j Hj _. unfold Excel.store_data_cell, stored_data_cell.
          rewrite (add_exact r (1 + i)), (add_exact c j) by (powers; lia).
          rewrite store_value_ret by lia. simpl.
          destruct (Z.ltb_spec j (Z.of_nat (length (Excel.columns t))));
            [reflexivity | lia]. }
      simpl. apply IH; try lia.
      inversion Hex as [? ? Hhead | ? ? Htail]; subst; [lia | assumption].
Qed.

(** A table with a row that is too long is validated and then fails in
    its store. *)
Lemma addTable_long_row t ws letters digits rest :
  Excel.ref t = letters ++ digits ++ rest ->
  is_column_name letters = true ->
  digits <> "" -> string_forall is_digit digits = true ->
  ends_reference rest = true ->
  Excel.headerRow t = true ->
  1 <= digits_value digits ->
  digits_value digits + 1 + Z.of_nat (length (Excel.rows t)) <= 2 ^ 52 ->
  1 <= column_value letters + Z.of_nat (length (Excel.columns t)) - 1 ->
  column_value letters + Z.of_nat (length (Excel.columns t)) <= 16384 ->
  Forall (fun column => column <> "") (Excel.columns t) ->
  Exists (fun data => (length (Excel.columns t) < length data)%nat) (Excel.rows t) ->
  Excel.addTable t ws = inl style_read_error.
Proof.
  intros Href Hname Hne Hd Hrest Hheader Hrow Hb Hfirst Hlast Hnames Hlong.
  pose proof (column_value_pos letters Hname) as Hpos.
  unfold Excel.addTable.
  rewrite (validate_table_ret t letters digits rest) by (assumption || lia).
  simpl. unfold Excel.store_table. rewrite Hheader.
  rewrite (forEach_ret_index _ (stored_header (digits_value digits) (column_value letters))).
  2:{ intros s x j Hj _. unfold stored_header.
      rewrite add_exact by (powers; lia). now rewrite store_value_ret by lia. }
  simpl. rewrite store_rows_long by (assumption || lia). reflexivity.
Qed.

Lemma row_fits_false tableConfig rows :
  Exists (fun row => row_fits tableConfig row = false) rows ->
  Exists (fun data => (length (TableConfig.columns tableConfig) < length data)%nat)
    (map (table_row_pure tableConfig) rows).
Proof.
  intros Hex. apply List.Exists_exists in Hex as (row & Hin & Hrow).
  apply List.Exists_exists. exists (table_row_pure tableConfig row).
  split; [now apply in_map|].
  unfold row_fits in Hrow. destruct row; try discriminate.
  simpl. now apply Nat.leb_gt.
Qed.

(** X7.  What [createTable] does, case by case.  On a data set that is
    absent or empty it returns the worksheet as it is, without looking at
    the start cell.  Otherwise a start cell that does not match the
    pattern is an "Invalid start cell" error.  For a start cell that
    matches and a table on the grid of the sheet: data that is not an
    array is a [TypeError]; with at least one column, a [null] row is a
    [TypeError] of the row loop and an [undefined] row one of the rows
    handed to [addTable]; a value list that is longer than the columns
    passes the row loop, which leaves its last values out, and makes
    [addTable] throw a [TypeError]; and when the columns have names, no
    row is [null] or [undefined] and every value list fits the columns,
    [createTable] completes. *)
Theorem createTable_outcomes :
  forall worksheet tableConfig tableData,
    let startCell := TableConfig.startCell tableConfig in
    let columns := TableConfig.columns tableConfig in
    let outcome := createTable worksheet tableConfig tableData in
    (table_data_empty tableData = true -> outcome = inr worksheet)
    /\ (table_data_empty tableData = false ->
        (match_cell_ref startCell = None ->
         outcome = inl (JsError ("Invalid start cell: " ++ startCell)))
        /\ (forall letters digits,
               match_cell_ref startCell = Some (letters, digits) ->
               let startRow := parseInt digits in
               let startCol := columnLetterToNumber letters in
               ((forall rows, tableData <> VArr rows) ->
                on_grid startRow startCol (length columns) 0 ->
                outcome = inl (JsError "tableData.forEach is not a function"))
               /\ (forall rows,
                      tableData = VArr rows ->
                      on_grid startRow startCol (length columns) (length rows) ->
                      (forall column rest,
                          columns = column :: rest -> In VNull rows ->
                          outcome = inl (null_read_error column))
                      /\ (forall column rest,
                             columns = column :: rest ->
                             ~ In VNull rows -> In VUndefined rows ->
                             outcome = inl (undefined_read_error column))
                      /\ (Forall (fun column => column <> "") columns ->
                          Forall (fun row => nullish row = false) rows ->
                          Exists (fun row => row_fits tableConfig row = false) rows ->
                          startCol + Z.of_nat (length columns) <= 16384 ->
                          outcome = inl style_read_error)
                      /\ (Forall (fun column => column <> "") columns ->
                          Forall (fun row => nullish row = false) rows ->
                          Forall (fun row => row_fits tableConfig row = true) rows ->
                          exists worksheet', outcome = inr worksheet')))).
Proof.
  intros worksheet tableConfig tableData startCell columns outcome.
  unfold outcome, startCell, columns. split.
  - intros Hempty. unfold createTable. unfold table_data_empty in Hempty.
    now rewrite Hempty.
  - intros Hdata. split.
    + intros Href. now rewrite (createTable_proceeds _ _ _ Hdata), Href.
    + intros letters digits Href.
      set (startRow := parseInt digits).
      set (startCol := columnLetterToNumber letters).
      pose proof Href as Hspec.
      apply match_cell_ref_spec in Hspec as (Hcell & Hname & Hdne & Hd).
      split.
      * intros Hnot Hgrid.
        destruct (on_grid_exact letters digits _ _ Hname Hd Hgrid) as [Hrow Hcol].
        destruct Hgrid as (Hr1 & Hr2 & Hc1 & Hc2).
        rewrite (createTable_proceeds _ _ _ Hdata), Href. cbv zeta.
        rewrite write_headers_ret by (unfold startRow, startCol in *; powers; lia).
        simpl. destruct tableData; try reflexivity.
        exfalso. now apply (Hnot items).
      * intros rows -> Hgrid.
        destruct (on_grid_exact letters digits _ _ Hname Hd Hgrid) as [Hrow Hcol].
        pose proof Hgrid as (Hr1 & Hr2 & Hc1 & Hc2).
        assert (Hne : rows <> []).
        { intros ->. unfold table_data_empty in Hdata. discriminate. }
        assert (Hstart :
                  createTable worksheet tableConfig (VArr rows) =
                  let* worksheet1 :=
                    forEach (write_row tableConfig startRow startCol) rows 0
                      (forEach_pure (written_header tableConfig startRow startCol)
                         (TableConfig.columns tableConfig) 0 worksheet) in
                  let* table_rows := mapM (table_row tableConfig) rows in
                  Excel.addTable
                    {| Excel.name := TableConfig.tableName tableConfig;
                       Excel.ref :=
                         TableConfig.startCell tableConfig ++ ":" ++
                         numberToColumnLetter
                           (startCol
                            + Z.of_nat (length (TableConfig.columns tableConfig)) - 1) ++
                         number_to_string (startRow + Z.of_nat (length rows));
                       Excel.headerRow := true;
                       Excel.theme := "TableStyleMedium9";
                       Excel.showRowStripes := true;
                       Excel.columns := TableConfig.columns tableConfig;
                       Excel.rows := table_rows |}
                    worksheet1).
        { rewrite (createTable_proceeds _ _ _ Hdata), Href. cbv zeta.
          rewrite write_headers_ret by (unfold startRow, startCol in *; powers; lia).
          simpl.
          fold startRow. fold startCol.
          rewrite (add_exact startCol), sub_exact, (add_exact startRow)
            by (powers; lia).
          reflexivity. }
        split; [|split; [|split]].
        -- intros column rest Hcols Hin. rewrite Hstart.
           rewrite (forEach_write_row_null _ _ _ column rest rows Hcols Hin)
             by (powers; lia).
           reflexivity.
        -- intros column rest Hcols Hnull Hin. rewrite Hstart.
           rewrite (forEach_ret_index _ (written_row tableConfig startRow startCol)).
           2:{ intros s x i Hi Hx. apply write_row_ret_general; try (powers; lia).
               intros ->. now apply Hnull. }
           simpl.
           now rewrite (mapM_table_row_undefined _ column rest rows Hcols Hnull Hin).
        -- intros Hnames Hrows Hlong Hlast. rewrite Hstart.
           rewrite (forEach_ret_index _ (written_row tableConfig startRow startCol)).
           2:{ intros s x i Hi Hx. apply write_row_ret; try (powers; lia).
               exact (proj1 (List.Forall_forall _ _) Hrows x Hx). }
           simpl.
           rewrite (mapM_ret _ (table_row_pure tableConfig)).
           2:{ intros x Hx. apply table_row_ret.
               exact (proj1 (List.Forall_forall _ _) Hrows x Hx). }
           simpl.
           apply (addTable_long_row _ _ letters digits
                    (":" ++
                     numberToColumnLetter
                       (startCol
                        + Z.of_nat (length (TableConfig.columns tableConfig)) - 1) ++
                     number_to_string (startRow + Z.of_nat (length rows))));
             simpl; try assumption; try reflexivity.
           ++ now rewrite Hcell, append_assoc.
           ++ unfold startRow in *. lia.
           ++ rewrite length_map. unfold startRow in *. powers. lia.
           ++ unfold startCol in *. lia.
           ++ unfold startCol in *. lia.
           ++ now apply row_fits_false.
        -- intros Hnames Hrows Hfit. eexists.
           exact (createTable_run worksheet tableConfig rows letters digits
                    Href Hne Hrows Hfit Hnames Hgrid).
Qed.

(** X8.  [createTable] keeps to its rectangle.  For a table on the grid
    whose columns have names, whose rows are not [null] or [undefined] and
    whose value lists fit the columns, the worksheet [createTable] returns
    has the name, the column widths, the frozen rows and the protection it
    had, the tables of other names it had, and outside the rows from the
    start row to [startRow + dataRows.length] and the columns from the
    start column to [startCol + columns.length - 1] every cell holds the
    value it held.  Cells are taken one by one here, as they are in a
    sheet without merged ranges. *)
Theorem createTable_stays_in_range :
  forall worksheet tableConfig rows letters digits,
    let startRow := parseInt digits in
    let startCol := columnLetterToNumber letters in
    let columns := TableConfig.columns tableConfig in
    match_cell_ref (TableConfig.startCell tableConfig) = Some (letters, digits) ->
    rows <> [] ->
    Forall (fun row => nullish row = false) rows ->
    Forall (fun row => row_fits tableConfig row = true) rows ->
    Forall (fun column => column <> "") columns ->
    on_grid startRow startCol (length columns) (length rows) ->
    exists worksheet',
      createTable worksheet tableConfig (VArr rows) = inr worksheet'
      /\ Excel.sheet_name worksheet' = Excel.sheet_name worksheet
      /\ Excel.widths worksheet' = Excel.widths worksheet
      /\ Excel.frozen_rows worksheet' = Excel.frozen_rows worksheet
      /\ Excel.protection worksheet' = Excel.protection worksheet
      /\ (forall name,
             name <> TableConfig.tableName tableConfig ->
             Excel.tables worksheet' !! name = Excel.tables worksheet !! name)
      /\ forall r c,
           r < startRow \/ startRow + Z.of_nat (length rows) < r
           \/ c < startCol \/ startCol + Z.of_nat (length columns) <= c ->
           Excel.value (Excel.getCell worksheet' (r, c)) =
           Excel.value (Excel.getCell worksheet (r, c)).
Proof.
  intros worksheet tableConfig rows letters digits startRow startCol columns
         Href Hne Hrows Hfit Hnames Hgrid.
  eexists. split.
  { exact (createTable_run worksheet tableConfig rows letters digits
             Href Hne Hrows Hfit Hnames Hgrid). }
  unfold built_table.
  split; [apply (stored_written_preserves Excel.sheet_name); reflexivity|].
  split; [apply (stored_written_preserves Excel.widths); reflexivity|].
  split; [apply (stored_written_preserves Excel.frozen_rows); reflexivity|].
  split; [apply (stored_written_preserves Excel.protection); reflexivity|].
  split.
  - intros name Hname.
    change (Excel.tables
              (built_table tableConfig (parseInt digits) (columnLetterToNumber letters)
                 rows worksheet) !! name = Excel.tables worksheet !! name).
    rewrite tables_built_table. now rewrite lookup_insert_ne by congruence.
  - intros r c Hout.
    change (Excel.value
              (Excel.getCell
                 (built_table tableConfig (parseInt digits) (columnLetterToNumber letters)
                    rows worksheet) (r, c)) =
            Excel.value (Excel.getCell worksheet (r, c))).
    now rewrite built_table_outside.
Qed.

Lemma fill_apply_row_color cfg rowIndex cell :
  Excel.fill (apply_row_color cfg rowIndex cell) =
  let rowBg := table_style cfg TableConfig.rowBgColor in
  let alt := table_style cfg TableConfig.alternateRowBgColor in
  if Z.even rowIndex
  then if truthy_string rowBg then Some (solid_fill (default "" rowBg))
       else Excel.fill cell
  else if truthy_string alt then Some (solid_fill (default "" alt))
       else if truthy_string rowBg then Some (solid_fill (default "" rowBg))
            else Excel.fill cell.
Proof.
  unfold apply_row_color, or_string. rewrite <- Zeven_mod. cbv zeta.
  destruct (truthy_string (table_style cfg TableConfig.rowBgColor)) eqn:Hrow;
    destruct (truthy_string (table_style cfg TableConfig.alternateRowBgColor)) eqn:Halt;
    destruct (Z.even rowIndex); simpl; rewrite ?Hrow, ?Halt; reflexivity.
Qed.



(** ** A table without columns *)

Lemma forEach_pure_same {A S} (l : list A) : forall i (s : S),
  forEach_pure (fun s _ _ => s) l i s = s.
Proof.
  induction l as [|x l IH]; intros i s; simpl; [reflexivity | apply IH].
Qed.

Lemma stored_rows_empty r c rows : forall i ws,
  Forall (fun data => data = []) rows ->
  forEach_pure
    (fun ws data i => forEach_pure (stored_data_cell (r + (1 + i)) c) data 0 ws)
    rows i ws = ws.
Proof.
  induction rows as [|data rows IH]; intros i ws Hrows; [reflexivity|].
  apply Forall_cons in Hrows as [-> Hrows]. simpl. now apply IH.
Qed.

Lemma table_rows_no_columns cfg rows :
  TableConfig.columns cfg = [] ->
  Forall (fun row => row_fits cfg row = true) rows ->
  Forall (fun data => data = []) (map (table_row_pure cfg) rows).
Proof.
  intros Hcols Hfit. apply List.Forall_forall. intros data Hin.
  apply in_map_iff in Hin as (row & <- & Hrow).
  pose proof (proj1 (List.Forall_forall _ _) Hfit row Hrow) as Hlen.
  cbv beta in Hlen. unfold row_fits in Hlen. unfold table_row_pure.
  rewrite Hcols in *. destruct row; try reflexivity.
  simpl in Hlen. apply Nat.leb_le in Hlen. destruct items; [reflexivity | simpl in Hlen; lia].
Qed.

Lemma validate_table_column_zero t letters digits rest :
  Excel.ref t = letters ++ digits ++ rest ->
  is_column_name letters = true ->
  digits <> "" -> string_forall is_digit digits = true ->
  ends_reference rest = true ->
  1 <= digits_value digits <= 2 ^ 52 ->
  column_value letters = 1 ->
  Excel.columns t = [] ->
  Excel.validate_table t = inl column_zero_error.
Proof.
  intros Href Hname Hne Hd Hrest Hrow Hcol Hcols.
  unfold Excel.validate_table. rewrite Href.
  assert (Hnonempty : String.eqb (letters ++ digits ++ rest) "" = false)
    by (destruct letters; [discriminate | reflexivity]).
  rewrite Hnonempty. simpl.
  rewrite decodeAddress_reference by (assumption || lia). simpl.
  destruct (Z.ltb_spec 0 (digits_value digits)); [|lia].
  destruct (Z.ltb_spec 0 (column_value letters)); [|lia]. simpl.
  rewrite n2l_ret by lia. simpl.
  rewrite Hcols, Hcol. reflexivity.
Qed.

(** The loops of [createTable] for a table without columns. *)
Lemma createTable_no_columns worksheet tableConfig rows letters digits :
  TableConfig.columns tableConfig = [] ->
  match_cell_ref (TableConfig.startCell tableConfig) = Some (letters, digits) ->
  rows <> [] ->
  1 <= parseInt digits -> parseInt digits + Z.of_nat (length rows) <= 1048576 ->
  1 <= columnLetterToNumber letters <= 16384 ->
  createTable worksheet tableConfig (VArr rows) =
  Excel.addTable
    (registered_table tableConfig (parseInt digits) (columnLetterToNumber letters) rows)
    worksheet.
Proof.
  intros Hcols Href Hne Hr1 Hr2 Hc.
  assert (Hdata : table_data_empty (VArr rows) = false)
    by (destruct rows; [congruence | reflexivity]).
  rewrite (createTable_proceeds _ _ _ Hdata), Href. cbv zeta.
  unfold registered_table. rewrite Hcols. simpl.
  rewrite (forEach_ret_index _ (fun s _ _ => s)).
  2:{ intros s x i _ _. now apply write_row_no_columns. }
  rewrite forEach_pure_same. simpl.
  rewrite (mapM_ret _ (table_row_pure tableConfig)).
  2:{ intros x _. now apply table_row_no_columns. }
  simpl.
  rewrite (add_exact (columnLetterToNumber letters)), sub_exact,
    (add_exact (parseInt digits)) by (simpl; powers; lia).
  reflexivity.
Qed.

(** X11.  A table without columns.  With an empty column list and a
    non-empty data set on the grid, the loops of [createTable] write no
    cell and read no row, a [null] row included, and what happens is up to
    [addTable].  For a start cell in column A the range would end in
    column 0, and [addTable] throws; so does it, right of column A, for a
    value list that is not empty, after the first value is put in its
    cell.  Otherwise [createTable] completes: no cell has changed, and
    the table is registered with a range that ends in the column left of
    the start column and with a row without values for every data row. *)
Theorem createTable_without_columns :
  forall worksheet tableConfig rows letters digits,
    let startRow := parseInt digits in
    let startCol := columnLetterToNumber letters in
    TableConfig.columns tableConfig = [] ->
    match_cell_ref (TableConfig.startCell tableConfig) = Some (letters, digits) ->
    rows <> [] ->
    1 <= startRow -> startRow + Z.of_nat (length rows) <= 1048576 ->
    1 <= startCol <= 16384 ->
    (startCol = 1 ->
     createTable worksheet tableConfig (VArr rows) = inl column_zero_error)
    /\ (2 <= startCol ->
        Exists (fun row => row_fits tableConfig row = false) rows ->
        createTable worksheet tableConfig (VArr rows) = inl style_read_error)
    /\ (2 <= startCol ->
        Forall (fun row => row_fits tableConfig row = true) rows ->
        exists worksheet' table,
          createTable worksheet tableConfig (VArr rows) = inr worksheet'
          /\ (forall key, Excel.getCell worksheet' key = Excel.getCell worksheet key)
          /\ Excel.tables worksheet' !! TableConfig.tableName tableConfig = Some table
          /\ Excel.ref table =
             TableConfig.startCell tableConfig ++ ":" ++
             numberToColumnLetter (startCol - 1) ++
             number_to_string (startRow + Z.of_nat (length rows))
          /\ columnLetterToNumber (numberToColumnLetter (startCol - 1)) = startCol - 1
          /\ Excel.rows table = map (fun _ => []) rows).
Proof.
  intros worksheet tableConfig rows letters digits startRow startCol
         Hcols Href Hne Hr1 Hr2 Hc.
  pose proof Href as Hspec.
  apply match_cell_ref_spec in Hspec as (Hcell & Hname & Hdne & Hd).
  assert (Hrow : parseInt digits = digits_value digits)
    by (apply parseInt_exact; [assumption | unfold startRow in *; powers; lia]).
  assert (Hcol : columnLetterToNumber letters = column_value letters).
  { apply columnLetterToNumber_exact; [now apply is_column_name_upper|].
    unfold startCol in *. powers. lia. }
  rewrite (createTable_no_columns worksheet tableConfig rows letters digits)
    by assumption.
  set (table := registered_table tableConfig (parseInt digits)
                  (columnLetterToNumber letters) rows).
  assert (Hreft : Excel.ref table =
                  letters ++ digits ++
                  (":" ++
                   numberToColumnLetter
                     (columnLetterToNumber letters
                      + Z.of_nat (length (TableConfig.columns tableConfig)) - 1) ++
                   number_to_string (parseInt digits + Z.of_nat (length rows)))).
  { unfold table, registered_table. simpl. now rewrite Hcell, append_assoc. }
  assert (Hcolst : Excel.columns table = []) by exact Hcols.
  assert (Hlen : length (Excel.rows table) = length rows)
    by (unfold table, registered_table; simpl; apply length_map).
  unfold startRow, startCol in *.
  split; [|split].
  - intros Hone. unfold Excel.addTable.
    rewrite (validate_table_column_zero table letters digits _ Hreft);
      try assumption; try reflexivity; try (powers; lia).
  - intros Htwo Hlong.
    apply (addTable_long_row table worksheet letters digits _ Hreft);
      try assumption; try reflexivity; rewrite ?Hcolst, ?Hlen; simpl;
      try (powers; lia).
    + constructor.
    + pose proof (row_fits_false tableConfig rows Hlong) as H.
      now rewrite Hcols in H.
  - intros Htwo Hfit.
    pose proof (table_rows_no_columns tableConfig rows Hcols Hfit) as Hempty.
    exists (register table worksheet), table.
    split.
    { rewrite (addTable_ret table worksheet letters digits _ Hreft);
        try assumption; try reflexivity; rewrite ?Hcolst, ?Hlen; simpl;
        try (powers; lia).
      - unfold stored_table. rewrite Hcolst. simpl.
        now rewrite stored_rows_empty by exact Hempty.
      - constructor.
      - eapply List.Forall_impl; [|exact Hempty]. intros data ->. simpl. lia. }
    split; [intros key; apply getCell_register|].
    split.
    { simpl. unfold table at 1, registered_table at 1. simpl.
      apply lookup_insert_eq. }
    split.
    { unfold table, registered_table. simpl. rewrite Hcols. simpl.
      now replace (columnLetterToNumber letters + Z.of_nat 0 - 1)
        with (columnLetterToNumber letters - 1) by lia. }
    split.
    { apply columnLetterToNumber_numberToColumnLetter. powers. lia. }
    unfold table, registered_table. simpl.
    apply map_ext_in. intros row Hin.
    exact (proj1 (List.Forall_forall _ _) Hempty _ (in_map _ _ _ Hin)).
Qed.

(** ** The table stage of the assembler *)

Lemma table_data_of_member jsonData :
  nullish jsonData = false ->
  table_data_of jsonData = inr (get_member jsonData "tableData").
Proof.
  intros Hjson. unfold table_data_of.
  change (getNestedValue jsonData "tableData")
    with (getNestedValue_step jsonData "tableData").
  rewrite (member_ret _ _ Hjson). unfold getNestedValue_step.
  destruct (truthy jsonData && negb (is_undefined (get_member jsonData "tableData")));
    [|reflexivity].
  now destruct (truthy (get_member jsonData "tableData")).
Qed.

Lemma putWorksheet_same wb n ws :
  Excel.getWorksheet wb n = Some ws -> Excel.putWorksheet wb ws = wb.
Proof.
  induction wb as [|ws0 wb IH]; simpl; [discriminate|].
  destruct (String.eqb (Excel.sheet_name ws0) n) eqn:E.
  - intros [= ->]. now rewrite String.eqb_refl.
  - intros H. pose proof (getWorksheet_name _ _ _ H) as Hname. subst n.
    rewrite E. now rewrite (IH H).
Qed.

Lemma process_table_without_data jsonData workbook tableConfig :
  nullish jsonData = false ->
  table_data_empty (get_member jsonData "tableData") = true ->
  process_table jsonData workbook tableConfig = sheet_only workbook tableConfig.
Proof.
  intros Hjson Hempty. unfold process_table, sheet_only.
  destruct (ensure_sheet workbook (TableConfig.sheet tableConfig)) as [e|[wb ws]] eqn:E;
    [reflexivity|].
  simpl. rewrite (table_data_of_member _ Hjson). simpl.
  destruct (truthy (get_member jsonData "tableData")) eqn:Ht; [|reflexivity].
  unfold createTable. unfold table_data_empty in Hempty. rewrite Hempty. simpl.
  apply ensure_sheet_spec in E.
  now rewrite (putWorksheet_same _ _ _ E).
Qed.

(** X12.  The data of the tables.  For a document that is not [null] or
    [undefined], the data of every table is the member [tableData] of the
    document: the dotted-path lookup in front of it adds nothing.  When
    the document has no such member, or a falsy one, or an empty array,
    the table loop does nothing but look up or add the sheet of each
    table: it fails where that fails, and otherwise writes no header,
    registers no table and does not check the start cell, so an invalid
    start cell goes unnoticed. *)
Theorem tables_without_data :
  forall jsonData,
    nullish jsonData = false ->
    table_data_of jsonData = inr (get_member jsonData "tableData")
    /\ (table_data_empty (get_member jsonData "tableData") = true ->
        forall tableConfigs workbook,
          for_of (process_table jsonData) tableConfigs workbook =
          for_of sheet_only tableConfigs workbook).
Proof.
  intros jsonData Hjson. split; [now apply table_data_of_member|].
  intros Hempty tableConfigs.
  induction tableConfigs as [|tableConfig rest IH]; intros workbook; [reflexivity|].
  simpl. rewrite (process_table_without_data _ _ _ Hjson Hempty).
  destruct (sheet_only workbook tableConfig); [reflexivity | apply IH].
Qed.

Lemma generateWorkbook_table_stage xlsx_load xlsx_writeBuffer jsonData mappingConfig
    tableConfigs templateBuffer options wb0 wb1 e :
  initial_workbook xlsx_load templateBuffer = inr wb0 ->
  for_of (process_mapping jsonData) mappingConfig wb0 = inr wb1 ->
  for_of (process_table jsonData) tableConfigs wb1 = inl e ->
  generateWorkbook xlsx_load xlsx_writeBuffer jsonData mappingConfig tableConfigs
    templateBuffer options =
  inl (generation_failure e).
Proof.
  intros H0 H1 H2. unfold generateWorkbook, generateWorkbook_try.
  rewrite H0. simpl. rewrite H1. simpl. rewrite H2. reflexivity.
Qed.

(** X13.  A document that is [null] or [undefined].  Field resolution
    copes with it, every field resolving to [null]; the table loop does
    not.  As soon as there is one table, and once the template load and
    the mapping loop have completed, [generateWorkbook] fails: with the
    message of the [TypeError] of reading [tableData] off the document
    when the sheet of the first table is there or can be added, and with
    the message of the failure to add that sheet otherwise. *)
Theorem null_document_fails_tables :
  forall xlsx_load xlsx_writeBuffer jsonData mappingConfig tableConfig rest
         templateBuffer options wb0 wb1,
    let outcome :=
      generateWorkbook xlsx_load xlsx_writeBuffer jsonData mappingConfig
        (tableConfig :: rest) templateBuffer options in
    nullish jsonData = true ->
    initial_workbook xlsx_load templateBuffer = inr wb0 ->
    for_of (process_mapping jsonData) mappingConfig wb0 = inr wb1 ->
    (forall path, getNestedValue jsonData path = VNull)
    /\ (forall sheet,
           ensure_sheet wb1 (TableConfig.sheet tableConfig) = inr sheet ->
           outcome =
           inl (JsError
                  ("Failed to generate Excel workbook: Cannot read properties of "
                   ++ (if is_null jsonData then "null" else "undefined")
                   ++ " (reading 'tableData')")))
    /\ (forall e,
           ensure_sheet wb1 (TableConfig.sheet tableConfig) = inl e ->
           outcome = inl (generation_failure e))
    /\ forall buffer, outcome <> inr buffer.
Proof.
  intros xlsx_load xlsx_writeBuffer jsonData mappingConfig tableConfig rest
         templateBuffer options wb0 wb1 outcome Hjson H0 H1.
  assert (Hfound : forall sheet,
             ensure_sheet wb1 (TableConfig.sheet tableConfig) = inr sheet ->
             outcome =
             inl (JsError
                    ("Failed to generate Excel workbook: Cannot read properties of "
                     ++ (if is_null jsonData then "null" else "undefined")
                     ++ " (reading 'tableData')"))).
  { intros [wb ws] Hsheet.
    assert (Hstage : for_of (process_table jsonData) (tableConfig :: rest) wb1 =
                     inl (if is_null jsonData then null_read_error "tableData"
                          else undefined_read_error "tableData")).
    { simpl. unfold process_table. rewrite Hsheet. simpl.
      destruct jsonData; try discriminate; reflexivity. }
    unfold outcome.
    rewrite (generateWorkbook_table_stage _ _ _ _ _ _ _ _ _ _ H0 H1 Hstage).
    destruct jsonData; try discriminate; reflexivity. }
  assert (Hadd : forall e,
             ensure_sheet wb1 (TableConfig.sheet tableConfig) = inl e ->
             outcome = inl (generation_failure e)).
  { intros e Hsheet.
    assert (Hstage : for_of (process_table jsonData) (tableConfig :: rest) wb1 = inl e).
    { simpl. unfold process_table. now rewrite Hsheet. }
    unfold outcome.
    now rewrite (generateWorkbook_table_stage _ _ _ _ _ _ _ _ _ _ H0 H1 Hstage). }
  split.
  - intros path. unfold getNestedValue.
    pose proof (split_dot_nonempty path) as Hne.
    change (fold_left getNestedValue_step (split_dot path) jsonData)
      with (walk jsonData (split_dot path)).
    apply walk_falsy; [assumption|]. now destruct jsonData.
  - split; [exact Hfound|]. split; [exact Hadd|].
    intros buffer.
    destruct (ensure_sheet wb1 (TableConfig.sheet tableConfig)) as [e|sheet] eqn:E.
    + rewrite (Hadd e eq_refl). discriminate.
    + rewrite (Hfound sheet eq_refl). discriminate.
Qed.

(** ** The options *)

Lemma widths_set_all (cols : list Z) w ws c :
  Excel.widths (fold_left (fun ws col => Excel.set_width col w ws) cols ws) !! c =
  if existsb (Z.eqb c) cols then Some w else Excel.widths ws !! c.
Proof.
  revert ws. induction cols as [|col cols IH]; intros ws; [reflexivity|].
  simpl. rewrite IH. simpl.
  destruct (existsb (Z.eqb c) cols); [now rewrite orb_true_r|].
  rewrite orb_false_r. destruct (Z.eqb_spec c col) as [->|Hc].
  - now rewrite lookup_insert_eq.
  - now rewrite lookup_insert_ne by congruence.
Qed.

Lemma widths_autoFitColumns ws c :
  Excel.widths (autoFitColumns ws) !! c =
  if (1 <=? c)%Z && (c <=? 10)%Z then Some 15 else Excel.widths ws !! c.
Proof.
  unfold autoFitColumns. rewrite widths_set_all.
  assert (Hin : existsb (Z.eqb c) (seqZ 1 10) = (1 <=? c)%Z && (c <=? 10)%Z).
  { destruct (existsb (Z.eqb c) (seqZ 1 10)) eqn:E.
    - apply existsb_exists in E as (x & Hx & Hcx).
      apply Z.eqb_eq in Hcx. subst x.
      apply list_elem_of_In, elem_of_seqZ in Hx.
      symmetry. apply andb_true_iff. split; apply Z.leb_le; lia.
    - symmetry. apply andb_false_iff.
      destruct (Z.leb_spec 1 c); [|now left].
      destruct (Z.leb_spec c 10); [|now right].
      exfalso. apply not_true_iff_false in E. apply E.
      apply existsb_exists. exists c. split; [|apply Z.eqb_refl].
      apply list_elem_of_In, elem_of_seqZ. lia. }
  now rewrite Hin.
Qed.

Lemma autoFitColumns_rest ws :
  Excel.sheet_name (autoFitColumns ws) = Excel.sheet_name ws
  /\ Excel.cells (autoFitColumns ws) = Excel.cells ws
  /\ Excel.tables (autoFitColumns ws) = Excel.tables ws
  /\ Excel.frozen_rows (autoFitColumns ws) = Excel.frozen_rows ws
  /\ Excel.protection (autoFitColumns ws) = Excel.protection ws.
Proof. unfold autoFitColumns. simpl. repeat split. Qed.

(** X14.  The options.  [options.includeHeaders] has no effect on what
    [generateWorkbook] does.  The other options are applied to every
    sheet of the workbook the table loop leaves, those of a template
    included, just before it is serialised: the name, the cells and the
    tables of a sheet stay; columns 1 to 10 get width 15 unless
    [autoFitColumns] is [false]; the first row is frozen when
    [freezeFirstRow] is set; the sheet is protected, with the password
    or with the empty one, when [protectSheet] is set; and an option that
    is not set leaves the setting the sheet had. *)
Theorem options_reach_every_sheet :
  forall xlsx_load xlsx_writeBuffer jsonData mappingConfig tableConfigs templateBuffer
         options,
    (forall flag,
        generateWorkbook xlsx_load xlsx_writeBuffer jsonData mappingConfig tableConfigs
          templateBuffer
          {| ExcelOptions.includeHeaders := flag;
             ExcelOptions.autoFitColumns := ExcelOptions.autoFitColumns options;
             ExcelOptions.freezeFirstRow := ExcelOptions.freezeFirstRow options;
             ExcelOptions.protectSheet := ExcelOptions.protectSheet options;
             ExcelOptions.password := ExcelOptions.password options |} =
        generateWorkbook xlsx_load xlsx_writeBuffer jsonData mappingConfig tableConfigs
          templateBuffer options)
    /\ forall buffer,
         generateWorkbook xlsx_load xlsx_writeBuffer jsonData mappingConfig tableConfigs
           templateBuffer options = inr buffer ->
         exists wb0 wb1 workbook,
           initial_workbook xlsx_load templateBuffer = inr wb0
           /\ for_of (process_mapping jsonData) mappingConfig wb0 = inr wb1
           /\ for_of (process_table jsonData) tableConfigs wb1 = inr workbook
           /\ xlsx_writeBuffer (map (apply_options options) workbook) = inr buffer
           /\ forall worksheet,
                In worksheet workbook ->
                let worksheet' := apply_options options worksheet in
                Excel.sheet_name worksheet' = Excel.sheet_name worksheet
                /\ Excel.cells worksheet' = Excel.cells worksheet
                /\ Excel.tables worksheet' = Excel.tables worksheet
                /\ (forall c,
                       Excel.widths worksheet' !! c =
                       if match ExcelOptions.autoFitColumns options with
                          | Some false => false
                          | _ => true
                          end && (1 <=? c)%Z && (c <=? 10)%Z
                       then Some 15 else Excel.widths worksheet !! c)
                /\ Excel.frozen_rows worksheet' =
                   (if truthy_bool (ExcelOptions.freezeFirstRow options)
                    then Some 1 else Excel.frozen_rows worksheet)
                /\ Excel.protection worksheet' =
                   (if truthy_bool (ExcelOptions.protectSheet options)
                    then Some (if truthy_string (ExcelOptions.password options)
                               then default "" (ExcelOptions.password options) else "")
                    else Excel.protection worksheet).
Proof.
  intros xlsx_load xlsx_writeBuffer jsonData mappingConfig tableConfigs templateBuffer
         options.
  split; [reflexivity|].
  intros buffer Hrun.
  assert (Htry : generateWorkbook_try xlsx_load xlsx_writeBuffer jsonData mappingConfig
                   tableConfigs templateBuffer options = inr buffer).
  { unfold generateWorkbook in Hrun.
    destruct (generateWorkbook_try _ _ _ _ _ _ _) as [e|b]; [discriminate | exact Hrun]. }
  apply generateWorkbook_try_completes in Htry as (wb0 & wb1 & wb2 & H0 & H1 & H2 & H3).
  exists wb0, wb1, wb2. repeat (split; [assumption|]).
  intros worksheet _ worksheet'. unfold worksheet', apply_options.
  destruct (autoFitColumns_rest worksheet) as (Hn & Hc & Ht & Hf & Hp).
  pose proof (widths_autoFitColumns worksheet) as Hw.
  destruct (ExcelOptions.autoFitColumns options) as [[|]|];
    destruct (truthy_bool (ExcelOptions.freezeFirstRow options));
    destruct (truthy_bool (ExcelOptions.protectSheet options));
    unfold or_string;
    destruct (truthy_string (ExcelOptions.password options));
    simpl; repeat split; try assumption; try (intros c; apply Hw).
Qed.

(** ** More on bulk generation *)

Lemma generateWorkbook_failure_form xlsx_load xlsx_writeBuffer jsonData mappingConfig
    tableConfigs templateBuffer options e :
  generateWorkbook xlsx_load xlsx_writeBuffer jsonData mappingConfig tableConfigs
    templateBuffer options = inl e ->
  exists message, e = JsError ("Failed to generate Excel workbook: " ++ message).
Proof.
  unfold generateWorkbook.
  destruct (generateWorkbook_try _ _ _ _ _ _ _) as [e0|buffer]; simpl; [|discriminate].
  intros [= <-]. now eexists.
Qed.

Lemma bulk_outcomes_entries xlsx_load xlsx_writeBuffer requests : forall i,
  let outcomes := bulk_outcomes xlsx_load xlsx_writeBuffer requests i in
  Forall (fun entry =>
            exists (k : nat) request e,
              requests !! k = Some request
              /\ generate_request xlsx_load xlsx_writeBuffer request = inl e
              /\ entry = error_entry (i + Z.of_nat k) e
              /\ failure_recorded request (error_message entry))
         (snd outcomes)
  /\ Forall (fun entry =>
               exists (k : nat) request buffer,
                 requests !! k = Some (Some request)
                 /\ generate_request xlsx_load xlsx_writeBuffer (Some request) = inr buffer
                 /\ entry = result_entry (i + Z.of_nat k) (Some request) buffer)
            (fst outcomes).
Proof.
  induction requests as [|request rest IH]; intros i.
  - simpl. split; constructor.
  - specialize (IH (i + 1)). cbv zeta in IH. destruct IH as [Herr Hres].
    cbv zeta. simpl bulk_outcomes.
    destruct (bulk_outcomes xlsx_load xlsx_writeBuffer rest (i + 1)) as [rs es].
    simpl fst in *. simpl snd in *.
    assert (Hshift :
              Forall (fun entry =>
                        exists (k : nat) request' buffer,
                          (request :: rest) !! k = Some (Some request')
                          /\ generate_request xlsx_load xlsx_writeBuffer (Some request')
                             = inr buffer
                          /\ entry = result_entry (i + Z.of_nat k) (Some request') buffer)
                     rs).
    { eapply Forall_impl; [exact Hres|]. simpl.
      intros entry (k & request' & buffer & Hk & Hgen & ->).
      exists (S k), request', buffer. split; [exact Hk|]. split; [exact Hgen|].
      f_equal. lia. }
    assert (Hshift_e :
              Forall (fun entry =>
                        exists (k : nat) request' e,
                          (request :: rest) !! k = Some request'
                          /\ generate_request xlsx_load xlsx_writeBuffer request' = inl e
                          /\ entry = error_entry (i + Z.of_nat k) e
                          /\ failure_recorded request' (error_message entry))
                     es).
    { eapply Forall_impl; [exact Herr|]. simpl.
      intros entry (k & request' & e & Hk & Hgen & -> & Hmsg).
      exists (S k), request', e. split; [exact Hk|]. split; [exact Hgen|].
      split; [f_equal; lia | exact Hmsg]. }
    destruct (generate_request xlsx_load xlsx_writeBuffer request) as [e|buffer] eqn:Hgen;
      simpl fst; simpl snd.
    + split; [|exact Hshift]. constructor; [|exact Hshift_e].
      exists 0%nat, request, e. split; [reflexivity|]. split; [exact Hgen|].
      split; [f_equal; lia|].
      destruct request as [request|]; simpl in Hgen |- *.
      * apply generateWorkbook_failure_form in Hgen as [message ->].
        now exists message.
      * unfold throw in Hgen. now injection Hgen as <-.
    + split; [exact Hshift_e|]. constructor; [|exact Hshift].
      destruct request as [request|]; [|discriminate].
      exists 0%nat, request, buffer. split; [reflexivity|]. split; [exact Hgen|].
      f_equal. lia.
Qed.


(** ** The rows of a table and the cells of a mapping *)

(** X16.  The rows registered with the table against the cells.  For a
    table on the grid that [createTable] completes, the table holds one
    registered row per data row: a value list as it is, and for any other
    row one value per column, the member of the row under the column name
    or the empty string.  Every registered value is the value of the cell
    of its row and column in the returned worksheet; this includes a row
    that is a number or a string, which the row loop skips and the store
    of the table writes. *)
Theorem createTable_rows_and_cells :
  forall worksheet tableConfig rows letters digits,
    let columns := TableConfig.columns tableConfig in
    let startRow := parseInt digits in
    let startCol := columnLetterToNumber letters in
    match_cell_ref (TableConfig.startCell tableConfig) = Some (letters, digits) ->
    rows <> [] ->
    Forall (fun row => nullish row = false) rows ->
    Forall (fun row => row_fits tableConfig row = true) rows ->
    Forall (fun column => column <> "") columns ->
    on_grid startRow startCol (length columns) (length rows) ->
    exists worksheet' table,
      createTable worksheet tableConfig (VArr rows) = inr worksheet'
      /\ Excel.tables worksheet' !! TableConfig.tableName tableConfig = Some table
      /\ length (Excel.rows table) = length rows
      /\ forall (i : nat) row,
           rows !! i = Some row ->
           exists registered,
             Excel.rows table !! i = Some registered
             /\ (forall items, row = VArr items -> registered = items)
             /\ ((forall items, row <> VArr items) ->
                 registered =
                 map (fun column => js_or (get_member row column) (VStr "")) columns)
             /\ forall (j : nat) value,
                  registered !! j = Some value ->
                  Excel.value
                    (Excel.getCell worksheet'
                       (startRow + Z.of_nat i + 1, startCol + Z.of_nat j)) =
                  Excel.Plain value.
Proof.
  intros worksheet tableConfig rows letters digits columns startRow startCol
         Href Hne Hrows Hfit Hnames Hgrid.
  eexists _, _. split.
  { exact (createTable_run worksheet tableConfig rows letters digits
             Href Hne Hrows Hfit Hnames Hgrid). }
  split; [rewrite tables_built_table; apply lookup_insert_eq|].
  split; [simpl; apply length_map|].
  intros i row Hi. exists (table_row_pure tableConfig row).
  split; [simpl; now rewrite list_lookup_fmap, Hi|].
  split; [now intros items ->|].
  split.
  - intros Hnot. destruct row; try reflexivity. now destruct (Hnot items).
  - intros j value Hj. now apply (built_table_row_value _ _ _ _ _ i j row).
Qed.

Lemma getWorksheet_put_other wb ws n :
  n <> Excel.sheet_name ws ->
  Excel.getWorksheet (Excel.putWorksheet wb ws) n = Excel.getWorksheet wb n.
Proof.
  intros Hn. induction wb as [|ws0 wb IH]; [reflexivity|]. simpl.
  destruct (String.eqb (Excel.sheet_name ws0) (Excel.sheet_name ws)) eqn:E.
  - apply String.eqb_eq in E. simpl.
    assert (String.eqb (Excel.sheet_name ws) n = false) as ->
      by (apply String.eqb_neq; congruence).
    assert (String.eqb (Excel.sheet_name ws0) n = false) as ->
      by (apply String.eqb_neq; congruence).
    reflexivity.
  - simpl. destruct (String.eqb (Excel.sheet_name ws0) n); [reflexivity | exact IH].
Qed.

Lemma putWorksheet_names wb ws :
  map Excel.sheet_name (Excel.putWorksheet wb ws) = map Excel.sheet_name wb.
Proof.
  induction wb as [|ws0 wb IH]; [reflexivity|]. simpl.
  destruct (String.eqb (Excel.sheet_name ws0) (Excel.sheet_name ws)) eqn:E.
  - apply String.eqb_eq in E. simpl. now rewrite E.
  - simpl. now rewrite IH.
Qed.

(** X17.  A mapping touches one cell.  One pass of the mapping loop whose
    sheet is there or can be added and whose cell reference the library
    takes changes the value of the cell it names, in the sheet it names,
    and no other value: the other cells of that sheet hold the values
    they held, its tables and its settings stay, and the other sheets are
    there under their names with the values they had.  In the cell, a
    mapping without a style assigns no fill and no font, and one without
    a format no number format.  Cells are taken one by one here, as they
    are in a sheet without merged ranges. *)
Theorem mapping_touches_one_cell :
  forall jsonData workbook mapping workbook1 worksheet1 cell,
    ensure_sheet workbook (MappingConfig.sheet mapping) = inr (workbook1, worksheet1) ->
    Excel.cell_of_address (MappingConfig.cell mapping) = inr cell ->
    exists workbook' worksheet',
      process_mapping jsonData workbook mapping = inr workbook'
      /\ Excel.getWorksheet workbook' (Excel.sheet_name worksheet1) = Some worksheet'
      /\ map Excel.sheet_name workbook' = map Excel.sheet_name workbook1
      /\ (forall n other,
             n <> Excel.sheet_name worksheet1 ->
             Excel.getWorksheet workbook1 n = Some other ->
             exists other',
               Excel.getWorksheet workbook' n = Some other'
               /\ forall rc,
                    Excel.value (Excel.getCell other' rc) =
                    Excel.value (Excel.getCell other rc))
      /\ (forall rc, rc <> cell ->
             Excel.value (Excel.getCell worksheet' rc) =
             Excel.value (Excel.getCell worksheet1 rc))
      /\ Excel.tables worksheet' = Excel.tables worksheet1
      /\ sheet_settings worksheet' = sheet_settings worksheet1
      /\ (MappingConfig.style mapping = None ->
          Excel.fill (Excel.getCell worksheet' cell) =
          Excel.fill (Excel.getCell worksheet1 cell)
          /\ Excel.font (Excel.getCell worksheet' cell) =
             Excel.font (Excel.getCell worksheet1 cell))
      /\ (truthy_string (MappingConfig.format mapping) = false ->
          Excel.numFmt (Excel.getCell worksheet' cell) =
          Excel.numFmt (Excel.getCell worksheet1 cell)).
Proof.
  intros jsonData workbook mapping workbook1 worksheet1 cell Hsheet Hcell.
  unfold process_mapping. rewrite Hsheet. simpl. rewrite Hcell. simpl.
  apply ensure_sheet_spec in Hsheet.
  eexists _, _. split; [reflexivity|]. split.
  { eapply getWorksheet_put_named; [exact Hsheet | reflexivity]. }
  split; [apply putWorksheet_names|].
  split.
  { intros n other Hn Hother. exists other. split; [|reflexivity].
    now rewrite getWorksheet_put_other by (simpl; congruence). }
  split.
  { intros rc Hrc. now rewrite getCell_update_ne by congruence. }
  split; [reflexivity|]. split; [reflexivity|].
  rewrite getCell_update_eq. split.
  - intros Hstyle. rewrite Hstyle. unfold applyCellFormat, applyCellStyle.
    repeat match goal with |- context [if ?b then _ else _] => destruct b end;
      split; reflexivity.
  - intros Hformat. unfold applyCellFormat. rewrite Hformat. simpl.
    unfold applyCellStyle. destruct (MappingConfig.style mapping) as [st|]; [|reflexivity].
    destruct (has_keys _); destruct (truthy_string (MappingConfig.bgColor st)); reflexivity.
Qed.

(** ** The template inspector *)

Section InspectorProperties.

Variable xlsx_load : Buffer -> Result Excel.Workbook.
Variable worksheet_rowCount : Excel.Worksheet -> Z.
Variable worksheet_columnCount : Excel.Worksheet -> Z.

Abbreviation template_info :=
  (getTemplateInfo xlsx_load worksheet_rowCount worksheet_columnCount).
Abbreviation info_of := (sheet_info worksheet_rowCount worksheet_columnCount).

Lemma validateTemplate_loaded buffer workbook :
  xlsx_load buffer = inr workbook ->
  validateTemplate xlsx_load buffer =
  inr {| isValid := true; sheets := map Excel.sheet_name workbook; error := None |}.
Proof. intros H. unfold validateTemplate. now rewrite H. Qed.

Lemma validateTemplate_failed buffer e :
  xlsx_load buffer = inl e ->
  validateTemplate xlsx_load buffer =
  inr {| isValid := false; sheets := [];
         error := Some (message_or "Invalid template file" e) |}.
Proof. intros H. unfold validateTemplate. now rewrite H. Qed.

Lemma getTemplateInfo_loaded buffer workbook :
  xlsx_load buffer = inr workbook ->
  template_info buffer =
  inr {| info_sheets := map info_of workbook;
         info_totalSheets := Z.of_nat (length workbook) |}.
Proof. intros H. unfold getTemplateInfo. rewrite H. simpl. now rewrite length_map. Qed.

(** X18.  The two inspectors on one buffer.  When the load throws,
    [getTemplateInfo] throws the same exception, unwrapped, where
    [validateTemplate] returns [isValid = false].  When the buffer loads,
    [validateTemplate] returns [isValid = true] and [getTemplateInfo]
    returns one entry per sheet, in the same order and with the same
    names as the [sheets] of the validation, with the row and column
    counts of the library, and [totalSheets] is their number. *)
Theorem getTemplateInfo_agrees_with_validation :
  forall buffer,
    (forall e,
        xlsx_load buffer = inl e ->
        template_info buffer = inl e
        /\ exists validation,
             validateTemplate xlsx_load buffer = inr validation
             /\ isValid validation = false)
    /\ (forall workbook,
           xlsx_load buffer = inr workbook ->
           exists validation info,
             validateTemplate xlsx_load buffer = inr validation
             /\ isValid validation = true
             /\ template_info buffer = inr info
             /\ map info_name (info_sheets info) = sheets validation
             /\ map info_rowCount (info_sheets info) = map worksheet_rowCount workbook
             /\ map info_columnCount (info_sheets info) =
                map worksheet_columnCount workbook
             /\ info_totalSheets info = Z.of_nat (length (sheets validation))).
Proof.
  intros buffer. split.
  - intros e He. split.
    + unfold getTemplateInfo. now rewrite He.
    + eexists. split; [exact (validateTemplate_failed buffer e He) | reflexivity].
  - intros workbook Hwb. eexists _, _.
    split; [exact (validateTemplate_loaded buffer workbook Hwb)|]. split; [reflexivity|].
    split; [exact (getTemplateInfo_loaded buffer workbook Hwb)|]. simpl.
    rewrite !map_map, length_map. repeat split.
Qed.

Lemma fold_left_flag {A} (p : A -> bool) (l : list A) (flag : bool) :
  fold_left (fun hasData x => if p x then true else hasData) l flag =
  flag || existsb p l.
Proof.
  revert flag. induction l as [|x l IH]; intros flag; simpl.
  - now rewrite orb_false_r.
  - rewrite IH. destruct (p x), flag; reflexivity.
Qed.

(** X19.  [hasData].  The entry of a sheet says [hasData] exactly when
    some cell of the sheet holds a value other than [null], [undefined]
    and the empty string.  A formula counts, and so do the number 0 and
    [false]; a sheet without cells has no data. *)
Theorem hasData_spec :
  forall worksheet,
    (info_hasData (info_of worksheet) = true <->
     exists rc, holds_data (Excel.value (Excel.getCell worksheet rc)) = true)
    /\ (forall formula result, holds_data (Excel.Formula formula result) = true)
    /\ holds_data (Excel.Plain (VNum 0)) = true
    /\ holds_data (Excel.Plain (VBool false)) = true
    /\ holds_data (Excel.Plain (VStr "")) = false
    /\ (forall name, info_hasData (info_of (Excel.new_sheet name)) = false).
Proof.
  intros worksheet. split; [|repeat split].
  unfold sheet_info. simpl. rewrite fold_left_flag. simpl.
  unfold visited_cells. rewrite existsb_exists. split.
  - intros (cell & Hin & Hdata).
    apply in_map_iff in Hin as ([rc cell'] & Hcell & Hin). simpl in Hcell. subst cell'.
    apply list_elem_of_In, elem_of_map_to_list in Hin.
    exists rc. unfold Excel.getCell. now rewrite Hin.
  - intros (rc & Hdata). unfold Excel.getCell in Hdata.
    destruct (Excel.cells worksheet !! rc) as [cell|] eqn:Hrc; [|discriminate].
    exists cell. split; [|exact Hdata].
    apply in_map_iff. exists (rc, cell). split; [reflexivity|].
    now apply list_elem_of_In, elem_of_map_to_list.
Qed.

End InspectorProperties.

(** ** The request handlers *)

Section HandlerProperties.

Variable xlsx_load : Buffer -> Result Excel.Workbook.
Variable xlsx_writeBuffer : Excel.Workbook -> Result Buffer.
Variable worksheet_rowCount : Excel.Worksheet -> Z.
Variable worksheet_columnCount : Excel.Worksheet -> Z.
Variable sendEmailWithAttachment : string -> Buffer -> string -> Result unit.
Variable base64 : Buffer -> string.
Variable now : string.

Abbreviation upload :=
  (uploadTemplate xlsx_load worksheet_rowCount worksheet_columnCount now).
Abbreviation validate :=
  (validateTemplateHandler xlsx_load worksheet_rowCount worksheet_columnCount now).
Abbreviation generate_excel :=
  (generateExcel xlsx_load xlsx_writeBuffer sendEmailWithAttachment base64 now).
Abbreviation download_excel :=
  (downloadExcel xlsx_load xlsx_writeBuffer sendEmailWithAttachment base64 now).
Abbreviation email_excel :=
  (emailExcel xlsx_load xlsx_writeBuffer sendEmailWithAttachment base64 now).

(** The generation a request asks for. *)
Abbreviation generation_of req :=
  (generateWorkbook xlsx_load xlsx_writeBuffer
     (jsonData (generation req)) (mappingConfig (generation req))
     (default [] (tables (generation req)))
     (option_map file_buffer (file req))
     (default ExcelOptions.empty (options (generation req)))).

(** X20.  The two template handlers.  Both answer 400 without a file and
    400 when the file does not load, with the message of the load error,
    and 200 when it loads, listing the sheet names and their number;
    neither answers anything else.  So the status is decided by the file
    alone, and the two handlers always agree on it. *)
Theorem template_handlers_respond :
  forall file,
    (exists r1 r2,
        upload file = inr r1 /\ validate file = inr r2
        /\ status r1 = status r2
        /\ status r1 =
           match file with
           | Some f =>
               match xlsx_load (file_buffer f) with
               | inr _ => 200
               | inl _ => 400
               end
           | None => 400
           end)
    /\ (forall f e,
           file = Some f -> xlsx_load (file_buffer f) = inl e ->
           exists json1 json2,
             upload file = inr (res_status_json 400 json1)
             /\ validate file = inr (res_status_json 400 json2)
             /\ getNestedValue json1 "message" =
                VStr (message_or "Invalid template file" e)
             /\ getNestedValue json2 "message" =
                VStr (message_or "Invalid template file" e))
    /\ (forall f workbook,
           file = Some f -> xlsx_load (file_buffer f) = inr workbook ->
           let names := VArr (map VStr (map Excel.sheet_name workbook)) in
           let count := VNum (Z.of_nat (length workbook)) in
           exists json1 json2,
             upload file = inr (res_json json1)
             /\ validate file = inr (res_json json2)
             /\ getNestedValue json1 "template.sheets" = names
             /\ getNestedValue json1 "template.details.totalSheets" = count
             /\ getNestedValue json2 "validation.sheets" = names
             /\ getNestedValue json2 "validation.details.totalSheets" = count).
Proof.
  intros file. split; [|split].
  - destruct file as [f|]; [|eexists _, _; repeat split].
    unfold uploadTemplate, validateTemplateHandler.
    destruct (xlsx_load (file_buffer f)) as [e|workbook] eqn:Hload.
    + rewrite (validateTemplate_failed _ _ _ Hload). simpl.
      eexists _, _. repeat split.
    + rewrite (validateTemplate_loaded _ _ _ Hload). simpl.
      rewrite (getTemplateInfo_loaded _ worksheet_rowCount worksheet_columnCount _ _ Hload).
      simpl. eexists _, _. repeat split.
  - intros f e -> Hload. unfold uploadTemplate, validateTemplateHandler.
    rewrite (validateTemplate_failed _ _ _ Hload). simpl.
    eexists _, _. repeat split.
  - intros f workbook -> Hload names count.
    unfold uploadTemplate, validateTemplateHandler.
    rewrite (validateTemplate_loaded _ _ _ Hload). simpl.
    rewrite (getTemplateInfo_loaded _ worksheet_rowCount worksheet_columnCount _ _ Hload).
    simpl. eexists _, _. repeat split.
Qed.

(** What [generateExcel] does, by the outcome of the generation. *)
Lemma generateExcel_run req sent :
  let fileName := default "generated.xlsx" (fileName (generation req)) in
  let mode := default "download" (mode req) in
  generate_excel req sent =
  match generation_of req with
  | inl error =>
      (inr (res_status_json 500
              (VObj [("error", VStr "Failed to generate Excel file");
                     ("message", VStr (message_or "Unknown error occurred" error));
                     ("timestamp", VStr now)])),
       sent)
  | inr workbookBuffer =>
      if String.eqb mode "download" then
        (inr {| status := 200;
                headers :=
                  [("Content-Type",
                    VStr "application/vnd.openxmlformats-officedocument.spreadsheetml.sheet");
                   ("Content-Disposition",
                    VStr ("attachment; filename=" ++ double_quote ++ fileName
                          ++ double_quote));
                   ("Content-Length", VNum (Z.of_nat (length workbookBuffer)))];
                body := BufferBody workbookBuffer |},
         sent)
      else if String.eqb mode "email" then
        if negb (truthy_string (emailAddress req)) then
          (inr (res_status_json 400
                  (VObj [("error", VStr "Email address required for email mode");
                         ("message",
                          VStr "Please provide a valid email address in the emailAddress field")])),
           sent)
        else
          let mail :=
            {| recipient := default "" (emailAddress req);
               attachment := workbookBuffer;
               attachment_name := fileName |} in
          match sendEmailWithAttachment (default "" (emailAddress req))
                  workbookBuffer fileName with
          | inr _ =>
              (inr (res_json
                      (VObj [("success", VBool true);
                             ("message",
                              VStr "Excel file generated and sent successfully");
                             ("details",
                              VObj [("recipient", optional_string (emailAddress req));
                                    ("fileName", VStr fileName);
                                    ("fileSize", VStr (file_size workbookBuffer));
                                    ("timestamp", VStr now)])])),
               push sent mail)
          | inl error =>
              (inr (res_status_json 500
                      (VObj [("error", VStr "Failed to generate Excel file");
                             ("message",
                              VStr (message_or "Unknown error occurred" error));
                             ("timestamp", VStr now)])),
               push sent mail)
          end
      else
        (inr (res_json
                (VObj [("success", VBool true);
                       ("message", VStr "Excel file generated successfully");
                       ("data",
                        VObj [("fileName", VStr fileName);
                              ("fileSize", VStr (file_size workbookBuffer));
                              ("base64", VStr (base64 workbookBuffer))])])),
         sent)
  end.
Proof.
  intros fileName mode. unfold generateExcel, handler_try, handler_bind, lift.
  destruct (generation_of req) as [error|workbookBuffer]; [reflexivity|].
  fold fileName. fold mode.
  destruct (String.eqb mode "download"); [reflexivity|].
  destruct (String.eqb mode "email"); [|reflexivity].
  destruct (negb (truthy_string (emailAddress req))); [reflexivity|].
  unfold send_mail, handler_ret.
  destruct (sendEmailWithAttachment _ _ _) as [error|[]]; reflexivity.
Qed.



End HandlerProperties.

End Runtime.

(** ** The theorems at concrete inputs *)

Lemma getNestedValue_resolves_witness :
  let document := VObj [("a", VObj [("b", VNum 5)])] in
  getNestedValue sample_inherited_member document (join_dot (["a"] ++ ["b"])) = VNum 5
  /\ getNestedValue sample_inherited_member document
       (join_dot (["a"] ++ "c" :: ["d"])) = VNull
  /\ getNestedValue sample_inherited_member document
       (join_dot (["a"] ++ "c" :: [])) = VNull.
Proof.
  intros document.
  destruct (getNestedValue_resolves sample_inherited_member)
    as (_ & _ & Hfound & Hmissing & Habsent & _).
  split; [|split].
  - apply (Hfound document ["a"] "b").
    + repeat constructor.
    + reflexivity.
    + discriminate.
  - apply (Hmissing document ["a"] "c" ["d"]).
    + repeat constructor.
    + reflexivity.
  - apply (Habsent document ["a"] "c" [] [("b", VNum 5)]).
    + repeat constructor.
    + reflexivity.
    + reflexivity.
    + reflexivity.
Defined.

(** C2 as stated fails: the object [{"b":5}] has no key [toString], and
    yet the path that ends in that segment does not yield [null] but the
    method every object inherits. *)
Lemma getNestedValue_missing_key_inherited :
  let document := VObj [("a", VObj [("b", VNum 5)])] in
  getNestedValue sample_inherited_member document "a" = VObj [("b", VNum 5)]
  /\ lookup_prop "toString" [("b", VNum 5)] = None
  /\ getNestedValue sample_inherited_member document "a.toString" =
     VFunction "Object.prototype.toString"
  /\ getNestedValue sample_inherited_member document "a.toString" <> VNull.
Proof. cbv zeta. repeat split. discriminate. Qed.

Lemma getNestedValue_falsy_is_null_witness :
  getNestedValue sample_inherited_member (VObj [("a", VNum 0)])
    (join_dot (["a"] ++ ["b"; "c"])) = VNull
  /\ getNestedValue sample_inherited_member (VObj [("a", VNull)])
       (join_dot ([] ++ ["a"])) = VNull
  /\ getNestedValue sample_inherited_member (VObj []) (join_dot ([] ++ ["a"])) = VNull.
Proof.
  destruct (getNestedValue_falsy_is_null sample_inherited_member)
    as (_ & Hfalsy & Hsame & _).
  split.
  - apply (Hfalsy (VObj [("a", VNum 0)]) ["a"] ["b"; "c"]).
    + discriminate.
    + repeat constructor.
    + reflexivity.
  - destruct (Hsame (VObj [("a", VNull)]) (VObj []) [] "a" [("a", VNull)] [] None)
      as (H1 & H2 & _).
    + repeat constructor.
    + reflexivity.
    + reflexivity.
    + reflexivity.
    + reflexivity.
    + reflexivity.
    + split; assumption.
Defined.

(** C9 as stated fails: under the name of a member that every object
    inherits, a field that is present with value [null] resolves to
    [null] and the mapping loop stores the empty string for it, while the
    missing field resolves to the inherited member, which the mapping loop
    stores. *)
Lemma present_null_differs_from_missing :
  let present := VObj [("toString", VNull)] in
  let missing := VObj [] in
  lookup_prop "toString" [("toString", VNull)] = Some VNull
  /\ lookup_prop "toString" [] = None
  /\ getNestedValue sample_inherited_member present "toString" = VNull
  /\ getNestedValue sample_inherited_member missing "toString" =
     VFunction "Object.prototype.toString"
  /\ mapped_value None (getNestedValue sample_inherited_member present "toString") =
     Excel.Plain (VStr "")
  /\ mapped_value None (getNestedValue sample_inherited_member missing "toString") <>
     mapped_value None (getNestedValue sample_inherited_member present "toString").
Proof. cbv zeta. repeat split. discriminate. Qed.

Lemma mapping_sets_cell_value_witness :
  exists workbook' worksheet,
    process_mapping sample_inherited_member (VObj [("total", VNum 42)])
      [Excel.new_sheet "Sheet1"]
      {| MappingConfig.sheet := "Sheet1"; MappingConfig.cell := "B2";
         MappingConfig.fieldName := "total"; MappingConfig.style := None;
         MappingConfig.formula := Some "SUM(B3:B9)"; MappingConfig.format := None |}
    = inr workbook'
    /\ Excel.getWorksheet workbook' "Sheet1" = Some worksheet
    /\ Excel.value (Excel.getCell worksheet (2, 2)) =
       Excel.Formula "SUM(B3:B9)" (VNum 42).
Proof.
  destruct (mapping_sets_cell_value sample_inherited_member)
    as (Hcell & _ & Hfound & Haddress).
  destruct (Hcell (VObj [("total", VNum 42)]) [Excel.new_sheet "Sheet1"]
              {| MappingConfig.sheet := "Sheet1"; MappingConfig.cell := "B2";
                 MappingConfig.fieldName := "total"; MappingConfig.style := None;
                 MappingConfig.formula := Some "SUM(B3:B9)";
                 MappingConfig.format := None |}
              [Excel.new_sheet "Sheet1"] (Excel.new_sheet "Sheet1") (2, 2)
              (Hfound [Excel.new_sheet "Sheet1"] "Sheet1" (Excel.new_sheet "Sheet1")
                 eq_refl)
              (Haddress "B2" "B" "2" eq_refl ltac:(vm_compute; discriminate)
                 ltac:(vm_compute; discriminate)))
    as (wb' & ws & Hrun & Hget & Hval).
  exists wb', ws. split; [exact Hrun|]. split; [exact Hget|]. exact Hval.
Defined.

(** C1 as stated fails: a field that resolves to the empty string is not
    [null], so the statement makes it the cached result of the formula; the
    mapping loop stores 0. *)
Lemma mapping_formula_of_empty_string :
  let jsonData := VObj [("note", VStr "")] in
  let mapping :=
    {| MappingConfig.sheet := "Sheet1"; MappingConfig.cell := "A1";
       MappingConfig.fieldName := "note"; MappingConfig.style := None;
       MappingConfig.formula := Some "SUM(B1:B2)"; MappingConfig.format := None |} in
  exists workbook' worksheet,
    process_mapping sample_inherited_member jsonData [Excel.new_sheet "Sheet1"] mapping
    = inr workbook'
    /\ Excel.getWorksheet workbook' "Sheet1" = Some worksheet
    /\ let value := getNestedValue sample_inherited_member jsonData "note" in
       value = VStr ""
       /\ Excel.value (Excel.getCell worksheet (1, 1)) =
          Excel.Formula "SUM(B1:B2)" (VNum 0)
       /\ spec_mapped_value (MappingConfig.formula mapping) value =
          Excel.Formula "SUM(B1:B2)" (VStr "")
       /\ Excel.value (Excel.getCell worksheet (1, 1)) <>
          spec_mapped_value (MappingConfig.formula mapping) value.
Proof.
  cbv zeta. eexists _, _.
  split; [reflexivity|]. split; [reflexivity|].
  split; [reflexivity|]. split; [reflexivity|].
  split; [reflexivity|]. discriminate.
Qed.

Lemma createTable_writes_rows_witness :
  let tableConfig :=
    {| TableConfig.sheet := "Sheet1"; TableConfig.tableName := "T";
       TableConfig.startCell := "B3"; TableConfig.columns := ["P"; "Q"];
       TableConfig.style := None |} in
  let rows := [VArr [VNum 1; VNum 2]; VObj [("P", VStr "x")]] in
  (exists worksheet',
      write_row sample_inherited_member tableConfig 3 2 (Excel.new_sheet "Sheet1")
        (VArr [VNum 1; VNum 2; VNum 3]) 0
      = inr worksheet'
      /\ Excel.value (Excel.getCell worksheet' (4, 2)) = Excel.Plain (VNum 1)
      /\ Excel.value (Excel.getCell worksheet' (4, 4)) = Excel.Plain VNull)
  /\ exists worksheet',
       createTable sample_inherited_member (Excel.new_sheet "Sheet1") tableConfig
         (VArr rows) = inr worksheet'
       /\ Excel.value (Excel.getCell worksheet' (4, 2)) = Excel.Plain (VNum 1)
       /\ Excel.value (Excel.getCell worksheet' (4, 3)) = Excel.Plain (VNum 2)
       /\ Excel.value (Excel.getCell worksheet' (5, 2)) = Excel.Plain (VStr "x")
       /\ Excel.value (Excel.getCell worksheet' (5, 3)) = Excel.Plain (VStr "").
Proof.
  intros tableConfig rows.
  destruct (createTable_writes_rows sample_inherited_member) as [Hcallback Htable].
  split.
  - destruct (Hcallback tableConfig 3 2 (Excel.new_sheet "Sheet1")
                (VArr [VNum 1; VNum 2; VNum 3]) 0 eq_refl
                ltac:(lia) ltac:(lia) ltac:(lia) ltac:(lia) ltac:(simpl; lia))
      as (ws' & Hrun & _ & Harr & _).
    exists ws'. split; [exact Hrun|].
    destruct (Harr _ eq_refl) as [Hin Hout].
    split; [exact (Hin 0%nat (VNum 1) eq_refl ltac:(simpl; lia))|].
    exact (Hout 2%nat ltac:(simpl; lia)).
  - destruct (Htable (Excel.new_sheet "Sheet1") tableConfig rows "B" "3"
                eq_refl
                ltac:(vm_compute; repeat split; discriminate)
                ltac:(repeat constructor; discriminate)
                ltac:(repeat constructor)
                ltac:(repeat constructor))
      as (ws' & Hrun & Hrows).
    exists ws'. split; [exact Hrun|].
    destruct (Hrows 0%nat (VArr [VNum 1; VNum 2]) eq_refl) as [Harr _].
    destruct (Hrows 1%nat (VObj [("P", VStr "x")]) eq_refl) as [_ Hobj].
    split; [exact (Harr _ eq_refl 0%nat (VNum 1) eq_refl)|].
    split; [exact (Harr _ eq_refl 1%nat (VNum 2) eq_refl)|].
    destruct (Hobj _ eq_refl 0%nat "P" eq_refl) as (_ & Hown & _).
    destruct (Hobj _ eq_refl 1%nat "Q" eq_refl) as (_ & _ & _ & Habsent).
    split; [exact (Hown (VStr "x") eq_refl)|].
    exact (Habsent eq_refl eq_refl).
Defined.

(** C4 as stated fails: for a column named like a member that every
    object inherits, the key is absent from the row and yet the cell does
    not get the empty string but the inherited member. *)
Lemma createTable_object_row_inherited_key :
  let tableConfig :=
    {| TableConfig.sheet := "Sheet1"; TableConfig.tableName := "T";
       TableConfig.startCell := "A1"; TableConfig.columns := ["toString"];
       TableConfig.style := None |} in
  lookup_prop "toString" [] = None
  /\ exists worksheet',
       createTable sample_inherited_member (Excel.new_sheet "Sheet1") tableConfig
         (VArr [VObj []]) = inr worksheet'
       /\ Excel.value (Excel.getCell worksheet' (2, 1)) =
          Excel.Plain (VFunction "Object.prototype.toString")
       /\ Excel.value (Excel.getCell worksheet' (2, 1)) <> Excel.Plain (VStr "").
Proof.
  cbv zeta. split; [reflexivity|].
  eexists. split; [vm_compute; reflexivity|].
  vm_compute. split; [reflexivity | discriminate].
Qed.

Lemma createTable_registers_table_witness :
  let tableConfig :=
    {| TableConfig.sheet := "Report"; TableConfig.tableName := "Sales";
       TableConfig.startCell := "C2"; TableConfig.columns := ["Item"; "Price"];
       TableConfig.style := None |} in
  let rows := [VArr [VStr "Laptop"; VNum 999]; VObj [("Item", VStr "Mouse")]] in
  exists worksheet' table,
    createTable sample_inherited_member (Excel.new_sheet "Report") tableConfig (VArr rows)
    = inr worksheet'
    /\ Excel.tables worksheet' !! "Sales" = Some table
    /\ Excel.ref table = "C2:D4"
    /\ match_cell_ref "D4" = Some ("D", "4")
    /\ Excel.headerRow table = true.
Proof.
  intros tableConfig rows.
  destruct (createTable_registers_table sample_inherited_member) as [Hgeneral _].
  destruct (Hgeneral (Excel.new_sheet "Report") tableConfig rows "C" "2"
              eq_refl ltac:(discriminate)
              ltac:(vm_compute; repeat split; discriminate)
              ltac:(repeat constructor; discriminate)
              ltac:(repeat constructor)
              ltac:(repeat constructor))
    as (ws' & table & Hrun & Htables & _ & _ & Href & Hend & _ & _ & Hheader & _).
  exists ws', table.
  split; [exact Hrun|]. split; [exact Htables|]. split; [exact Href|].
  split; [exact Hend|].
  exact Hheader.
Defined.

(** C5 as stated fails: the data set [[null]] is not empty, and the table
    builder throws on its row without registering a table. *)
Lemma createTable_null_row_registers_nothing :
  let tableConfig :=
    {| TableConfig.sheet := "Sheet1"; TableConfig.tableName := "Table1";
       TableConfig.startCell := "A1"; TableConfig.columns := ["P"];
       TableConfig.style := None |} in
  table_data_empty sample_inherited_member (VArr [VNull]) = false
  /\ createTable sample_inherited_member (Excel.new_sheet "Sheet1") tableConfig
       (VArr [VNull]) =
     inl (JsError "Cannot read properties of null (reading 'P')")
  /\ forall worksheet',
       createTable sample_inherited_member (Excel.new_sheet "Sheet1") tableConfig
         (VArr [VNull]) <> inr worksheet'.
Proof.
  cbv zeta. split; [reflexivity|].
  assert (H : createTable sample_inherited_member (Excel.new_sheet "Sheet1")
                {| TableConfig.sheet := "Sheet1"; TableConfig.tableName := "Table1";
                   TableConfig.startCell := "A1"; TableConfig.columns := ["P"];
                   TableConfig.style := None |} (VArr [VNull]) =
              inl (JsError "Cannot read properties of null (reading 'P')"))
    by (vm_compute; reflexivity).
  split; [exact H|]. intros ws'. rewrite H. discriminate.
Qed.

Lemma generateWorkbook_failure_witness :
  generateWorkbook sample_inherited_member sample_load sample_writeBuffer
    (VObj [("tableData", VArr [VArr [VNum 1]])]) []
    [ {| TableConfig.sheet := "Sheet1"; TableConfig.tableName := "Table1";
         TableConfig.startCell := "a1"; TableConfig.columns := ["P"];
         TableConfig.style := None |} ]
    None ExcelOptions.empty =
  inl (JsError "Failed to generate Excel workbook: Invalid start cell: a1").
Proof.
  destruct (generateWorkbook_failure sample_inherited_member sample_load
              sample_writeBuffer
              (VObj [("tableData", VArr [VArr [VNum 1]])]) []
              [ {| TableConfig.sheet := "Sheet1"; TableConfig.tableName := "Table1";
                   TableConfig.startCell := "a1"; TableConfig.columns := ["P"];
                   TableConfig.style := None |} ]
              None ExcelOptions.empty) as (_ & Hmessage & _).
  apply (Hmessage "Invalid start cell: a1").
  eapply raised_in_tables; reflexivity.
Defined.



Lemma bulkGenerate_isolates_failures_witness :
  let good :=
    Some
      {| jsonData := VObj [("name", VStr "John")];
       mappingConfig :=
         [ {| MappingConfig.sheet := "Sheet1"; MappingConfig.cell := "A1";
              MappingConfig.fieldName := "name"; MappingConfig.style := None;
              MappingConfig.formula := None; MappingConfig.format := None |} ];
       tables := None; options := None; fileName := None |} in
  let bad :=
    Some
      {| jsonData := VObj [("tableData", VArr [VArr [VNum 1]])];
       mappingConfig := [];
       tables :=
         Some [ {| TableConfig.sheet := "Sheet1"; TableConfig.tableName := "Table1";
                   TableConfig.startCell := "a1"; TableConfig.columns := ["P"];
                   TableConfig.style := None |} ];
       options := None; fileName := None |} in
  exists results errors summary,
    bulkGenerate sample_inherited_member sample_load sample_writeBuffer
      (Some [good; bad; good]) =
    inr (Completed results errors summary)
    /\ length results = 2%nat
    /\ length errors = 1%nat
    /\ map error_index errors = [1].
Proof.
  intros good bad.
  destruct (bulkGenerate_isolates_failures sample_inherited_member sample_load
              sample_writeBuffer) as [_ Hthree].
  destruct (Hthree good bad good _ _ _ eq_refl eq_refl eq_refl)
    as (results & errors & summary & Hrun & Hresults & Herrors & Hindex & _).
  exists results, errors, summary.
  split; [exact Hrun|]. split; [exact Hresults|]. split; [exact Herrors|]. exact Hindex.
Defined.

Lemma getNestedValue_array_element_witness :
  let document := VObj [("rows", VArr [VStr "a"; VStr "b"])] in
  getNestedValue sample_inherited_member document
    ("rows" ++ "." ++ number_to_string (Z.of_nat 1)) = VStr "b"
  /\ getNestedValue sample_inherited_member document ("rows" ++ "." ++ "length") =
     VNum (Z.of_nat (length [VStr "a"; VStr "b"])).
Proof.
  intros document.
  apply (getNestedValue_array_element sample_inherited_member document "rows"
           [VStr "a"; VStr "b"] 1 (VStr "b")).
  - reflexivity.
  - reflexivity.
  - discriminate.
Defined.

Lemma applyCellFormat_codes_witness :
  let cell' := applyCellFormat Excel.blank (Some "Currency") in
  applyCellFormat Excel.blank (Some "CURRENCY") = cell'
  /\ Excel.numFmt cell' = Some "$#,##0.00"
  /\ Excel.numFmt (applyCellFormat Excel.blank (Some "0.0")) = Some "0.0".
Proof.
  intros cell'.
  destruct (applyCellFormat_codes Excel.blank "Currency" ltac:(discriminate))
    as (_ & _ & _ & Hcase & _ & _).
  destruct (applyCellFormat_codes Excel.blank "0.0" ltac:(discriminate))
    as (_ & _ & _ & _ & Hverbatim & _).
  split; [|split].
  - apply (Hcase "CURRENCY"); [discriminate | reflexivity |].
    vm_compute. tauto.
  - reflexivity.
  - apply Hverbatim. vm_compute. intuition discriminate.
Defined.

Lemma createTable_outcomes_witness :
  let worksheet := Excel.new_sheet "Sheet1" in
  let config startCell :=
    {| TableConfig.sheet := "Sheet1"; TableConfig.tableName := "T";
       TableConfig.startCell := startCell; TableConfig.columns := ["P"];
       TableConfig.style := None |} in
  createTable sample_inherited_member worksheet (config "a1") (VArr []) = inr worksheet
  /\ createTable sample_inherited_member worksheet (config "a1") (VArr [VArr [VNum 1]]) =
     inl (JsError "Invalid start cell: a1")
  /\ createTable sample_inherited_member worksheet (config "A1") (VObj []) =
     inl (JsError "tableData.forEach is not a function")
  /\ createTable sample_inherited_member worksheet (config "A1") (VArr [VNum 1; VNull]) =
     inl (null_read_error "P")
  /\ createTable sample_inherited_member worksheet (config "A1")
       (VArr [VArr [VNum 1; VNum 2]]) =
     inl (JsError "Cannot read properties of undefined (reading 'style')")
  /\ exists worksheet',
       createTable sample_inherited_member worksheet (config "A1") (VArr [VArr [VNum 1]]) =
       inr worksheet'.
Proof.
  intros worksheet config.
  split; [|split; [|split; [|split; [|split]]]].
  - pose proof (createTable_outcomes sample_inherited_member worksheet (config "a1")
                  (VArr [])) as H.
    cbv zeta in H. destruct H as [Hempty _]. exact (Hempty eq_refl).
  - pose proof (createTable_outcomes sample_inherited_member worksheet (config "a1")
                  (VArr [VArr [VNum 1]])) as H.
    cbv zeta in H. destruct H as [_ Hdata].
    destruct (Hdata eq_refl) as [Hcell _]. exact (Hcell eq_refl).
  - pose proof (createTable_outcomes sample_inherited_member worksheet (config "A1")
                  (VObj [])) as H.
    cbv zeta in H. destruct H as [_ Hdata].
    destruct (Hdata eq_refl) as [_ Hparsed].
    destruct (Hparsed "A" "1" eq_refl) as [Hnot _].
    apply Hnot; [discriminate|]. vm_compute. repeat split; discriminate.
  - pose proof (createTable_outcomes sample_inherited_member worksheet (config "A1")
                  (VArr [VNum 1; VNull])) as H.
    cbv zeta in H. destruct H as [_ Hdata].
    destruct (Hdata eq_refl) as [_ Hparsed].
    destruct (Hparsed "A" "1" eq_refl) as [_ Hrows].
    destruct (Hrows [VNum 1; VNull] eq_refl
                ltac:(vm_compute; repeat split; discriminate)) as [Hnull _].
    apply (Hnull "P" [] eq_refl). right. now left.
  - pose proof (createTable_outcomes sample_inherited_member worksheet (config "A1")
                  (VArr [VArr [VNum 1; VNum 2]])) as H.
    cbv zeta in H. destruct H as [_ Hdata].
    destruct (Hdata eq_refl) as [_ Hparsed].
    destruct (Hparsed "A" "1" eq_refl) as [_ Hrows].
    destruct (Hrows [VArr [VNum 1; VNum 2]] eq_refl
                ltac:(vm_compute; repeat split; discriminate)) as (_ & _ & Hlong & _).
    apply Hlong.
    + repeat constructor; discriminate.
    + repeat constructor.
    + left. reflexivity.
    + vm_compute. discriminate.
  - pose proof (createTable_outcomes sample_inherited_member worksheet (config "A1")
                  (VArr [VArr [VNum 1]])) as H.
    cbv zeta in H. destruct H as [_ Hdata].
    destruct (Hdata eq_refl) as [_ Hparsed].
    destruct (Hparsed "A" "1" eq_refl) as [_ Hrows].
    destruct (Hrows [VArr [VNum 1]] eq_refl
                ltac:(vm_compute; repeat split; discriminate)) as (_ & _ & _ & Hdone).
    apply Hdone; repeat constructor; discriminate.
Defined.

Lemma createTable_stays_in_range_witness :
  let worksheet := Excel.new_sheet "Sheet1" in
  let tableConfig :=
    {| TableConfig.sheet := "Sheet1"; TableConfig.tableName := "T";
       TableConfig.startCell := "B2"; TableConfig.columns := ["P"];
       TableConfig.style := None |} in
  exists worksheet',
    createTable sample_inherited_member worksheet tableConfig (VArr [VArr [VNum 1]]) =
    inr worksheet'
    /\ Excel.sheet_name worksheet' = "Sheet1"
    /\ Excel.widths worksheet' = Excel.widths worksheet
    /\ Excel.value (Excel.getCell worksheet' (3, 3)) = Excel.Plain VNull.
Proof.
  intros worksheet tableConfig.
  destruct (createTable_stays_in_range sample_inherited_member worksheet tableConfig
              [VArr [VNum 1]] "B" "2" eq_refl ltac:(discriminate)
              ltac:(repeat constructor) ltac:(repeat constructor)
              ltac:(repeat constructor; discriminate)
              ltac:(vm_compute; repeat split; discriminate))
    as (worksheet' & Hrun & Hname & Hwidths & _ & _ & _ & Hcells).
  exists worksheet'. split; [exact Hrun|]. split; [exact Hname|].
  split; [exact Hwidths|].
  rewrite (Hcells 3 3); [reflexivity|].
  right. right. right. vm_compute. discriminate.
Defined.

Lemma createTable_without_columns_witness :
  let config startCell :=
    {| TableConfig.sheet := "Sheet1"; TableConfig.tableName := "T";
       TableConfig.startCell := startCell; TableConfig.columns := [];
       TableConfig.style := None |} in
  let worksheet := Excel.new_sheet "Sheet1" in
  createTable sample_inherited_member worksheet (config "A1") (VArr [VNull; VArr [VNum 1]]) =
  inl (JsError "0 is out of bounds. Excel supports columns from 1 to 16384")
  /\ createTable sample_inherited_member worksheet (config "B1") (VArr [VNull; VArr [VNum 1]]) =
     inl (JsError "Cannot read properties of undefined (reading 'style')")
  /\ exists worksheet' table,
       createTable sample_inherited_member worksheet (config "B1") (VArr [VNull; VNum 1]) =
       inr worksheet'
       /\ Excel.tables worksheet' !! "T" = Some table
       /\ Excel.ref table = "B1:A3"
       /\ Excel.rows table = [[]; []].
Proof.
  intros config worksheet. split; [|split].
  - pose proof (createTable_without_columns sample_inherited_member worksheet
                  (config "A1") [VNull; VArr [VNum 1]] "A" "1") as H.
    cbv zeta in H.
    destruct (H eq_refl eq_refl ltac:(discriminate)
                ltac:(vm_compute; discriminate) ltac:(vm_compute; discriminate)
                ltac:(vm_compute; split; discriminate)) as [Hone _].
    exact (Hone eq_refl).
  - pose proof (createTable_without_columns sample_inherited_member worksheet
                  (config "B1") [VNull; VArr [VNum 1]] "B" "1") as H.
    cbv zeta in H.
    destruct (H eq_refl eq_refl ltac:(discriminate)
                ltac:(vm_compute; discriminate) ltac:(vm_compute; discriminate)
                ltac:(vm_compute; split; discriminate)) as (_ & Hlong & _).
    apply Hlong; [vm_compute; discriminate|]. right. left. reflexivity.
  - pose proof (createTable_without_columns sample_inherited_member worksheet
                  (config "B1") [VNull; VNum 1] "B" "1") as H.
    cbv zeta in H.
    destruct (H eq_refl eq_refl ltac:(discriminate)
                ltac:(vm_compute; discriminate) ltac:(vm_compute; discriminate)
                ltac:(vm_compute; split; discriminate)) as (_ & _ & Hdone).
    destruct (Hdone ltac:(vm_compute; discriminate) ltac:(repeat constructor))
      as (worksheet' & table & Hrun & _ & Htable & Href & _ & Hrows).
    exists worksheet', table.
    split; [exact Hrun|]. split; [exact Htable|]. split; [exact Href | exact Hrows].
Defined.

Lemma tables_without_data_witness :
  let jsonData := VObj [("name", VStr "John")] in
  let tableConfig :=
    {| TableConfig.sheet := "Report"; TableConfig.tableName := "T";
       TableConfig.startCell := "not a cell"; TableConfig.columns := ["P"];
       TableConfig.style := None |} in
  table_data_of sample_inherited_member jsonData = inr VUndefined
  /\ for_of (process_table sample_inherited_member jsonData) [tableConfig]
       [Excel.new_sheet "Sheet1"] =
     inr [Excel.new_sheet "Sheet1"; Excel.new_sheet "Report"]
  /\ for_of (process_table sample_inherited_member jsonData) [tableConfig]
       [Excel.new_sheet "report"] =
     inl (JsError "Worksheet name already exists: Report").
Proof.
  intros jsonData tableConfig.
  destruct (tables_without_data sample_inherited_member jsonData eq_refl)
    as [Hdata Hloop].
  split; [exact Hdata|]. split.
  - now rewrite (Hloop eq_refl [tableConfig] [Excel.new_sheet "Sheet1"]).
  - now rewrite (Hloop eq_refl [tableConfig] [Excel.new_sheet "report"]).
Defined.

Lemma null_document_fails_tables_witness :
  let config sheet :=
    {| TableConfig.sheet := sheet; TableConfig.tableName := "T";
       TableConfig.startCell := "A1"; TableConfig.columns := ["P"];
       TableConfig.style := None |} in
  getNestedValue sample_inherited_member VNull "name" = VNull
  /\ generateWorkbook sample_inherited_member sample_load sample_writeBuffer VNull []
       [config "Sheet1"] None ExcelOptions.empty =
     inl (JsError
            "Failed to generate Excel workbook: Cannot read properties of null (reading 'tableData')")
  /\ generateWorkbook sample_inherited_member sample_load sample_writeBuffer VNull []
       [config "sheet1"] None ExcelOptions.empty =
     inl (JsError
            "Failed to generate Excel workbook: Worksheet name already exists: sheet1").
Proof.
  intros config.
  split; [|split].
  - destruct (null_document_fails_tables sample_inherited_member sample_load
                sample_writeBuffer VNull [] (config "Sheet1") [] None ExcelOptions.empty
                [Excel.new_sheet "Sheet1"] [Excel.new_sheet "Sheet1"]
                eq_refl eq_refl eq_refl) as [Hfield _].
    exact (Hfield "name").
  - destruct (null_document_fails_tables sample_inherited_member sample_load
                sample_writeBuffer VNull [] (config "Sheet1") [] None ExcelOptions.empty
                [Excel.new_sheet "Sheet1"] [Excel.new_sheet "Sheet1"]
                eq_refl eq_refl eq_refl) as (_ & Hfound & _).
    exact (Hfound ([Excel.new_sheet "Sheet1"], Excel.new_sheet "Sheet1") eq_refl).
  - destruct (null_document_fails_tables sample_inherited_member sample_load
                sample_writeBuffer VNull [] (config "sheet1") [] None ExcelOptions.empty
                [Excel.new_sheet "Sheet1"] [Excel.new_sheet "Sheet1"]
                eq_refl eq_refl eq_refl) as (_ & _ & Hadd & _).
    exact (Hadd (JsError "Worksheet name already exists: sheet1") eq_refl).
Defined.

Lemma createTable_rows_and_cells_witness :
  let tableConfig :=
    {| TableConfig.sheet := "Sheet1"; TableConfig.tableName := "T";
       TableConfig.startCell := "A1"; TableConfig.columns := ["P"; "Q"];
       TableConfig.style := None |} in
  let rows := [VObj [("P", VNum 1)]; VNum 5] in
  exists worksheet' table,
    createTable sample_inherited_member (Excel.new_sheet "Sheet1") tableConfig (VArr rows) =
    inr worksheet'
    /\ Excel.tables worksheet' !! "T" = Some table
    /\ Excel.rows table !! 1%nat = Some [VStr ""; VStr ""]
    /\ Excel.value (Excel.getCell worksheet' (3, 1)) = Excel.Plain (VStr "")
    /\ Excel.value (Excel.getCell worksheet' (3, 2)) = Excel.Plain (VStr "").
Proof.
  intros tableConfig rows.
  pose proof (createTable_rows_and_cells sample_inherited_member
                (Excel.new_sheet "Sheet1") tableConfig rows "A" "1"
                eq_refl ltac:(discriminate) ltac:(repeat constructor)
                ltac:(repeat constructor) ltac:(repeat constructor; discriminate)
                ltac:(vm_compute; repeat split; discriminate)) as H.
  cbv zeta in H. destruct H as (worksheet' & table & Hrun & Htable & _ & Hrows).
  exists worksheet', table. split; [exact Hrun|]. split; [exact Htable|].
  destruct (Hrows 1%nat (VNum 5) eq_refl) as (registered & Hreg & _ & Hother & Hcells).
  pose proof (Hother ltac:(intros items; discriminate)) as Hregistered.
  change (registered = [VStr ""; VStr ""]) in Hregistered. subst registered.
  split; [exact Hreg|]. split.
  - exact (Hcells 0%nat (VStr "") eq_refl).
  - exact (Hcells 1%nat (VStr "") eq_refl).
Defined.

Lemma mapping_touches_one_cell_witness :
  let mapping :=
    {| MappingConfig.sheet := "Report"; MappingConfig.cell := "B2";
       MappingConfig.fieldName := "name"; MappingConfig.style := None;
       MappingConfig.formula := None; MappingConfig.format := None |} in
  exists workbook' worksheet',
    process_mapping sample_inherited_member (VObj [("name", VStr "John")])
      [Excel.new_sheet "Sheet1"] mapping = inr workbook'
    /\ Excel.getWorksheet workbook' "Report" = Some worksheet'
    /\ map Excel.sheet_name workbook' = ["Sheet1"; "Report"]
    /\ Excel.value (Excel.getCell worksheet' (1, 1)) = Excel.Plain VNull
    /\ Excel.fill (Excel.getCell worksheet' (2, 2)) = None.
Proof.
  intros mapping.
  destruct (mapping_touches_one_cell sample_inherited_member
              (VObj [("name", VStr "John")]) [Excel.new_sheet "Sheet1"] mapping
              [Excel.new_sheet "Sheet1"; Excel.new_sheet "Report"]
              (Excel.new_sheet "Report") (2, 2) eq_refl eq_refl)
    as (workbook' & worksheet' & Hrun & Hget & Hnames & _ & Hcells & _ & _ & Hstyle & _).
  exists workbook', worksheet'. split; [exact Hrun|]. split; [exact Hget|].
  split; [exact Hnames|]. split.
  - now rewrite (Hcells (1, 1)) by discriminate.
  - destruct (Hstyle eq_refl) as [Hfill _]. now rewrite Hfill.
Defined.

Lemma options_reach_every_sheet_witness :
  let options :=
    {| ExcelOptions.includeHeaders := Some false;
       ExcelOptions.autoFitColumns := None;
       ExcelOptions.freezeFirstRow := Some true;
       ExcelOptions.protectSheet := Some true;
       ExcelOptions.password := None |} in
  exists workbook,
    sample_writeBuffer (map (apply_options options) workbook) = inr [Byte.x00]
    /\ forall worksheet,
         In worksheet workbook ->
         Excel.widths (apply_options options worksheet) !! 10 = Some 15
         /\ Excel.frozen_rows (apply_options options worksheet) = Some 1
         /\ Excel.protection (apply_options options worksheet) = Some "".
Proof.
  intros options.
  destruct (options_reach_every_sheet sample_inherited_member sample_load
              sample_writeBuffer (VObj []) [] [] None options) as [_ Hsheets].
  destruct (Hsheets [Byte.x00] eq_refl)
    as (wb0 & wb1 & workbook & _ & _ & _ & Hwrite & Hall).
  exists workbook. split; [exact Hwrite|].
  intros worksheet Hin.
  destruct (Hall worksheet Hin) as (_ & _ & _ & Hwidths & Hfrozen & Hprot).
  split; [exact (Hwidths 10)|]. split; [exact Hfrozen | exact Hprot].
Defined.


Lemma getTemplateInfo_agrees_with_validation_witness :
  exists validation info,
    validateTemplate sample_load [Byte.x50; Byte.x4b] = inr validation
    /\ getTemplateInfo sample_load sample_rowCount sample_columnCount
         [Byte.x50; Byte.x4b] = inr info
    /\ map info_name (info_sheets info) = sheets validation
    /\ info_totalSheets info = Z.of_nat (length (sheets validation)).
Proof.
  destruct (getTemplateInfo_agrees_with_validation sample_load sample_rowCount
              sample_columnCount [Byte.x50; Byte.x4b]) as [_ Hloaded].
  destruct (Hloaded [Excel.new_sheet "Sheet1"] eq_refl)
    as (validation & info & Hv & _ & Hi & Hnames & _ & _ & Htotal).
  exists validation, info. repeat split; assumption.
Defined.

Lemma template_handlers_respond_witness :
  let upload :=
    {| file_buffer := [Byte.x00]; originalname := "budget.xlsx"; upload_size := 1 |} in
  exists json1 json2,
    uploadTemplate sample_load sample_rowCount sample_columnCount sample_now
      (Some upload) = inr (res_status_json 400 json1)
    /\ validateTemplateHandler sample_load sample_rowCount sample_columnCount sample_now
         (Some upload) = inr (res_status_json 400 json2)
    /\ getNestedValue sample_inherited_member json1 "message" =
       VStr "Can't find end of central directory".
Proof.
  intros upload.
  destruct (template_handlers_respond sample_inherited_member sample_load
              sample_rowCount sample_columnCount sample_now (Some upload))
    as (_ & Hfailed & _).
  destruct (Hfailed upload (JsError "Can't find end of central directory")
              eq_refl eq_refl) as (json1 & json2 & H1 & H2 & Hm & _).
  exists json1, json2. repeat split; assumption.
Defined.



